(** * demo_automation.py: the stock dashboard macro

    A shallow embedding of [main] of [demo_automation.py] and of the parts of
    the spreadsheet host, the market-data client and the plotting library
    that [main] calls, followed by the properties of the macro.

    Conventions of the embedding:
    - prices are [Q]: the provider's numbers are taken to be finite, and the
      floating-point rounding of the host language is not modelled; the one
      non-finite case that the script can produce itself (a division by a
      zero first close) is ([xnum]);
    - volumes are [Z], as the data provider delivers them;
    - a cell address such as B7 is the pair (column index, row), [(2, 7)];
    - the host's workbook is an ordered list of sheets; sheet names are
      compared without regard to (ASCII) case, as the host does;
    - the data provider and the clock are inputs of a run ([env]). *)

From Stdlib Require Import Ascii String QArith Qround Qabs Qminmax DecimalString Lqa.
From stdpp Require Import gmap strings list fin_maps.

Local Open Scope string_scope.

(** ** Text *)

Module Text.

Definition nl : string := String (Ascii.ascii_of_nat 10) "".

Definition upper_ascii (c : ascii) : ascii :=
  let n := Ascii.N_of_ascii c in
  if ((97 <=? n) && (n <=? 122))%N then Ascii.ascii_of_N (n - 32) else c.

Definition lower_ascii (c : ascii) : ascii :=
  let n := Ascii.N_of_ascii c in
  if ((65 <=? n) && (n <=? 90))%N then Ascii.ascii_of_N (n + 32) else c.

(** The ASCII letters of a text in lower case: how the host folds sheet
    names. *)
Fixpoint lower (s : string) : string :=
  match s with
  | EmptyString => EmptyString
  | String c r => String (lower_ascii c) (lower r)
  end.

(** *** Unicode text

    A text of the language is a sequence of code points; a [string] holds
    its UTF-8 encoding. *)

(** The payload of a continuation byte, if [a] is one. *)
Definition cont (a : ascii) : option N :=
  let b := Ascii.N_of_ascii a in
  if ((128 <=? b) && (b <? 192))%N then Some (b - 128)%N else None.

(** A byte that is not part of a well-formed sequence is kept apart from
    the code points. *)
Definition stray (b : N) : N := (1114112 + b)%N.

Fixpoint decode (s : string) : list N :=
  match s with
  | EmptyString => []
  | String a r =>
      let b := Ascii.N_of_ascii a in
      if (b <? 128)%N then b :: decode r
      else
        match r with
        | String a2 r2 =>
            match cont a2 with
            | Some c2 =>
                if ((194 <=? b) && (b <? 224))%N
                then ((b - 192) * 64 + c2)%N :: decode r2
                else
                  match r2 with
                  | String a3 r3 =>
                      match cont a3 with
                      | Some c3 =>
                          let p3 := ((b - 224) * 4096 + c2 * 64 + c3)%N in
                          if ((224 <=? b) && (b <? 240) && (2048 <=? p3)
                              && negb ((55296 <=? p3) && (p3 <? 57344)))%N
                          then p3 :: decode r3
                          else
                            match r3 with
                            | String a4 r4 =>
                                match cont a4 with
                                | Some c4 =>
                                    let p4 :=
                                      ((b - 240) * 262144 + c2 * 4096
                                       + c3 * 64 + c4)%N in
                                    if ((240 <=? b) && (b <? 245)
                                        && (65536 <=? p4)
                                        && (p4 <? 1114112))%N
                                    then p4 :: decode r4
                                    else stray b :: decode r
                                | None => stray b :: decode r
                                end
                            | EmptyString => stray b :: decode r
                            end
                      | None => stray b :: decode r
                      end
                  | EmptyString => stray b :: decode r
                  end
            | None => stray b :: decode r
            end
        | EmptyString => stray b :: decode r
        end
  end.

Definition byte (n : N) : string := String (Ascii.ascii_of_N n) "".

Definition encode1 (p : N) : string :=
  if (p <? 128)%N then byte p
  else if (p <? 2048)%N then byte (192 + p / 64) ++ byte (128 + p mod 64)
  else if (p <? 65536)%N then
    byte (224 + p / 4096) ++ byte (128 + (p / 64) mod 64)
      ++ byte (128 + p mod 64)
  else if (p <? 1114112)%N then
    byte (240 + p / 262144) ++ byte (128 + (p / 4096) mod 64)
      ++ byte (128 + (p / 64) mod 64) ++ byte (128 + p mod 64)
  else byte (p - 1114112).

Fixpoint encode (l : list N) : string :=
  match l with
  | [] => ""
  | p :: r => encode1 p ++ encode r
  end.

(** The code points whose upper case is not the code point itself, with
    their upper case (one to three code points), outside ASCII: the full
    case mapping of the Unicode character database, version 14.0. *)
Definition upper_table : list (N * list N) :=
  [
    (181, [924]); (223, [83; 83]); (224, [192]); (225, [193]); (226, [194]);
    (227, [195]); (228, [196]); (229, [197]); (230, [198]); (231, [199]);
    (232, [200]); (233, [201]); (234, [202]); (235, [203]); (236, [204]);
    (237, [205]); (238, [206]); (239, [207]); (240, [208]); (241, [209]);
    (242, [210]); (243, [211]); (244, [212]); (245, [213]); (246, [214]);
    (248, [216]); (249, [217]); (250, [218]); (251, [219]); (252, [220]);
    (253, [221]); (254, [222]); (255, [376]); (257, [256]); (259, [258]);
    (261, [260]); (263, [262]); (265, [264]); (267, [266]); (269, [268]);
    (271, [270]); (273, [272]); (275, [274]); (277, [276]); (279, [278]);
    (281, [280]); (283, [282]); (285, [284]); (287, [286]); (289, [288]);
    (291, [290]); (293, [292]); (295, [294]); (297, [296]); (299, [298]);
    (301, [300]); (303, [302]); (305, [73]); (307, [306]); (309, [308]);
    (311, [310]); (314, [313]); (316, [315]); (318, [317]); (320, [319]);
    (322, [321]); (324, [323]); (326, [325]); (328, [327]); (329, [700; 78]);
    (331, [330]); (333, [332]); (335, [334]); (337, [336]); (339, [338]);
    (341, [340]); (343, [342]); (345, [344]); (347, [346]); (349, [348]);
    (351, [350]); (353, [352]); (355, [354]); (357, [356]); (359, [358]);
    (361, [360]); (363, [362]); (365, [364]); (367, [366]); (369, [368]);
    (371, [370]); (373, [372]); (375, [374]); (378, [377]); (380, [379]);
    (382, [381]); (383, [83]); (384, [579]); (387, [386]); (389, [388]);
    (392, [391]); (396, [395]); (402, [401]); (405, [502]); (409, [408]);
    (410, [573]); (414, [544]); (417, [416]); (419, [418]); (421, [420]);
    (424, [423]); (429, [428]); (432, [431]); (436, [435]); (438, [437]);
    (441, [440]); (445, [444]); (447, [503]); (453, [452]); (454, [452]);
    (456, [455]); (457, [455]); (459, [458]); (460, [458]); (462, [461]);
    (464, [463]); (466, [465]); (468, [467]); (470, [469]); (472, [471]);
    (474, [473]); (476, [475]); (477, [398]); (479, [478]); (481, [480]);
    (483, [482]); (485, [484]); (487, [486]); (489, [488]); (491, [490]);
    (493, [492]); (495, [494]); (496, [74; 780]); (498, [497]); (499, [497]);
    (501, [500]); (505, [504]); (507, [506]); (509, [508]); (511, [510]);
    (513, [512]); (515, [514]); (517, [516]); (519, [518]); (521, [520]);
    (523, [522]); (525, [524]); (527, [526]); (529, [528]); (531, [530]);
    (533, [532]); (535, [534]); (537, [536]); (539, [538]); (541, [540]);
    (543, [542]); (547, [546]); (549, [548]); (551, [550]); (553, [552]);
    (555, [554]); (557, [556]); (559, [558]); (561, [560]); (563, [562]);
    (572, [571]); (575, [11390]); (576, [11391]); (578, [577]); (583, [582]);
    (585, [584]); (587, [586]); (589, [588]); (591, [590]); (592, [11375]);
    (593, [11373]); (594, [11376]); (595, [385]); (596, [390]); (598, [393]);
    (599, [394]); (601, [399]); (603, [400]); (604, [42923]); (608, [403]);
    (609, [42924]); (611, [404]); (613, [42893]); (614, [42922]); (616, [407]);
    (617, [406]); (618, [42926]); (619, [11362]); (620, [42925]); (623, [412]);
    (625, [11374]); (626, [413]); (629, [415]); (637, [11364]); (640, [422]);
    (642, [42949]); (643, [425]); (647, [42929]); (648, [430]); (649, [580]);
    (650, [433]); (651, [434]); (652, [581]); (658, [439]); (669, [42930]);
    (670, [42928]); (837, [921]); (881, [880]); (883, [882]); (887, [886]);
    (891, [1021]); (892, [1022]); (893, [1023]); (912, [921; 776; 769]);
    (940, [902]); (941, [904]); (942, [905]); (943, [906]);
    (944, [933; 776; 769]); (945, [913]); (946, [914]); (947, [915]);
    (948, [916]); (949, [917]); (950, [918]); (951, [919]); (952, [920]);
    (953, [921]); (954, [922]); (955, [923]); (956, [924]); (957, [925]);
    (958, [926]); (959, [927]); (960, [928]); (961, [929]); (962, [931]);
    (963, [931]); (964, [932]); (965, [933]); (966, [934]); (967, [935]);
    (968, [936]); (969, [937]); (970, [938]); (971, [939]); (972, [908]);
    (973, [910]); (974, [911]); (976, [914]); (977, [920]); (981, [934]);
    (982, [928]); (983, [975]); (985, [984]); (987, [986]); (989, [988]);
    (991, [990]); (993, [992]); (995, [994]); (997, [996]); (999, [998]);
    (1001, [1000]); (1003, [1002]); (1005, [1004]); (1007, [1006]);
    (1008, [922]); (1009, [929]); (1010, [1017]); (1011, [895]); (1013, [917]);
    (1016, [1015]); (1019, [1018]); (1072, [1040]); (1073, [1041]);
    (1074, [1042]); (1075, [1043]); (1076, [1044]); (1077, [1045]);
    (1078, [1046]); (1079, [1047]); (1080, [1048]); (1081, [1049]);
    (1082, [1050]); (1083, [1051]); (1084, [1052]); (1085, [1053]);
    (1086, [1054]); (1087, [1055]); (1088, [1056]); (1089, [1057]);
    (1090, [1058]); (1091, [1059]); (1092, [1060]); (1093, [1061]);
    (1094, [1062]); (1095, [1063]); (1096, [1064]); (1097, [1065]);
    (1098, [1066]); (1099, [1067]); (1100, [1068]); (1101, [1069]);
    (1102, [1070]); (1103, [1071]); (1104, [1024]); (1105, [1025]);
    (1106, [1026]); (1107, [1027]); (1108, [1028]); (1109, [1029]);
    (1110, [1030]); (1111, [1031]); (1112, [1032]); (1113, [1033]);
    (1114, [1034]); (1115, [1035]); (1116, [1036]); (1117, [1037]);
    (1118, [1038]); (1119, [1039]); (1121, [1120]); (1123, [1122]);
    (1125, [1124]); (1127, [1126]); (1129, [1128]); (1131, [1130]);
    (1133, [1132]); (1135, [1134]); (1137, [1136]); (1139, [1138]);
    (1141, [1140]); (1143, [1142]); (1145, [1144]); (1147, [1146]);
    (1149, [1148]); (1151, [1150]); (1153, [1152]); (1163, [1162]);
    (1165, [1164]); (1167, [1166]); (1169, [1168]); (1171, [1170]);
    (1173, [1172]); (1175, [1174]); (1177, [1176]); (1179, [1178]);
    (1181, [1180]); (1183, [1182]); (1185, [1184]); (1187, [1186]);
    (1189, [1188]); (1191, [1190]); (1193, [1192]); (1195, [1194]);
    (1197, [1196]); (1199, [1198]); (1201, [1200]); (1203, [1202]);
    (1205, [1204]); (1207, [1206]); (1209, [1208]); (1211, [1210]);
    (1213, [1212]); (1215, [1214]); (1218, [1217]); (1220, [1219]);
    (1222, [1221]); (1224, [1223]); (1226, [1225]); (1228, [1227]);
    (1230, [1229]); (1231, [1216]); (1233, [1232]); (1235, [1234]);
    (1237, [1236]); (1239, [1238]); (1241, [1240]); (1243, [1242]);
    (1245, [1244]); (1247, [1246]); (1249, [1248]); (1251, [1250]);
    (1253, [1252]); (1255, [1254]); (1257, [1256]); (1259, [1258]);
    (1261, [1260]); (1263, [1262]); (1265, [1264]); (1267, [1266]);
    (1269, [1268]); (1271, [1270]); (1273, [1272]); (1275, [1274]);
    (1277, [1276]); (1279, [1278]); (1281, [1280]); (1283, [1282]);
    (1285, [1284]); (1287, [1286]); (1289, [1288]); (1291, [1290]);
    (1293, [1292]); (1295, [1294]); (1297, [1296]); (1299, [1298]);
    (1301, [1300]); (1303, [1302]); (1305, [1304]); (1307, [1306]);
    (1309, [1308]); (1311, [1310]); (1313, [1312]); (1315, [1314]);
    (1317, [1316]); (1319, [1318]); (1321, [1320]); (1323, [1322]);
    (1325, [1324]); (1327, [1326]); (1377, [1329]); (1378, [1330]);
    (1379, [1331]); (1380, [1332]); (1381, [1333]); (1382, [1334]);
    (1383, [1335]); (1384, [1336]); (1385, [1337]); (1386, [1338]);
    (1387, [1339]); (1388, [1340]); (1389, [1341]); (1390, [1342]);
    (1391, [1343]); (1392, [1344]); (1393, [1345]); (1394, [1346]);
    (1395, [1347]); (1396, [1348]); (1397, [1349]); (1398, [1350]);
    (1399, [1351]); (1400, [1352]); (1401, [1353]); (1402, [1354]);
    (1403, [1355]); (1404, [1356]); (1405, [1357]); (1406, [1358]);
    (1407, [1359]); (1408, [1360]); (1409, [1361]); (1410, [1362]);
    (1411, [1363]); (1412, [1364]); (1413, [1365]); (1414, [1366]);
    (1415, [1333; 1362]); (4304, [7312]); (4305, [7313]); (4306, [7314]);
    (4307, [7315]); (4308, [7316]); (4309, [7317]); (4310, [7318]);
    (4311, [7319]); (4312, [7320]); (4313, [7321]); (4314, [7322]);
    (4315, [7323]); (4316, [7324]); (4317, [7325]); (4318, [7326]);
    (4319, [7327]); (4320, [7328]); (4321, [7329]); (4322, [7330]);
    (4323, [7331]); (4324, [7332]); (4325, [7333]); (4326, [7334]);
    (4327, [7335]); (4328, [7336]); (4329, [7337]); (4330, [7338]);
    (4331, [7339]); (4332, [7340]); (4333, [7341]); (4334, [7342]);
    (4335, [7343]); (4336, [7344]); (4337, [7345]); (4338, [7346]);
    (4339, [7347]); (4340, [7348]); (4341, [7349]); (4342, [7350]);
    (4343, [7351]); (4344, [7352]); (4345, [7353]); (4346, [7354]);
    (4349, [7357]); (4350, [7358]); (4351, [7359]); (5112, [5104]);
    (5113, [5105]); (5114, [5106]); (5115, [5107]); (5116, [5108]);
    (5117, [5109]); (7296, [1042]); (7297, [1044]); (7298, [1054]);
    (7299, [1057]); (7300, [1058]); (7301, [1058]); (7302, [1066]);
    (7303, [1122]); (7304, [42570]); (7545, [42877]); (7549, [11363]);
    (7566, [42950]); (7681, [7680]); (7683, [7682]); (7685, [7684]);
    (7687, [7686]); (7689, [7688]); (7691, [7690]); (7693, [7692]);
    (7695, [7694]); (7697, [7696]); (7699, [7698]); (7701, [7700]);
    (7703, [7702]); (7705, [7704]); (7707, [7706]); (7709, [7708]);
    (7711, [7710]); (7713, [7712]); (7715, [7714]); (7717, [7716]);
    (7719, [7718]); (7721, [7720]); (7723, [7722]); (7725, [7724]);
    (7727, [7726]); (7729, [7728]); (7731, [7730]); (7733, [7732]);
    (7735, [7734]); (7737, [7736]); (7739, [7738]); (7741, [7740]);
    (7743, [7742]); (7745, [7744]); (7747, [7746]); (7749, [7748]);
    (7751, [7750]); (7753, [7752]); (7755, [7754]); (7757, [7756]);
    (7759, [7758]); (7761, [7760]); (7763, [7762]); (7765, [7764]);
    (7767, [7766]); (7769, [7768]); (7771, [7770]); (7773, [7772]);
    (7775, [7774]); (7777, [7776]); (7779, [7778]); (7781, [7780]);
    (7783, [7782]); (7785, [7784]); (7787, [7786]); (7789, [7788]);
    (7791, [7790]); (7793, [7792]); (7795, [7794]); (7797, [7796]);
    (7799, [7798]); (7801, [7800]); (7803, [7802]); (7805, [7804]);
    (7807, [7806]); (7809, [7808]); (7811, [7810]); (7813, [7812]);
    (7815, [7814]); (7817, [7816]); (7819, [7818]); (7821, [7820]);
    (7823, [7822]); (7825, [7824]); (7827, [7826]); (7829, [7828]);
    (7830, [72; 817]); (7831, [84; 776]); (7832, [87; 778]); (7833, [89; 778]);
    (7834, [65; 702]); (7835, [7776]); (7841, [7840]); (7843, [7842]);
    (7845, [7844]); (7847, [7846]); (7849, [7848]); (7851, [7850]);
    (7853, [7852]); (7855, [7854]); (7857, [7856]); (7859, [7858]);
    (7861, [7860]); (7863, [7862]); (7865, [7864]); (7867, [7866]);
    (7869, [7868]); (7871, [7870]); (7873, [7872]); (7875, [7874]);
    (7877, [7876]); (7879, [7878]); (7881, [7880]); (7883, [7882]);
    (7885, [7884]); (7887, [7886]); (7889, [7888]); (7891, [7890]);
    (7893, [7892]); (7895, [7894]); (7897, [7896]); (7899, [7898]);
    (7901, [7900]); (7903, [7902]); (7905, [7904]); (7907, [7906]);
    (7909, [7908]); (7911, [7910]); (7913, [7912]); (7915, [7914]);
    (7917, [7916]); (7919, [7918]); (7921, [7920]); (7923, [7922]);
    (7925, [7924]); (7927, [7926]); (7929, [7928]); (7931, [7930]);
    (7933, [7932]); (7935, [7934]); (7936, [7944]); (7937, [7945]);
    (7938, [7946]); (7939, [7947]); (7940, [7948]); (7941, [7949]);
    (7942, [7950]); (7943, [7951]); (7952, [7960]); (7953, [7961]);
    (7954, [7962]); (7955, [7963]); (7956, [7964]); (7957, [7965]);
    (7968, [7976]); (7969, [7977]); (7970, [7978]); (7971, [7979]);
    (7972, [7980]); (7973, [7981]); (7974, [7982]); (7975, [7983]);
    (7984, [7992]); (7985, [7993]); (7986, [7994]); (7987, [7995]);
    (7988, [7996]); (7989, [7997]); (7990, [7998]); (7991, [7999]);
    (8000, [8008]); (8001, [8009]); (8002, [8010]); (8003, [8011]);
    (8004, [8012]); (8005, [8013]); (8016, [933; 787]); (8017, [8025]);
    (8018, [933; 787; 768]); (8019, [8027]); (8020, [933; 787; 769]);
    (8021, [8029]); (8022, [933; 787; 834]); (8023, [8031]); (8032, [8040]);
    (8033, [8041]); (8034, [8042]); (8035, [8043]); (8036, [8044]);
    (8037, [8045]); (8038, [8046]); (8039, [8047]); (8048, [8122]);
    (8049, [8123]); (8050, [8136]); (8051, [8137]); (8052, [8138]);
    (8053, [8139]); (8054, [8154]); (8055, [8155]); (8056, [8184]);
    (8057, [8185]); (8058, [8170]); (8059, [8171]); (8060, [8186]);
    (8061, [8187]); (8064, [7944; 921]); (8065, [7945; 921]);
    (8066, [7946; 921]); (8067, [7947; 921]); (8068, [7948; 921]);
    (8069, [7949; 921]); (8070, [7950; 921]); (8071, [7951; 921]);
    (8072, [7944; 921]); (8073, [7945; 921]); (8074, [7946; 921]);
    (8075, [7947; 921]); (8076, [7948; 921]); (8077, [7949; 921]);
    (8078, [7950; 921]); (8079, [7951; 921]); (8080, [7976; 921]);
    (8081, [7977; 921]); (8082, [7978; 921]); (8083, [7979; 921]);
    (8084, [7980; 921]); (8085, [7981; 921]); (8086, [7982; 921]);
    (8087, [7983; 921]); (8088, [7976; 921]); (8089, [7977; 921]);
    (8090, [7978; 921]); (8091, [7979; 921]); (8092, [7980; 921]);
    (8093, [7981; 921]); (8094, [7982; 921]); (8095, [7983; 921]);
    (8096, [8040; 921]); (8097, [8041; 921]); (8098, [8042; 921]);
    (8099, [8043; 921]); (8100, [8044; 921]); (8101, [8045; 921]);
    (8102, [8046; 921]); (8103, [8047; 921]); (8104, [8040; 921]);
    (8105, [8041; 921]); (8106, [8042; 921]); (8107, [8043; 921]);
    (8108, [8044; 921]); (8109, [8045; 921]); (8110, [8046; 921]);
    (8111, [8047; 921]); (8112, [8120]); (8113, [8121]); (8114, [8122; 921]);
    (8115, [913; 921]); (8116, [902; 921]); (8118, [913; 834]);
    (8119, [913; 834; 921]); (8124, [913; 921]); (8126, [921]);
    (8130, [8138; 921]); (8131, [919; 921]); (8132, [905; 921]);
    (8134, [919; 834]); (8135, [919; 834; 921]); (8140, [919; 921]);
    (8144, [8152]); (8145, [8153]); (8146, [921; 776; 768]);
    (8147, [921; 776; 769]); (8150, [921; 834]); (8151, [921; 776; 834]);
    (8160, [8168]); (8161, [8169]); (8162, [933; 776; 768]);
    (8163, [933; 776; 769]); (8164, [929; 787]); (8165, [8172]);
    (8166, [933; 834]); (8167, [933; 776; 834]); (8178, [8186; 921]);
    (8179, [937; 921]); (8180, [911; 921]); (8182, [937; 834]);
    (8183, [937; 834; 921]); (8188, [937; 921]); (8526, [8498]);
    (8560, [8544]); (8561, [8545]); (8562, [8546]); (8563, [8547]);
    (8564, [8548]); (8565, [8549]); (8566, [8550]); (8567, [8551]);
    (8568, [8552]); (8569, [8553]); (8570, [8554]); (8571, [8555]);
    (8572, [8556]); (8573, [8557]); (8574, [8558]); (8575, [8559]);
    (8580, [8579]); (9424, [9398]); (9425, [9399]); (9426, [9400]);
    (9427, [9401]); (9428, [9402]); (9429, [9403]); (9430, [9404]);
    (9431, [9405]); (9432, [9406]); (9433, [9407]); (9434, [9408]);
    (9435, [9409]); (9436, [9410]); (9437, [9411]); (9438, [9412]);
    (9439, [9413]); (9440, [9414]); (9441, [9415]); (9442, [9416]);
    (9443, [9417]); (9444, [9418]); (9445, [9419]); (9446, [9420]);
    (9447, [9421]); (9448, [9422]); (9449, [9423]); (11312, [11264]);
    (11313, [11265]); (11314, [11266]); (11315, [11267]); (11316, [11268]);
    (11317, [11269]); (11318, [11270]); (11319, [11271]); (11320, [11272]);
    (11321, [11273]); (11322, [11274]); (11323, [11275]); (11324, [11276]);
    (11325, [11277]); (11326, [11278]); (11327, [11279]); (11328, [11280]);
    (11329, [11281]); (11330, [11282]); (11331, [11283]); (11332, [11284]);
    (11333, [11285]); (11334, [11286]); (11335, [11287]); (11336, [11288]);
    (11337, [11289]); (11338, [11290]); (11339, [11291]); (11340, [11292]);
    (11341, [11293]); (11342, [11294]); (11343, [11295]); (11344, [11296]);
    (11345, [11297]); (11346, [11298]); (11347, [11299]); (11348, [11300]);
    (11349, [11301]); (11350, [11302]); (11351, [11303]); (11352, [11304]);
    (11353, [11305]); (11354, [11306]); (11355, [11307]); (11356, [11308]);
    (11357, [11309]); (11358, [11310]); (11359, [11311]); (11361, [11360]);
    (11365, [570]); (11366, [574]); (11368, [11367]); (11370, [11369]);
    (11372, [11371]); (11379, [11378]); (11382, [11381]); (11393, [11392]);
    (11395, [11394]); (11397, [11396]); (11399, [11398]); (11401, [11400]);
    (11403, [11402]); (11405, [11404]); (11407, [11406]); (11409, [11408]);
    (11411, [11410]); (11413, [11412]); (11415, [11414]); (11417, [11416]);
    (11419, [11418]); (11421, [11420]); (11423, [11422]); (11425, [11424]);
    (11427, [11426]); (11429, [11428]); (11431, [11430]); (11433, [11432]);
    (11435, [11434]); (11437, [11436]); (11439, [11438]); (11441, [11440]);
    (11443, [11442]); (11445, [11444]); (11447, [11446]); (11449, [11448]);
    (11451, [11450]); (11453, [11452]); (11455, [11454]); (11457, [11456]);
    (11459, [11458]); (11461, [11460]); (11463, [11462]); (11465, [11464]);
    (11467, [11466]); (11469, [11468]); (11471, [11470]); (11473, [11472]);
    (11475, [11474]); (11477, [11476]); (11479, [11478]); (11481, [11480]);
    (11483, [11482]); (11485, [11484]); (11487, [11486]); (11489, [11488]);
    (11491, [11490]); (11500, [11499]); (11502, [11501]); (11507, [11506]);
    (11520, [4256]); (11521, [4257]); (11522, [4258]); (11523, [4259]);
    (11524, [4260]); (11525, [4261]); (11526, [4262]); (11527, [4263]);
    (11528, [4264]); (11529, [4265]); (11530, [4266]); (11531, [4267]);
    (11532, [4268]); (11533, [4269]); (11534, [4270]); (11535, [4271]);
    (11536, [4272]); (11537, [4273]); (11538, [4274]); (11539, [4275]);
    (11540, [4276]); (11541, [4277]); (11542, [4278]); (11543, [4279]);
    (11544, [4280]); (11545, [4281]); (11546, [4282]); (11547, [4283]);
    (11548, [4284]); (11549, [4285]); (11550, [4286]); (11551, [4287]);
    (11552, [4288]); (11553, [4289]); (11554, [4290]); (11555, [4291]);
    (11556, [4292]); (11557, [4293]); (11559, [4295]); (11565, [4301]);
    (42561, [42560]); (42563, [42562]); (42565, [42564]); (42567, [42566]);
    (42569, [42568]); (42571, [42570]); (42573, [42572]); (42575, [42574]);
    (42577, [42576]); (42579, [42578]); (42581, [42580]); (42583, [42582]);
    (42585, [42584]); (42587, [42586]); (42589, [42588]); (42591, [42590]);
    (42593, [42592]); (42595, [42594]); (42597, [42596]); (42599, [42598]);
    (42601, [42600]); (42603, [42602]); (42605, [42604]); (42625, [42624]);
    (42627, [42626]); (42629, [42628]); (42631, [42630]); (42633, [42632]);
    (42635, [42634]); (42637, [42636]); (42639, [42638]); (42641, [42640]);
    (42643, [42642]); (42645, [42644]); (42647, [42646]); (42649, [42648]);
    (42651, [42650]); (42787, [42786]); (42789, [42788]); (42791, [42790]);
    (42793, [42792]); (42795, [42794]); (42797, [42796]); (42799, [42798]);
    (42803, [42802]); (42805, [42804]); (42807, [42806]); (42809, [42808]);
    (42811, [42810]); (42813, [42812]); (42815, [42814]); (42817, [42816]);
    (42819, [42818]); (42821, [42820]); (42823, [42822]); (42825, [42824]);
    (42827, [42826]); (42829, [42828]); (42831, [42830]); (42833, [42832]);
    (42835, [42834]); (42837, [42836]); (42839, [42838]); (42841, [42840]);
    (42843, [42842]); (42845, [42844]); (42847, [42846]); (42849, [42848]);
    (42851, [42850]); (42853, [42852]); (42855, [42854]); (42857, [42856]);
    (42859, [42858]); (42861, [42860]); (42863, [42862]); (42874, [42873]);
    (42876, [42875]); (42879, [42878]); (42881, [42880]); (42883, [42882]);
    (42885, [42884]); (42887, [42886]); (42892, [42891]); (42897, [42896]);
    (42899, [42898]); (42900, [42948]); (42903, [42902]); (42905, [42904]);
    (42907, [42906]); (42909, [42908]); (42911, [42910]); (42913, [42912]);
    (42915, [42914]); (42917, [42916]); (42919, [42918]); (42921, [42920]);
    (42933, [42932]); (42935, [42934]); (42937, [42936]); (42939, [42938]);
    (42941, [42940]); (42943, [42942]); (42945, [42944]); (42947, [42946]);
    (42952, [42951]); (42954, [42953]); (42961, [42960]); (42967, [42966]);
    (42969, [42968]); (42998, [42997]); (43859, [42931]); (43888, [5024]);
    (43889, [5025]); (43890, [5026]); (43891, [5027]); (43892, [5028]);
    (43893, [5029]); (43894, [5030]); (43895, [5031]); (43896, [5032]);
    (43897, [5033]); (43898, [5034]); (43899, [5035]); (43900, [5036]);
    (43901, [5037]); (43902, [5038]); (43903, [5039]); (43904, [5040]);
    (43905, [5041]); (43906, [5042]); (43907, [5043]); (43908, [5044]);
    (43909, [5045]); (43910, [5046]); (43911, [5047]); (43912, [5048]);
    (43913, [5049]); (43914, [5050]); (43915, [5051]); (43916, [5052]);
    (43917, [5053]); (43918, [5054]); (43919, [5055]); (43920, [5056]);
    (43921, [5057]); (43922, [5058]); (43923, [5059]); (43924, [5060]);
    (43925, [5061]); (43926, [5062]); (43927, [5063]); (43928, [5064]);
    (43929, [5065]); (43930, [5066]); (43931, [5067]); (43932, [5068]);
    (43933, [5069]); (43934, [5070]); (43935, [5071]); (43936, [5072]);
    (43937, [5073]); (43938, [5074]); (43939, [5075]); (43940, [5076]);
    (43941, [5077]); (43942, [5078]); (43943, [5079]); (43944, [5080]);
    (43945, [5081]); (43946, [5082]); (43947, [5083]); (43948, [5084]);
    (43949, [5085]); (43950, [5086]); (43951, [5087]); (43952, [5088]);
    (43953, [5089]); (43954, [5090]); (43955, [5091]); (43956, [5092]);
    (43957, [5093]); (43958, [5094]); (43959, [5095]); (43960, [5096]);
    (43961, [5097]); (43962, [5098]); (43963, [5099]); (43964, [5100]);
    (43965, [5101]); (43966, [5102]); (43967, [5103]); (64256, [70; 70]);
    (64257, [70; 73]); (64258, [70; 76]); (64259, [70; 70; 73]);
    (64260, [70; 70; 76]); (64261, [83; 84]); (64262, [83; 84]);
    (64275, [1348; 1350]); (64276, [1348; 1333]); (64277, [1348; 1339]);
    (64278, [1358; 1350]); (64279, [1348; 1341]); (65345, [65313]);
    (65346, [65314]); (65347, [65315]); (65348, [65316]); (65349, [65317]);
    (65350, [65318]); (65351, [65319]); (65352, [65320]); (65353, [65321]);
    (65354, [65322]); (65355, [65323]); (65356, [65324]); (65357, [65325]);
    (65358, [65326]); (65359, [65327]); (65360, [65328]); (65361, [65329]);
    (65362, [65330]); (65363, [65331]); (65364, [65332]); (65365, [65333]);
    (65366, [65334]); (65367, [65335]); (65368, [65336]); (65369, [65337]);
    (65370, [65338]); (66600, [66560]); (66601, [66561]); (66602, [66562]);
    (66603, [66563]); (66604, [66564]); (66605, [66565]); (66606, [66566]);
    (66607, [66567]); (66608, [66568]); (66609, [66569]); (66610, [66570]);
    (66611, [66571]); (66612, [66572]); (66613, [66573]); (66614, [66574]);
    (66615, [66575]); (66616, [66576]); (66617, [66577]); (66618, [66578]);
    (66619, [66579]); (66620, [66580]); (66621, [66581]); (66622, [66582]);
    (66623, [66583]); (66624, [66584]); (66625, [66585]); (66626, [66586]);
    (66627, [66587]); (66628, [66588]); (66629, [66589]); (66630, [66590]);
    (66631, [66591]); (66632, [66592]); (66633, [66593]); (66634, [66594]);
    (66635, [66595]); (66636, [66596]); (66637, [66597]); (66638, [66598]);
    (66639, [66599]); (66776, [66736]); (66777, [66737]); (66778, [66738]);
    (66779, [66739]); (66780, [66740]); (66781, [66741]); (66782, [66742]);
    (66783, [66743]); (66784, [66744]); (66785, [66745]); (66786, [66746]);
    (66787, [66747]); (66788, [66748]); (66789, [66749]); (66790, [66750]);
    (66791, [66751]); (66792, [66752]); (66793, [66753]); (66794, [66754]);
    (66795, [66755]); (66796, [66756]); (66797, [66757]); (66798, [66758]);
    (66799, [66759]); (66800, [66760]); (66801, [66761]); (66802, [66762]);
    (66803, [66763]); (66804, [66764]); (66805, [66765]); (66806, [66766]);
    (66807, [66767]); (66808, [66768]); (66809, [66769]); (66810, [66770]);
    (66811, [66771]); (66967, [66928]); (66968, [66929]); (66969, [66930]);
    (66970, [66931]); (66971, [66932]); (66972, [66933]); (66973, [66934]);
    (66974, [66935]); (66975, [66936]); (66976, [66937]); (66977, [66938]);
    (66979, [66940]); (66980, [66941]); (66981, [66942]); (66982, [66943]);
    (66983, [66944]); (66984, [66945]); (66985, [66946]); (66986, [66947]);
    (66987, [66948]); (66988, [66949]); (66989, [66950]); (66990, [66951]);
    (66991, [66952]); (66992, [66953]); (66993, [66954]); (66995, [66956]);
    (66996, [66957]); (66997, [66958]); (66998, [66959]); (66999, [66960]);
    (67000, [66961]); (67001, [66962]); (67003, [66964]); (67004, [66965]);
    (68800, [68736]); (68801, [68737]); (68802, [68738]); (68803, [68739]);
    (68804, [68740]); (68805, [68741]); (68806, [68742]); (68807, [68743]);
    (68808, [68744]); (68809, [68745]); (68810, [68746]); (68811, [68747]);
    (68812, [68748]); (68813, [68749]); (68814, [68750]); (68815, [68751]);
    (68816, [68752]); (68817, [68753]); (68818, [68754]); (68819, [68755]);
    (68820, [68756]); (68821, [68757]); (68822, [68758]); (68823, [68759]);
    (68824, [68760]); (68825, [68761]); (68826, [68762]); (68827, [68763]);
    (68828, [68764]); (68829, [68765]); (68830, [68766]); (68831, [68767]);
    (68832, [68768]); (68833, [68769]); (68834, [68770]); (68835, [68771]);
    (68836, [68772]); (68837, [68773]); (68838, [68774]); (68839, [68775]);
    (68840, [68776]); (68841, [68777]); (68842, [68778]); (68843, [68779]);
    (68844, [68780]); (68845, [68781]); (68846, [68782]); (68847, [68783]);
    (68848, [68784]); (68849, [68785]); (68850, [68786]); (71872, [71840]);
    (71873, [71841]); (71874, [71842]); (71875, [71843]); (71876, [71844]);
    (71877, [71845]); (71878, [71846]); (71879, [71847]); (71880, [71848]);
    (71881, [71849]); (71882, [71850]); (71883, [71851]); (71884, [71852]);
    (71885, [71853]); (71886, [71854]); (71887, [71855]); (71888, [71856]);
    (71889, [71857]); (71890, [71858]); (71891, [71859]); (71892, [71860]);
    (71893, [71861]); (71894, [71862]); (71895, [71863]); (71896, [71864]);
    (71897, [71865]); (71898, [71866]); (71899, [71867]); (71900, [71868]);
    (71901, [71869]); (71902, [71870]); (71903, [71871]); (93792, [93760]);
    (93793, [93761]); (93794, [93762]); (93795, [93763]); (93796, [93764]);
    (93797, [93765]); (93798, [93766]); (93799, [93767]); (93800, [93768]);
    (93801, [93769]); (93802, [93770]); (93803, [93771]); (93804, [93772]);
    (93805, [93773]); (93806, [93774]); (93807, [93775]); (93808, [93776]);
    (93809, [93777]); (93810, [93778]); (93811, [93779]); (93812, [93780]);
    (93813, [93781]); (93814, [93782]); (93815, [93783]); (93816, [93784]);
    (93817, [93785]); (93818, [93786]); (93819, [93787]); (93820, [93788]);
    (93821, [93789]); (93822, [93790]); (93823, [93791]); (125218, [125184]);
    (125219, [125185]); (125220, [125186]); (125221, [125187]);
    (125222, [125188]); (125223, [125189]); (125224, [125190]);
    (125225, [125191]); (125226, [125192]); (125227, [125193]);
    (125228, [125194]); (125229, [125195]); (125230, [125196]);
    (125231, [125197]); (125232, [125198]); (125233, [125199]);
    (125234, [125200]); (125235, [125201]); (125236, [125202]);
    (125237, [125203]); (125238, [125204]); (125239, [125205]);
    (125240, [125206]); (125241, [125207]); (125242, [125208]);
    (125243, [125209]); (125244, [125210]); (125245, [125211]);
    (125246, [125212]); (125247, [125213]); (125248, [125214]);
    (125249, [125215]); (125250, [125216]); (125251, [125217])
  ]%N.

Fixpoint assoc (p : N) (t : list (N * list N)) : option (list N) :=
  match t with
  | [] => None
  | (k, v) :: r => if (k =? p)%N then Some v else assoc p r
  end.

Definition upper_point (p : N) : list N :=
  if (p <? 128)%N then
    [if ((97 <=? p) && (p <=? 122))%N then (p - 32)%N else p]
  else
    match assoc p upper_table with
    | Some l => l
    | None => [p]
    end.

(** [str.upper()] *)
Definition upper (s : string) : string :=
  encode (flat_map upper_point (decode s)).

Definition digits (n : N) : string := NilZero.string_of_uint (N.to_uint n).

(** [n] written with at least [w] digits, zero-padded on the left. *)
Fixpoint zeros (k : nat) : string :=
  match k with O => "" | S k' => "0" ++ zeros k' end.

Definition pad (w : nat) (n : N) : string :=
  let d := digits n in zeros (w - String.length d) ++ d.

(** Thousands separators: a comma before every group of three digits,
    counted from the right. *)
Fixpoint group (s : string) : string :=
  match s with
  | EmptyString => EmptyString
  | String c r =>
      let n := String.length r in
      String c ((if (0 <? n)%nat && (n mod 3 =? 0)%nat then "," else "")
                ++ group r)
  end.

End Text.

(** ** Numbers *)

Module Num.

(** Nearest integer, ties to the even neighbour. *)
Definition round_half_even (q : Q) : Z :=
  let f := Qfloor q in
  match (q - inject_Z f ?= 1 # 2)%Q with
  | Lt => f
  | Gt => (f + 1)%Z
  | Eq => if Z.even f then f else (f + 1)%Z
  end.

(** [DataFrame.round(2)] on one entry. *)
Definition round2 (q : Q) : Q :=
  (inject_Z (round_half_even (q * 100)) / 100)%Q.

(** Fixed-point format specs [.df], [+.df] and [,.df]: [d] decimals, an
    explicit plus sign when [plus], thousands separators when [comma]. *)
Definition fmt_fixed (d : nat) (plus comma : bool) (q : Q) : string :=
  let scale := (10 ^ N.of_nat d)%N in
  let n := Z.to_N (round_half_even (Qabs q * inject_Z (Z.of_N scale))) in
  let ip := Text.digits (n / scale)%N in
  let sign :=
    match (q ?= 0)%Q with
    | Lt => "-"
    | _ => if plus then "+" else ""
    end in
  sign ++ (if comma then Text.group ip else ip)
       ++ match d with
          | O => ""
          | S _ => "." ++ Text.pad d (n mod scale)%N
          end.

(** The result of a float division: finite, or one of the non-finite
    values that a zero divisor yields. *)
Inductive xnum :=
| Finite (q : Q)
| PosInf
| NegInf
| NaN.

(** [a / b] on the provider's float scalars: a zero divisor does not
    raise, it yields an infinity or not-a-number. *)
Definition fdiv (a b : Q) : xnum :=
  if Qeq_bool b 0 then
    match (a ?= 0)%Q with
    | Gt => PosInf
    | Lt => NegInf
    | Eq => NaN
    end
  else Finite (a / b).

Definition fmul (x : xnum) (k : Q) : xnum :=
  match x with
  | Finite q => Finite (q * k)
  | PosInf => match (k ?= 0)%Q with Gt => PosInf | Lt => NegInf | Eq => NaN end
  | NegInf => match (k ?= 0)%Q with Gt => NegInf | Lt => PosInf | Eq => NaN end
  | NaN => NaN
  end.

Definition is_finite (x : xnum) : bool :=
  match x with Finite _ => true | _ => false end.

Definition fmt_xnum (d : nat) (plus : bool) (x : xnum) : string :=
  match x with
  | Finite q => fmt_fixed d plus false q
  | PosInf => (if plus then "+" else "") ++ "inf"
  | NegInf => "-inf"
  | NaN => (if plus then "+" else "") ++ "nan"
  end.

(** [Series.max()], [Series.min()] and [Series.mean()]; [None] on an
    empty series. *)
Definition series_max (l : list Q) : option Q :=
  match l with
  | [] => None
  | x :: r => Some (fold_left Qmax r x)
  end.

Definition series_min (l : list Q) : option Q :=
  match l with
  | [] => None
  | x :: r => Some (fold_left Qmin r x)
  end.

Definition series_mean (l : list Z) : option Q :=
  match l with
  | [] => None
  | _ => Some (inject_Z (fold_left Z.add l 0%Z)
               / inject_Z (Z.of_nat (length l)))%Q
  end.

End Num.

(** ** Data model *)

(** What a cell or a metadata entry can hold. *)
Inductive value :=
| VNone
| VStr (s : string)
| VNum (q : Q)
| VBool (b : bool).

(** Truth value of [v] in a condition ([not ticker]). *)
Definition truthy (v : value) : bool :=
  match v with
  | VNone => false
  | VStr s => negb (String.eqb s "")
  | VNum q => negb (Qeq_bool q 0)
  | VBool b => b
  end.

Record date := { d_year : N; d_month : N; d_day : N }.

Record datetime :=
  { dt_date : date; dt_hour : N; dt_minute : N; dt_second : N }.

(** [strftime("%Y-%m-%d")] and [strftime("%Y-%m-%d %H:%M:%S")]. *)
Definition strftime_ymd (d : date) : string :=
  Text.pad 4 (d_year d) ++ "-" ++ Text.pad 2 (d_month d)
    ++ "-" ++ Text.pad 2 (d_day d).

Definition strftime_ymd_hms (t : datetime) : string :=
  strftime_ymd (dt_date t) ++ " " ++ Text.pad 2 (dt_hour t)
    ++ ":" ++ Text.pad 2 (dt_minute t) ++ ":" ++ Text.pad 2 (dt_second t).

(** One daily record of the HistoricalSeries; the series is chronological. *)
Record row :=
  { r_date : date;
    r_open : Q;
    r_high : Q;
    r_low : Q;
    r_close : Q;
    r_volume : Z }.

(** What a run takes from outside the workbook: the rows the provider
    returns for the ticker, the issuer metadata ([None] when fetching it
    raises) and the clock. *)
Record env :=
  { env_hist : list row;
    env_info : option (gmap string value);
    env_now : datetime }.

Definition rgb : Type := Z * Z * Z.

(** Column index and row of a cell. *)
Definition addr : Type := nat * nat.

Definition col_A : nat := 1.
Definition col_B : nat := 2.
Definition col_D : nat := 4.
Definition col_I : nat := 9.
Definition col_K : nat := 11.

Record cell :=
  { c_value : value;
    c_font_size : option Z;
    c_font_bold : bool;
    c_font_color : option rgb;
    c_number_format : option string;
    c_color : option rgb }.

Definition blank : cell :=
  {| c_value := VNone; c_font_size := None; c_font_bold := false;
     c_font_color := None; c_number_format := None; c_color := None |}.

(** The two-panel figure: what is drawn, not how it is rasterised. *)
Record marker :=
  { mk_x : date; mk_y : Q; mk_color : string; mk_shape : string }.

Record figure :=
  { fig_title : string;
    fig_line : list (date * Q);
    fig_markers : list marker;
    fig_bars : list (date * Z * string) }.

Record picture :=
  { p_name : string;
    p_anchor : addr;
    p_width : Z;
    p_height : Z;
    p_image : figure }.

Record grid :=
  { g_cells : gmap addr cell;
    g_borders : list (addr * addr * Z);
    g_autofit : list (nat * nat);
    g_pictures : list picture }.

Definition empty_grid : grid :=
  {| g_cells := ∅; g_borders := []; g_autofit := []; g_pictures := [] |}.

Record sheet := { sh_name : string; sh_grid : grid }.

(** What a defined name refers to: a cell of a sheet, or nothing any more
    (the sheet it pointed into was deleted). *)
Inductive nref :=
| RefTo (sheet_name : string) (a : addr)
| RefError.

Record book :=
  { bk_sheets : list sheet;
    bk_names : gmap string nref;
    bk_active : option string }.

Record alert := { a_title : string; a_body : string }.

(** ** Exceptions, early return and the state of a run *)

Inductive exn :=
| KeyError
| IndexError
| ValueError
| AttributeError
| HostError
| ProviderError.

Inductive outcome (A : Type) :=
| Val (a : A)
| Returned
| Raised (e : exn).
Arguments Val {A} a.
Arguments Returned {A}.
Arguments Raised {A} e.

Record world := { w_book : book; w_alerts : list alert }.

Definition M (A : Type) : Type := world → outcome A * world.

#[global] Instance M_ret : MRet M := λ A a w, (Val a, w).

#[global] Instance M_bind : MBind M := λ A B k m w,
  match m w with
  | (Val a, w') => k a w'
  | (Returned, w') => (Returned, w')
  | (Raised e, w') => (Raised e, w')
  end.

Definition raise {A} (e : exn) : M A := λ w, (Raised e, w).

(** The [return] statement. *)
Definition return_ {A} : M A := λ w, (Returned, w).

(** [try: m except: h] with a bare [except]: every exception is caught,
    a [return] inside [m] is not. *)
Definition try_except {A} (m h : M A) : M A := λ w,
  match m w with
  | (Raised _, w') => h w'
  | r => r
  end.

(** A function body: [return] ends the call normally. *)
Definition call (m : M ()) : M () := λ w,
  match m w with
  | (Returned, w') => (Val (), w')
  | r => r
  end.

Definition get_book : M book := λ w, (Val (w_book w), w).

Definition put_book (b : book) : M () := λ w,
  (Val (), {| w_book := b; w_alerts := w_alerts w |}).

(** [seq[i]] with the negative indices of the language. *)
Definition iloc {A} (l : list A) (i : Z) : M A :=
  let j := if (i <? 0)%Z then (Z.of_nat (length l) + i)%Z else i in
  if (j <? 0)%Z then raise IndexError
  else match l !! Z.to_nat j with
       | Some x => mret x
       | None => raise IndexError
       end.

Definition unwrap {A} (o : option A) (e : exn) : M A :=
  match o with
  | Some x => mret x
  | None => raise e
  end.

(** [s.upper()]: only a string has the method. *)
Definition str_upper (v : value) : M string :=
  match v with
  | VStr s => mret (Text.upper s)
  | _ => raise AttributeError
  end.

(** [d.get(key, dflt)]. *)
Definition dict_get (d : gmap string value) (key : string) (dflt : value) : value :=
  default dflt (d !! key).

(** ** The spreadsheet host *)

Module xw.

(** Sheet names are matched without regard to case. *)
Definition same_name (a b : string) : bool :=
  String.eqb (Text.lower a) (Text.lower b).

Fixpoint find_sheet (n : string) (l : list sheet) : option sheet :=
  match l with
  | [] => None
  | s :: r => if same_name (sh_name s) n then Some s else find_sheet n r
  end.

Fixpoint remove_sheet (n : string) (l : list sheet) : list sheet :=
  match l with
  | [] => []
  | s :: r => if same_name (sh_name s) n then r else s :: remove_sheet n r
  end.

Fixpoint update_sheet (n : string) (f : grid → grid) (l : list sheet)
  : list sheet :=
  match l with
  | [] => []
  | s :: r =>
      if same_name (sh_name s) n
      then {| sh_name := sh_name s; sh_grid := f (sh_grid s) |} :: r
      else s :: update_sheet n f r
  end.

Fixpoint insert_after (n : string) (new : sheet) (l : list sheet)
  : list sheet :=
  match l with
  | [] => []
  | s :: r =>
      if same_name (sh_name s) n then s :: new :: r
      else s :: insert_after n new r
  end.

(** A name that pointed into a deleted sheet refers to nothing. *)
Definition invalidate (n : string) (r : nref) : nref :=
  match r with
  | RefTo s a => if same_name s n then RefError else RefTo s a
  | RefError => RefError
  end.

(** [app.alert(body, title=title)]: a modal dialog. *)
Definition alert (body title : string) : M () := λ w,
  (Val (), {| w_book := w_book w;
              w_alerts := w_alerts w ++ [{| a_title := title; a_body := body |}] |}).

(** [wb.names[n]] *)
Definition names_get (n : string) : M nref :=
  b ← get_book;
  unwrap (bk_names b !! n) KeyError.

(** [.refers_to_range] *)
Definition refers_to_range (r : nref) : M (string * addr) :=
  match r with
  | RefTo s a => mret (s, a)
  | RefError => raise HostError
  end.

(** [.value] of a one-cell range; an empty cell reads as [None]. *)
Definition range_value (rg : string * addr) : M value :=
  b ← get_book;
  s ← unwrap (find_sheet rg.1 (bk_sheets b)) HostError;
  mret (c_value (default blank (g_cells (sh_grid s) !! rg.2))).

(** [wb.sheets[n]]: a handle on the sheet of that name. *)
Definition sheets_get (n : string) : M string :=
  b ← get_book;
  s ← unwrap (find_sheet n (bk_sheets b)) KeyError;
  mret (sh_name s).

(** [wb.sheets[i]] *)
Definition sheets_index (i : nat) : M string :=
  b ← get_book;
  s ← unwrap (bk_sheets b !! i) IndexError;
  mret (sh_name s).

(** [sheet.delete()]: the host refuses to delete the only sheet of a
    workbook. Names that point into the sheet are invalidated; which
    sheet the host activates when the active one goes is not modelled. *)
Definition sheet_delete (h : string) : M () :=
  b ← get_book;
  s ← unwrap (find_sheet h (bk_sheets b)) HostError;
  if (length (bk_sheets b) <=? 1)%nat then raise HostError
  else
    put_book
      {| bk_sheets := remove_sheet h (bk_sheets b);
         bk_names := invalidate (sh_name s) <$> bk_names b;
         bk_active :=
           match bk_active b with
           | Some a => if same_name a h then None else Some a
           | None => None
           end |}.

(** [wb.sheets.add(name, after=after)]: refuses a name that is taken. *)
Definition sheets_add (name after : string) : M string :=
  b ← get_book;
  if existsb (λ s, same_name (sh_name s) name) (bk_sheets b)
  then raise ValueError
  else
    _ ← unwrap (find_sheet after (bk_sheets b)) HostError;
    put_book
      {| bk_sheets :=
           insert_after after
             {| sh_name := name; sh_grid := empty_grid |} (bk_sheets b);
         bk_names := bk_names b;
         bk_active := bk_active b |};;
    mret name.

(** [sheet.activate()] *)
Definition sheet_activate (h : string) : M () :=
  b ← get_book;
  s ← unwrap (find_sheet h (bk_sheets b)) HostError;
  put_book
    {| bk_sheets := bk_sheets b;
       bk_names := bk_names b;
       bk_active := Some (sh_name s) |}.

(** Every write through a sheet handle. *)
Definition sheet_op (h : string) (f : grid → grid) : M () :=
  b ← get_book;
  _ ← unwrap (find_sheet h (bk_sheets b)) HostError;
  put_book
    {| bk_sheets := update_sheet h f (bk_sheets b);
       bk_names := bk_names b;
       bk_active := bk_active b |}.

(** *** Edits of one sheet *)

Definition edit_cell (a : addr) (f : cell → cell) (g : grid) : grid :=
  {| g_cells := <[a := f (default blank (g_cells g !! a))]> (g_cells g);
     g_borders := g_borders g;
     g_autofit := g_autofit g;
     g_pictures := g_pictures g |}.

Definition with_value (v : value) (c : cell) : cell :=
  {| c_value := v; c_font_size := c_font_size c;
     c_font_bold := c_font_bold c; c_font_color := c_font_color c;
     c_number_format := c_number_format c; c_color := c_color c |}.

Definition with_font_size (z : Z) (c : cell) : cell :=
  {| c_value := c_value c; c_font_size := Some z;
     c_font_bold := c_font_bold c; c_font_color := c_font_color c;
     c_number_format := c_number_format c; c_color := c_color c |}.

Definition with_font_bold (b : bool) (c : cell) : cell :=
  {| c_value := c_value c; c_font_size := c_font_size c;
     c_font_bold := b; c_font_color := c_font_color c;
     c_number_format := c_number_format c; c_color := c_color c |}.

Definition with_font_color (k : rgb) (c : cell) : cell :=
  {| c_value := c_value c; c_font_size := c_font_size c;
     c_font_bold := c_font_bold c; c_font_color := Some k;
     c_number_format := c_number_format c; c_color := c_color c |}.

Definition with_number_format (s : string) (c : cell) : cell :=
  {| c_value := c_value c; c_font_size := c_font_size c;
     c_font_bold := c_font_bold c; c_font_color := c_font_color c;
     c_number_format := Some s; c_color := c_color c |}.

Definition with_color (k : rgb) (c : cell) : cell :=
  {| c_value := c_value c; c_font_size := c_font_size c;
     c_font_bold := c_font_bold c; c_font_color := c_font_color c;
     c_number_format := c_number_format c; c_color := Some k |}.

(** The cells of the rectangle between two corners, row by row. *)
Definition block (a1 a2 : addr) : list addr :=
  flat_map
    (λ r, map (λ c, (c, r)) (seq a1.1 (S a2.1 - a1.1)))
    (seq a1.2 (S a2.2 - a1.2)).

Definition edit_block (a1 a2 : addr) (f : cell → cell) (g : grid) : grid :=
  fold_left (λ g a, edit_cell a f g) (block a1 a2) g.

(** A two-dimensional array written from its top-left corner. *)
Fixpoint write_row (c r : nat) (vs : list value) (g : grid) : grid :=
  match vs with
  | [] => g
  | v :: vs' => write_row (S c) r vs' (edit_cell (c, r) (with_value v) g)
  end.

Fixpoint write_array (c r : nat) (rows : list (list value)) (g : grid)
  : grid :=
  match rows with
  | [] => g
  | vs :: rows' => write_array c (S r) rows' (write_row c r vs g)
  end.

Definition add_border (a1 a2 : addr) (weight : Z) (g : grid) : grid :=
  {| g_cells := g_cells g;
     g_borders := g_borders g ++ [(a1, a2, weight)];
     g_autofit := g_autofit g;
     g_pictures := g_pictures g |}.

Definition add_autofit (c1 c2 : nat) (g : grid) : grid :=
  {| g_cells := g_cells g;
     g_borders := g_borders g;
     g_autofit := g_autofit g ++ [(c1, c2)];
     g_pictures := g_pictures g |}.

(** [pictures.add(..., update=True)]: a picture of the same name is
    replaced, otherwise the picture is added. *)
Definition add_picture (p : picture) (g : grid) : grid :=
  {| g_cells := g_cells g;
     g_borders := g_borders g;
     g_autofit := g_autofit g;
     g_pictures :=
       if existsb (λ q, String.eqb (p_name q) (p_name p)) (g_pictures g)
       then map (λ q, if String.eqb (p_name q) (p_name p) then p else q)
              (g_pictures g)
       else g_pictures g ++ [p] |}.

(** *** The calls of the script *)

Definition set_value (h : string) (a : addr) (v : value) : M () :=
  sheet_op h (edit_cell a (with_value v)).
Definition set_font_size (h : string) (a : addr) (z : Z) : M () :=
  sheet_op h (edit_cell a (with_font_size z)).
Definition set_font_bold (h : string) (a : addr) (b : bool) : M () :=
  sheet_op h (edit_cell a (with_font_bold b)).
Definition set_font_color (h : string) (a : addr) (k : rgb) : M () :=
  sheet_op h (edit_cell a (with_font_color k)).
Definition set_number_format (h : string) (a : addr) (s : string) : M () :=
  sheet_op h (edit_cell a (with_number_format s)).
Definition set_array (h : string) (a : addr) (rows : list (list value))
  : M () :=
  sheet_op h (write_array a.1 a.2 rows).
Definition set_borders_weight (h : string) (a1 a2 : addr) (z : Z) : M () :=
  sheet_op h (add_border a1 a2 z).
Definition set_block_color (h : string) (a1 a2 : addr) (k : rgb) : M () :=
  sheet_op h (edit_block a1 a2 (with_color k)).
Definition set_block_font_color (h : string) (a1 a2 : addr) (k : rgb)
  : M () :=
  sheet_op h (edit_block a1 a2 (with_font_color k)).
Definition set_block_font_bold (h : string) (a1 a2 : addr) (b : bool)
  : M () :=
  sheet_op h (edit_block a1 a2 (with_font_bold b)).
Definition autofit (h : string) (c1 c2 : nat) : M () :=
  sheet_op h (add_autofit c1 c2).
Definition pictures_add (h : string) (p : picture) : M () :=
  sheet_op h (add_picture p).

End xw.

(** ** The market-data client *)

(** What the data provider does in a run. Creating the client and fetching
    the history are network calls outside any [try]: each may raise
    ([pv_ticker], [pv_history] give the exception, if any). Otherwise the
    fetch answers with the rows of [pv_env]. *)
Record provider :=
  { pv_ticker : option exn;
    pv_history : option exn;
    pv_env : env }.

(** The provider that answers with [e]. *)
Definition answers (e : env) : provider :=
  {| pv_ticker := None; pv_history := None; pv_env := e |}.

Module yf.

(** [yf.Ticker(symbol)]: the client upper-cases the symbol, so only a
    string is accepted; it may then look the symbol up, which can fail. *)
Definition Ticker (p : provider) (symbol : value) : M () :=
  _ ← str_upper symbol;
  match pv_ticker p with
  | Some x => raise x
  | None => mret ()
  end.

(** [stock.history(period="1mo")] *)
Definition history (p : provider) : M (list row) :=
  match pv_history p with
  | Some x => raise x
  | None => mret (env_hist (pv_env p))
  end.

(** [stock.info] *)
Definition info (p : provider) : M (gmap string value) :=
  unwrap (env_info (pv_env p)) ProviderError.

End yf.

(** ** The fetched series *)

(** [hist.index] and the columns [hist["Open"]], ..., [hist["Volume"]]. *)
Definition index (hist : list row) : list date := r_date <$> hist.
Definition Open (hist : list row) : list Q := r_open <$> hist.
Definition High (hist : list row) : list Q := r_high <$> hist.
Definition Low (hist : list row) : list Q := r_low <$> hist.
Definition Close (hist : list row) : list Q := r_close <$> hist.
Definition Volume (hist : list row) : list Z := r_volume <$> hist.

(** [Series.idxmax()] and [Series.idxmin()]: the label of the first
    occurrence of the extreme value. *)
Fixpoint arg_best (better : Q → Q → bool) (best : date * Q)
    (l : list (date * Q)) : date * Q :=
  match l with
  | [] => best
  | x :: r => arg_best better (if better x.2 best.2 then x else best) r
  end.

Definition idxmax (idx : list date) (s : list Q) : option date :=
  match zip idx s with
  | [] => None
  | x :: r => Some (arg_best (λ v best, negb (Qle_bool v best)) x r).1
  end.

Definition idxmin (idx : list date) (s : list Q) : option date :=
  match zip idx s with
  | [] => None
  | x :: r => Some (arg_best (λ v best, negb (Qle_bool best v)) x r).1
  end.

(** [hist[["Open", "High", "Low", "Close", "Volume"]]] with the index
    rendered as text and the entries rounded to two decimals: one label and
    five entries per row. *)
Definition df_display (hist : list row) : list (value * list value) :=
  (λ r, (VStr (strftime_ymd (r_date r)),
         [VNum (Num.round2 (r_open r)); VNum (Num.round2 (r_high r));
          VNum (Num.round2 (r_low r)); VNum (Num.round2 (r_close r));
          VNum (inject_Z (r_volume r))])) <$> hist.

(** A frame as the host receives it: the header row (index label, column
    labels), then one row per record. The provider labels the index of a
    daily series "Date". *)
Definition frame_array (index_name : string) (columns : list string)
    (rows : list (value * list value)) : list (list value) :=
  (VStr index_name :: (VStr <$> columns))
    :: ((λ r : value * list value, r.1 :: r.2) <$> rows).

(** The bar colours of the volume panel. *)
Definition colors (hist : list row) : list string :=
  (λ co : Q * Q, if Qle_bool co.2 co.1 then "green" else "red")
    <$> zip (Close hist) (Open hist).

Definition dashboard_name : string := "Stock Dashboard".

(** ** The macro *)

(** [main] is one straight-line function; it is embedded in the three
    blocks its comments name, in the order of the source. *)

(** Lines 12-26: get ticker from named range (before deleting sheet!). *)
Definition get_ticker : M value :=
  try_except
    (nm ← xw.names_get "TICKER";
     rg ← xw.refers_to_range nm;
     ticker ← xw.range_value rg;
     if negb (truthy ticker) then
       xw.alert "Please enter a ticker symbol in the TICKER range!"
         "Missing Ticker";;
       return_
     else mret ticker)
    (xw.alert
       ("Named range 'TICKER' not found!" ++ Text.nl ++ Text.nl
          ++ "Please create it first:" ++ Text.nl
          ++ "1. Select a cell with ticker symbol" ++ Text.nl
          ++ "2. Formulas → Define Name" ++ Text.nl
          ++ "3. Name it 'TICKER'")
       "Setup Required";;
     return_).

(** Lines 28-36: delete and recreate dashboard sheet. *)
Definition recreate_dashboard_sheet : M string :=
  try_except
    (old ← xw.sheets_get dashboard_name; xw.sheet_delete old)
    (mret ());;
  first ← xw.sheets_index 0;
  sheet ← xw.sheets_add dashboard_name first;
  xw.sheet_activate sheet;;
  mret sheet.

(** Lines 38-190: fetch stock data and write the dashboard. *)
Definition fetch_and_report (p : provider) (ticker : value)
    (sheet : string) : M () :=
    (* Fetch stock data *)
    yf.Ticker p ticker;;
    hist ← yf.history p;

    if bool_decide (hist = []) then
      u ← str_upper ticker;
      xw.alert
        ("No data found for ticker: " ++ u ++ Text.nl ++ Text.nl
           ++ "Please check the ticker symbol and try again.")
        "Invalid Ticker";;
      xw.sheet_delete sheet;;
      return_
    else

    (* Get company info *)
    info ← try_except
      (yf.info p)
      (u ← str_upper ticker;
       mret ({[ "longName" := VStr u; "sector" := VStr "N/A" ]}
               : gmap string value));

    (* Header section *)
    u ← str_upper ticker;
    xw.set_value sheet (col_A, 1) (VStr ("✅ Stock Analysis Dashboard - " ++ u));;
    xw.set_font_size sheet (col_A, 1) 18;;
    xw.set_font_bold sheet (col_A, 1) true;;
    xw.set_font_color sheet (col_A, 1) (0, 102, 204)%Z;;

    (* Stock info *)
    xw.set_value sheet (col_A, 3) (VStr "Ticker:");;
    u ← str_upper ticker;
    xw.set_value sheet (col_B, 3) (VStr u);;
    xw.set_font_bold sheet (col_B, 3) true;;
    xw.set_font_size sheet (col_B, 3) 14;;

    xw.set_value sheet (col_A, 4) (VStr "Company:");;
    xw.set_value sheet (col_B, 4) (dict_get info "longName" (VStr "N/A"));;

    xw.set_value sheet (col_A, 5) (VStr "Sector:");;
    xw.set_value sheet (col_B, 5) (dict_get info "sector" (VStr "N/A"));;

    xw.set_value sheet (col_A, 6) (VStr "Current Price:");;
    current_price ← iloc (Close hist) (-1);
    xw.set_value sheet (col_B, 6) (VNum current_price);;
    xw.set_number_format sheet (col_B, 6) "$#,##0.00";;
    xw.set_font_size sheet (col_B, 6) 12;;
    xw.set_font_bold sheet (col_B, 6) true;;

    (* Calculate metrics *)
    last ← iloc (Close hist) (-1);
    first ← iloc (Close hist) 0;
    let price_change := (last - first)%Q in
    first ← iloc (Close hist) 0;
    let price_change_pct := Num.fmul (Num.fdiv price_change first) 100 in

    xw.set_value sheet (col_A, 7) (VStr "30-Day Change:");;
    let change_text :=
      "$" ++ Num.fmt_fixed 2 false false price_change
          ++ " (" ++ Num.fmt_xnum 2 true price_change_pct ++ "%)" in
    xw.set_value sheet (col_B, 7) (VStr change_text);;
    xw.set_font_color sheet (col_B, 7)
      (if Qle_bool 0 price_change then (0, 128, 0)%Z else (255, 0, 0)%Z);;
    xw.set_font_bold sheet (col_B, 7) true;;

    xw.set_value sheet (col_A, 8) (VStr "30-Day High:");;
    high ← unwrap (Num.series_max (High hist)) ValueError;
    xw.set_value sheet (col_B, 8) (VNum high);;
    xw.set_number_format sheet (col_B, 8) "$#,##0.00";;

    xw.set_value sheet (col_A, 9) (VStr "30-Day Low:");;
    low ← unwrap (Num.series_min (Low hist)) ValueError;
    xw.set_value sheet (col_B, 9) (VNum low);;
    xw.set_number_format sheet (col_B, 9) "$#,##0.00";;

    xw.set_value sheet (col_A, 10) (VStr "Avg Volume:");;
    mean ← unwrap (Num.series_mean (Volume hist)) ValueError;
    xw.set_value sheet (col_B, 10) (VStr (Num.fmt_fixed 0 false true mean));;

    (* Historical data table *)
    xw.set_value sheet (col_D, 3) (VStr "Historical Data (Last 30 Days)");;
    xw.set_font_bold sheet (col_D, 3) true;;
    xw.set_font_size sheet (col_D, 3) 12;;

    (* Write to Excel *)
    xw.set_array sheet (col_D, 4)
      (frame_array "Date" ["Open"; "High"; "Low"; "Close"; "Volume"]
         (df_display hist));;

    (* Format the table *)
    xw.set_borders_weight sheet (col_D, 4)
      (col_I, 4 + length (df_display hist)) 2;;

    (* Header row formatting *)
    xw.set_block_color sheet (col_D, 4) (col_I, 4) (0, 102, 204)%Z;;
    xw.set_block_font_color sheet (col_D, 4) (col_I, 4) (255, 255, 255)%Z;;
    xw.set_block_font_bold sheet (col_D, 4) (col_I, 4) true;;

    (* Auto-fit columns *)
    xw.autofit sheet col_A col_I;;

    (* Create matplotlib chart *)
    u ← str_upper ticker;
    max_idx ← unwrap (idxmax (index hist) (Close hist)) ValueError;
    min_idx ← unwrap (idxmin (index hist) (Close hist)) ValueError;
    max_val ← unwrap (Num.series_max (Close hist)) ValueError;
    min_val ← unwrap (Num.series_min (Close hist)) ValueError;
    let fig :=
      {| fig_title := u ++ " - 30 Day Price Chart";
         fig_line := zip (index hist) (Close hist);
         fig_markers :=
           [ {| mk_x := max_idx; mk_y := max_val;
                mk_color := "green"; mk_shape := "^" |};
             {| mk_x := min_idx; mk_y := min_val;
                mk_color := "red"; mk_shape := "v" |} ];
         fig_bars := zip (zip (index hist) (Volume hist)) (colors hist) |} in

    (* Insert chart directly *)
    xw.pictures_add sheet
      {| p_name := "stock_chart"; p_anchor := (col_K, 4);
         p_width := 600; p_height := 450; p_image := fig |};;

    (* Add timestamp *)
    xw.set_value sheet (col_A, 12)
      (VStr ("Last updated: " ++ strftime_ymd_hms (env_now (pv_env p))));;
    xw.set_font_size sheet (col_A, 12) 9;;
    xw.set_font_color sheet (col_A, 12) (128, 128, 128)%Z;;

    (* Success message *)
    u ← str_upper ticker;
    xw.alert
      ("✅ Dashboard created successfully for " ++ u ++ "!"
         ++ Text.nl ++ Text.nl
         ++ "Current Price: $" ++ Num.fmt_fixed 2 false false current_price
         ++ Text.nl ++ "30-Day Change: " ++ change_text)
      "Success".

Definition main (p : provider) : M () :=
  call (
    ticker ← get_ticker;
    sheet ← recreate_dashboard_sheet;
    fetch_and_report p ticker sheet).

(** A run of the macro on a workbook: the outcome, the workbook and the
    dialogs shown. *)
Definition run_with (p : provider) (b : book) : outcome () * world :=
  main p {| w_book := b; w_alerts := [] |}.

(** A run in which the provider answers. *)
Definition run (e : env) (b : book) : outcome () * world :=
  run_with (answers e) b.

(** ** Vocabulary of the statements *)

(** The report sheet is recognised by its name. *)
Definition is_dashboard (s : sheet) : bool :=
  xw.same_name (sh_name s) dashboard_name.

(** The report sheets of a workbook, and its other sheets, in order. *)
Definition dashboards (l : list sheet) : list sheet :=
  List.filter is_dashboard l.

Definition others (l : list sheet) : list sheet :=
  List.filter (λ s, negb (is_dashboard s)) l.

(** The sheet that [wb.sheets.add] creates. *)
Definition fresh_sheet : sheet :=
  {| sh_name := dashboard_name; sh_grid := empty_grid |}.

(** What the TICKER range delivers: the value of the cell the name refers
    to; [None] when the name is undefined, refers to nothing, or points into
    a sheet that is not there. *)
Definition ticker_input (b : book) : option value :=
  match bk_names b !! "TICKER" with
  | Some (RefTo sn a) =>
      match xw.find_sheet sn (bk_sheets b) with
      | Some s => Some (c_value (default blank (g_cells (sh_grid s) !! a)))
      | None => None
      end
  | _ => None
  end.

(** The defined names once the old report sheet, if any, is deleted. *)
Definition names_after_delete (b : book) : gmap string nref :=
  match xw.find_sheet dashboard_name (bk_sheets b) with
  | Some s => xw.invalidate (sh_name s) <$> bk_names b
  | None => bk_names b
  end.

Arguments xw.same_name : simpl never.
Arguments Text.upper : simpl never.
Arguments others : simpl never.
Arguments dashboards : simpl never.

(** The dialogs of the four outcomes. *)
Definition setup_alert : alert :=
  {| a_title := "Setup Required";
     a_body :=
       "Named range 'TICKER' not found!" ++ Text.nl ++ Text.nl
         ++ "Please create it first:" ++ Text.nl
         ++ "1. Select a cell with ticker symbol" ++ Text.nl
         ++ "2. Formulas → Define Name" ++ Text.nl
         ++ "3. Name it 'TICKER'" |}.

Definition missing_alert : alert :=
  {| a_title := "Missing Ticker";
     a_body := "Please enter a ticker symbol in the TICKER range!" |}.

Definition invalid_alert (t : string) : alert :=
  {| a_title := "Invalid Ticker";
     a_body :=
       "No data found for ticker: " ++ Text.upper t ++ Text.nl ++ Text.nl
         ++ "Please check the ticker symbol and try again." |}.

Definition date0 : date := {| d_year := 0; d_month := 0; d_day := 0 |}.

(** The locals of [main] on a run that reaches its end, as functions of the
    inputs of the run: [info], [current_price], [price_change],
    [price_change_pct], [change_text] and the figure. *)
Definition info_or_placeholder (e : env) (t : string) : gmap string value :=
  default {[ "longName" := VStr (Text.upper t); "sector" := VStr "N/A" ]}
    (env_info e).

Definition current_price (hist : list row) : Q := List.last (Close hist) 0%Q.

Definition price_change (hist : list row) : Q :=
  (List.last (Close hist) 0 - hd 0 (Close hist))%Q.

Definition price_change_pct (hist : list row) : Num.xnum :=
  Num.fmul (Num.fdiv (price_change hist) (hd 0%Q (Close hist))) 100.

Definition change_text (hist : list row) : string :=
  "$" ++ Num.fmt_fixed 2 false false (price_change hist)
      ++ " (" ++ Num.fmt_xnum 2 true (price_change_pct hist) ++ "%)".

Definition chart (t : string) (hist : list row) : figure :=
  {| fig_title := Text.upper t ++ " - 30 Day Price Chart";
     fig_line := zip (index hist) (Close hist);
     fig_markers :=
       [ {| mk_x := default date0 (idxmax (index hist) (Close hist));
            mk_y := default 0%Q (Num.series_max (Close hist));
            mk_color := "green"; mk_shape := "^" |};
         {| mk_x := default date0 (idxmin (index hist) (Close hist));
            mk_y := default 0%Q (Num.series_min (Close hist));
            mk_color := "red"; mk_shape := "v" |} ];
     fig_bars := zip (zip (index hist) (Volume hist)) (colors hist) |}.

Definition stock_chart (t : string) (hist : list row) : picture :=
  {| p_name := "stock_chart"; p_anchor := (col_K, 4);
     p_width := 600; p_height := 450; p_image := chart t hist |}.

Definition success_alert (t : string) (hist : list row) : alert :=
  {| a_title := "Success";
     a_body :=
       "✅ Dashboard created successfully for " ++ Text.upper t ++ "!"
         ++ Text.nl ++ Text.nl
         ++ "Current Price: $"
         ++ Num.fmt_fixed 2 false false (current_price hist)
         ++ Text.nl ++ "30-Day Change: " ++ change_text hist |}.

(** The writes of [fetch_and_report] on a run that reaches its end, in
    program order. *)
Definition report_edits (t : string) (hist : list row)
    (info : gmap string value) (now : datetime) : list (grid → grid) :=
  [ xw.edit_cell (col_A, 1)
      (xw.with_value (VStr ("✅ Stock Analysis Dashboard - " ++ Text.upper t)));
    xw.edit_cell (col_A, 1) (xw.with_font_size 18);
    xw.edit_cell (col_A, 1) (xw.with_font_bold true);
    xw.edit_cell (col_A, 1) (xw.with_font_color (0, 102, 204)%Z);
    xw.edit_cell (col_A, 3) (xw.with_value (VStr "Ticker:"));
    xw.edit_cell (col_B, 3) (xw.with_value (VStr (Text.upper t)));
    xw.edit_cell (col_B, 3) (xw.with_font_bold true);
    xw.edit_cell (col_B, 3) (xw.with_font_size 14);
    xw.edit_cell (col_A, 4) (xw.with_value (VStr "Company:"));
    xw.edit_cell (col_B, 4)
      (xw.with_value (dict_get info "longName" (VStr "N/A")));
    xw.edit_cell (col_A, 5) (xw.with_value (VStr "Sector:"));
    xw.edit_cell (col_B, 5)
      (xw.with_value (dict_get info "sector" (VStr "N/A")));
    xw.edit_cell (col_A, 6) (xw.with_value (VStr "Current Price:"));
    xw.edit_cell (col_B, 6) (xw.with_value (VNum (current_price hist)));
    xw.edit_cell (col_B, 6) (xw.with_number_format "$#,##0.00");
    xw.edit_cell (col_B, 6) (xw.with_font_size 12);
    xw.edit_cell (col_B, 6) (xw.with_font_bold true);
    xw.edit_cell (col_A, 7) (xw.with_value (VStr "30-Day Change:"));
    xw.edit_cell (col_B, 7) (xw.with_value (VStr (change_text hist)));
    xw.edit_cell (col_B, 7)
      (xw.with_font_color
         (if Qle_bool 0 (price_change hist)
          then (0, 128, 0)%Z else (255, 0, 0)%Z));
    xw.edit_cell (col_B, 7) (xw.with_font_bold true);
    xw.edit_cell (col_A, 8) (xw.with_value (VStr "30-Day High:"));
    xw.edit_cell (col_B, 8)
      (xw.with_value (VNum (default 0%Q (Num.series_max (High hist)))));
    xw.edit_cell (col_B, 8) (xw.with_number_format "$#,##0.00");
    xw.edit_cell (col_A, 9) (xw.with_value (VStr "30-Day Low:"));
    xw.edit_cell (col_B, 9)
      (xw.with_value (VNum (default 0%Q (Num.series_min (Low hist)))));
    xw.edit_cell (col_B, 9) (xw.with_number_format "$#,##0.00");
    xw.edit_cell (col_A, 10) (xw.with_value (VStr "Avg Volume:"));
    xw.edit_cell (col_B, 10)
      (xw.with_value
         (VStr (Num.fmt_fixed 0 false true
                  (default 0%Q (Num.series_mean (Volume hist))))));
    xw.edit_cell (col_D, 3)
      (xw.with_value (VStr "Historical Data (Last 30 Days)"));
    xw.edit_cell (col_D, 3) (xw.with_font_bold true);
    xw.edit_cell (col_D, 3) (xw.with_font_size 12);
    xw.write_array col_D 4
      (frame_array "Date" ["Open"; "High"; "Low"; "Close"; "Volume"]
         (df_display hist));
    xw.add_border (col_D, 4) (col_I, 4 + length (df_display hist)) 2;
    xw.edit_block (col_D, 4) (col_I, 4) (xw.with_color (0, 102, 204)%Z);
    xw.edit_block (col_D, 4) (col_I, 4)
      (xw.with_font_color (255, 255, 255)%Z);
    xw.edit_block (col_D, 4) (col_I, 4) (xw.with_font_bold true);
    xw.add_autofit col_A col_I;
    xw.add_picture (stock_chart t hist);
    xw.edit_cell (col_A, 12)
      (xw.with_value (VStr ("Last updated: " ++ strftime_ymd_hms now)));
    xw.edit_cell (col_A, 12) (xw.with_font_size 9);
    xw.edit_cell (col_A, 12) (xw.with_font_color (128, 128, 128)%Z) ].

(** The report sheet of a successful run: the writes, applied in order to
    the empty sheet. *)
Definition apply_edits (l : list (grid → grid)) (g : grid) : grid :=
  fold_left (λ g f, f g) l g.

Definition report_grid (e : env) (t : string) : grid :=
  apply_edits
    (report_edits t (env_hist e) (info_or_placeholder e t) (env_now e))
    empty_grid.

(** A workbook with the report sheet in second place. *)
Definition dash_world (s0 : sheet) (g : grid) (rest : list sheet)
    (nm : gmap string nref) (al : list alert) : world :=
  {| w_book :=
       {| bk_sheets :=
            s0 :: {| sh_name := dashboard_name; sh_grid := g |} :: rest;
          bk_names := nm;
          bk_active := Some dashboard_name |};
     w_alerts := al |}.

(** The cell at an address; a cell never written is blank. *)
Definition cell_at (g : grid) (a : addr) : cell :=
  default blank (g_cells g !! a).

(** The contents of the report sheet of a workbook, if it has one. *)
Definition report_sheet (w : world) : option grid :=
  sh_grid <$> xw.find_sheet dashboard_name (bk_sheets (w_book w)).

(** Everything of a sheet that is not a cell. *)
Definition decor (g : grid)
  : list (addr * addr * Z) * list (nat * nat) * list picture :=
  (g_borders g, g_autofit g, g_pictures g).

(** Two edits that, fed sheets agreeing on cell [a], return sheets
    agreeing on cell [a]. *)
Definition local_at (a : addr) (f1 f2 : grid → grid) : Prop :=
  ∀ g1 g2, g_cells g1 !! a = g_cells g2 !! a →
           g_cells (f1 g1) !! a = g_cells (f2 g2) !! a.

(** Two edits that do the same to borders, column fitting and pictures. *)
Definition same_decor (f1 f2 : grid → grid) : Prop :=
  ∀ g1 g2, decor g1 = decor g2 → decor (f1 g1) = decor (f2 g2).

(** ** Concrete inputs *)

Module Sample.

Definition day (d : N) (o h l c : Q) (v : Z) : row :=
  {| r_date := {| d_year := 2024; d_month := 1; d_day := d |};
     r_open := o; r_high := h; r_low := l; r_close := c; r_volume := v |}.

Definition hist : list row :=
  [ day 2 10 12 9 11 1000;
    day 3 11 13 (21 # 2) (25 # 2) 2500;
    day 4 (25 # 2) 14 12 12 1234567 ].

(** A series whose first close is zero. *)
Definition hist_zero : list row :=
  [ day 2 0 1 0 0 10; day 3 1 2 1 2 20 ].

Definition clock (s : N) : datetime :=
  {| dt_date := {| d_year := 2024; d_month := 1; d_day := 5 |};
     dt_hour := 9; dt_minute := 5; dt_second := s |}.

Definition input_sheet (v : value) : sheet :=
  {| sh_name := "Sheet1";
     sh_grid := xw.edit_cell (col_A, 1) (xw.with_value v) empty_grid |}.

Definition old_dashboard : sheet :=
  {| sh_name := "Stock Dashboard";
     sh_grid :=
       xw.edit_cell (col_A, 1) (xw.with_value (VStr "old report"))
         empty_grid |}.

Definition names : gmap string nref :=
  {[ "TICKER" := RefTo "Sheet1" (col_A, 1) ]}.

(** A workbook with the ticker on its only sheet. *)
Definition wb (v : value) : book :=
  {| bk_sheets := [input_sheet v];
     bk_names := names;
     bk_active := Some "Sheet1" |}.

(** The same workbook after an earlier run left a report sheet. *)
Definition wb_with_dashboard : book :=
  {| bk_sheets := [input_sheet (VStr "msft"); old_dashboard];
     bk_names := names;
     bk_active := Some "Sheet1" |}.

(** A workbook in which the name TICKER is not defined. *)
Definition wb_no_name : book :=
  {| bk_sheets := [input_sheet (VStr "msft")];
     bk_names := ∅;
     bk_active := Some "Sheet1" |}.

Definition market (h : list row) (i : option (gmap string value)) (s : N)
  : env :=
  {| env_hist := h; env_info := i; env_now := clock s |}.

End Sample.

(** A workbook on which the macro can run for ticker text [t]: the TICKER
    range delivers [t], there is at most one report sheet (the host keeps
    sheet names unique) and at least one other sheet. *)
Definition ready (b : book) (t : string) : Prop :=
  ticker_input b = Some (VStr t)
  ∧ t ≠ ""
  ∧ (length (dashboards (bk_sheets b)) ≤ 1)%nat
  ∧ others (bk_sheets b) ≠ [].

(** ** What a run may do to the workbook *)

(** The four ways in which the macro changes a workbook: a write into a
    sheet named like the report sheet, the deletion of such a sheet (names
    into it are invalidated), the addition of an empty report sheet to a
    workbook that has none, and a change of the active sheet. *)
Inductive step : book → book → Prop :=
| step_edit (b : book) (h : string) (f : grid → grid) :
    xw.same_name h dashboard_name = true →
    step b {| bk_sheets := xw.update_sheet h f (bk_sheets b);
              bk_names := bk_names b;
              bk_active := bk_active b |}
| step_delete (b : book) (h : string) (s : sheet) (act : option string) :
    xw.same_name h dashboard_name = true →
    xw.find_sheet h (bk_sheets b) = Some s →
    step b {| bk_sheets := xw.remove_sheet h (bk_sheets b);
              bk_names := xw.invalidate (sh_name s) <$> bk_names b;
              bk_active := act |}
| step_add (b : book) (after : string) :
    existsb is_dashboard (bk_sheets b) = false →
    step b {| bk_sheets := xw.insert_after after fresh_sheet (bk_sheets b);
              bk_names := bk_names b;
              bk_active := bk_active b |}
| step_activate (b : book) (act : option string) :
    step b {| bk_sheets := bk_sheets b;
              bk_names := bk_names b;
              bk_active := act |}.

(** ** A program logic for the run monad *)

(** From a state in [P], [m] ends with a value in a state in [Q], or
    returns early in a state in [R], or raises in a state in [X]. *)
Definition hoare {A} (P : world → Prop) (m : M A)
    (Q : A → world → Prop) (R X : world → Prop) : Prop :=
  ∀ w, P w →
    match m w with
    | (Val a, w') => Q a w'
    | (Returned, w') => R w'
    | (Raised _, w') => X w'
    end.

(** [m] only reads the state, and does not return early. *)
Definition reads {A} (m : M A) : Prop :=
  ∀ w, (m w).2 = w ∧ (m w).1 ≠ Returned.

(** [m] shows no dialog, and does not return early. *)
Definition quiet {A} (m : M A) : Prop :=
  ∀ w, w_alerts (m w).2 = w_alerts w ∧ (m w).1 ≠ Returned.

(** The state predicates of the two invariants: the workbook is reachable
    from [b0] by steps; the dialogs shown so far satisfy [A]. *)
Definition reached (b0 : book) (w : world) : Prop := rtc step b0 (w_book w).

Definition shown (A : list alert → Prop) (w : world) : Prop := A (w_alerts w).

(** ** More concrete inputs *)

Module Edge.

(** A report sheet that also holds the ticker, in cell K1. *)
Definition dashboard_with_ticker : sheet :=
  {| sh_name := "Stock Dashboard";
     sh_grid := xw.edit_cell (col_K, 1) (xw.with_value (VStr "ibm")) empty_grid |}.

(** A workbook whose TICKER range lives on the report sheet. *)
Definition wb_ticker_on_dashboard : book :=
  {| bk_sheets := [Sample.input_sheet VNone; dashboard_with_ticker];
     bk_names := {[ "TICKER" := RefTo "Stock Dashboard" (col_K, 1) ]};
     bk_active := Some "Stock Dashboard" |}.

(** A workbook whose only sheet is the report sheet. *)
Definition wb_only_dashboard : book :=
  {| bk_sheets := [dashboard_with_ticker];
     bk_names := {[ "TICKER" := RefTo "Stock Dashboard" (col_K, 1) ]};
     bk_active := Some "Stock Dashboard" |}.

End Edge.

(** ** The table and the extent of the report *)

(** The labels of the table's header row. *)
Definition table_labels : list string :=
  ["Date"; "Open"; "High"; "Low"; "Close"; "Volume"].

(** A rectangle of cells, as a test on an address. *)
Definition in_block (a1 a2 a : addr) : bool :=
  (a1.1 <=? a.1)%nat && (a.1 <=? a2.1)%nat
  && (a1.2 <=? a.2)%nat && (a.2 <=? a2.2)%nat.

(** The ranges the report addresses when [n] rows were fetched: A1, A3:B10,
    D3, the table D4:I(4+n) and A12. *)
Definition report_area (n : nat) (a : addr) : bool :=
  in_block (col_A, 1%nat) (col_A, 1%nat) a
  || in_block (col_A, 3%nat) (col_B, 10%nat) a
  || in_block (col_D, 3%nat) (col_D, 3%nat) a
  || in_block (col_D, 4%nat) (col_I, (4 + n)%nat) a
  || in_block (col_A, 12%nat) (col_A, 12%nat) a.

(** ** Lemmas *)

Example fmt_fixed_negative :
  Num.fmt_fixed 2 false false (- (12345 # 1000)) = "-12.34".
Proof. reflexivity. Qed.

Example fmt_fixed_tie_to_even : Num.fmt_fixed 2 true false (125 # 1000) = "+0.12".
Proof. reflexivity. Qed.

Example fmt_fixed_grouped : Num.fmt_fixed 0 false true (1234567 # 1) = "1,234,567".
Proof. reflexivity. Qed.

Example fmt_xnum_nan : Num.fmt_xnum 2 true (Num.fmul (Num.fdiv 0 0) 100) = "+nan".
Proof. reflexivity. Qed.

Example upper_sample : Text.upper "brk-b" = "BRK-B".
Proof. reflexivity. Qed.

Example upper_beyond_ascii : Text.upper "straße é" = "STRASSE É".
Proof. vm_compute. reflexivity. Qed.

Example same_name_ignores_case :
  xw.same_name "stock dashboard" dashboard_name = true.
Proof. reflexivity. Qed.

Section Monad.
Context {A B : Type}.
Implicit Types (m : M A) (k : A → M B) (w : world).

Lemma bind_val m k w a w' :
  m w = (Val a, w') → (m ≫= k) w = k a w'.
Proof. intros H. unfold mbind, M_bind. by rewrite H. Qed.

Lemma bind_returned m k w w' :
  m w = (Returned, w') → (m ≫= k) w = (Returned, w').
Proof. intros H. unfold mbind, M_bind. by rewrite H. Qed.

Lemma bind_raised m k w x w' :
  m w = (Raised x, w') → (m ≫= k) w = (Raised x, w').
Proof. intros H. unfold mbind, M_bind. by rewrite H. Qed.

Lemma bind_ret (a : A) k w : (mret a ≫= k) w = k a w.
Proof. reflexivity. Qed.
End Monad.

Lemma try_except_val {A} (m h : M A) w a w' :
  m w = (Val a, w') → try_except m h w = (Val a, w').
Proof. intros H. unfold try_except. by rewrite H. Qed.

Lemma try_except_returned {A} (m h : M A) w w' :
  m w = (Returned, w') → try_except m h w = (Returned, w').
Proof. intros H. unfold try_except. by rewrite H. Qed.

Lemma try_except_raised {A} (m h : M A) w x w' :
  m w = (Raised x, w') → try_except m h w = h w'.
Proof. intros H. unfold try_except. by rewrite H. Qed.

Lemma same_name_refl n : xw.same_name n n = true.
Proof. apply String.eqb_refl. Qed.

Lemma same_name_sym a b : xw.same_name a b = xw.same_name b a.
Proof. apply String.eqb_sym. Qed.

Lemma same_name_trans a b c :
  xw.same_name a b = true → xw.same_name b c = xw.same_name a c.
Proof.
  unfold xw.same_name. intros H. apply String.eqb_eq in H. by rewrite H.
Qed.

Lemma others_cons s r :
  others (s :: r) = if is_dashboard s then others r else s :: others r.
Proof. unfold others. cbn. by destruct (is_dashboard s). Qed.

Lemma dashboards_cons s r :
  dashboards (s :: r) = if is_dashboard s then s :: dashboards r else dashboards r.
Proof. reflexivity. Qed.

Lemma dashboards_nil_others l : dashboards l = [] → others l = l.
Proof.
  induction l as [|s r IH]; [done|].
  rewrite dashboards_cons, others_cons.
  destruct (is_dashboard s); [done|]. intros H. by rewrite IH.
Qed.

Lemma find_dashboard_none l :
  xw.find_sheet dashboard_name l = None →
  others l = l ∧ existsb is_dashboard l = false.
Proof.
  induction l as [|s r IH]; [done|]. rewrite others_cons. cbn.
  fold (is_dashboard s). destruct (is_dashboard s); [done|].
  intros H. destruct (IH H) as [H1 H2]. by rewrite H1.
Qed.

Lemma find_dashboard_some l s :
  xw.find_sheet dashboard_name l = Some s →
  (length (dashboards l) ≤ 1)%nat →
  xw.remove_sheet dashboard_name l = others l
  ∧ length l = S (length (others l)).
Proof.
  induction l as [|x r IH]; [done|].
  rewrite others_cons, dashboards_cons. cbn.
  fold (is_dashboard x). destruct (is_dashboard x); cbn.
  - intros _ Hlen.
    assert (dashboards r = []) as Hnil.
    { destruct (dashboards r); [done|]. cbn in Hlen. lia. }
    apply dashboards_nil_others in Hnil. by rewrite Hnil.
  - intros Hf Hlen. destruct (IH Hf Hlen) as [H1 H2]. by rewrite H1, H2.
Qed.

Lemma others_no_dashboard l : existsb is_dashboard (others l) = false.
Proof.
  induction l as [|x r IH]; [done|]. rewrite others_cons.
  destruct (is_dashboard x) eqn:E; [done|]. cbn. by rewrite E.
Qed.

Lemma others_head l s0 rest :
  others l = s0 :: rest → is_dashboard s0 = false.
Proof.
  intros H. pose proof (others_no_dashboard l) as Hn. rewrite H in Hn.
  cbn in Hn. by apply orb_false_iff in Hn as [? _].
Qed.

Lemma others_tail l s0 rest :
  others l = s0 :: rest → existsb is_dashboard rest = false.
Proof.
  intros H. pose proof (others_no_dashboard l) as Hn. rewrite H in Hn.
  cbn in Hn. by apply orb_false_iff in Hn as [_ ?].
Qed.

Lemma same_name_right a b x :
  xw.same_name a b = true → xw.same_name x a = xw.same_name x b.
Proof.
  intros H. rewrite (same_name_sym x a), (same_name_sym x b).
  symmetry. by apply same_name_trans.
Qed.

Lemma find_sheet_same a b l :
  xw.same_name a b = true → xw.find_sheet a l = xw.find_sheet b l.
Proof.
  intros H. induction l as [|x r IH]; [done|]. cbn.
  rewrite (same_name_right a b) by done. by rewrite IH.
Qed.

Lemma remove_sheet_same a b l :
  xw.same_name a b = true → xw.remove_sheet a l = xw.remove_sheet b l.
Proof.
  intros H. induction l as [|x r IH]; [done|]. cbn.
  rewrite (same_name_right a b) by done. by rewrite IH.
Qed.

Lemma find_sheet_name n l s :
  xw.find_sheet n l = Some s → xw.same_name (sh_name s) n = true.
Proof.
  induction l as [|x r IH]; [done|]. cbn.
  destruct (xw.same_name (sh_name x) n) eqn:E; [|done]. by intros [= <-].
Qed.

Ltac run_op :=
  unfold mbind, M_bind, mret, M_ret, get_book, put_book, unwrap, raise; cbn.

Lemma sheets_get_some n w s :
  xw.find_sheet n (bk_sheets (w_book w)) = Some s →
  xw.sheets_get n w = (Val (sh_name s), w).
Proof. intros H. unfold xw.sheets_get. run_op. by rewrite H. Qed.

Lemma sheets_get_none n w :
  xw.find_sheet n (bk_sheets (w_book w)) = None →
  xw.sheets_get n w = (Raised KeyError, w).
Proof. intros H. unfold xw.sheets_get. run_op. by rewrite H. Qed.

Lemma sheet_delete_ok h w s :
  xw.find_sheet h (bk_sheets (w_book w)) = Some s →
  (1 < length (bk_sheets (w_book w)))%nat →
  xw.sheet_delete h w
  = (Val (),
     {| w_book :=
          {| bk_sheets := xw.remove_sheet h (bk_sheets (w_book w));
             bk_names := xw.invalidate (sh_name s) <$> bk_names (w_book w);
             bk_active :=
               match bk_active (w_book w) with
               | Some a => if xw.same_name a h then None else Some a
               | None => None
               end |};
        w_alerts := w_alerts w |}).
Proof.
  intros H Hlen. unfold xw.sheet_delete. run_op. rewrite H.
  destruct (length (bk_sheets (w_book w)) <=? 1)%nat eqn:E; [|done].
  apply Nat.leb_le in E. lia.
Qed.

Lemma sheets_index_0 w s r :
  bk_sheets (w_book w) = s :: r →
  xw.sheets_index 0 w = (Val (sh_name s), w).
Proof. intros H. unfold xw.sheets_index. run_op. by rewrite H. Qed.

Lemma sheets_add_ok name after w s :
  existsb (λ x, xw.same_name (sh_name x) name) (bk_sheets (w_book w)) = false →
  xw.find_sheet after (bk_sheets (w_book w)) = Some s →
  xw.sheets_add name after w
  = (Val name,
     {| w_book :=
          {| bk_sheets :=
               xw.insert_after after {| sh_name := name; sh_grid := empty_grid |}
                 (bk_sheets (w_book w));
             bk_names := bk_names (w_book w);
             bk_active := bk_active (w_book w) |};
        w_alerts := w_alerts w |}).
Proof. intros H1 H2. unfold xw.sheets_add. run_op. by rewrite H1, H2. Qed.

Lemma sheet_activate_ok h w s :
  xw.find_sheet h (bk_sheets (w_book w)) = Some s →
  xw.sheet_activate h w
  = (Val (),
     {| w_book :=
          {| bk_sheets := bk_sheets (w_book w);
             bk_names := bk_names (w_book w);
             bk_active := Some (sh_name s) |};
        w_alerts := w_alerts w |}).
Proof. intros H. unfold xw.sheet_activate. run_op. by rewrite H. Qed.

Lemma sheet_op_ok h f w s :
  xw.find_sheet h (bk_sheets (w_book w)) = Some s →
  xw.sheet_op h f w
  = (Val (),
     {| w_book :=
          {| bk_sheets := xw.update_sheet h f (bk_sheets (w_book w));
             bk_names := bk_names (w_book w);
             bk_active := bk_active (w_book w) |};
        w_alerts := w_alerts w |}).
Proof. intros H. unfold xw.sheet_op. run_op. by rewrite H. Qed.

Lemma recreate_ok b al s0 rest :
  (length (dashboards (bk_sheets b)) ≤ 1)%nat →
  others (bk_sheets b) = s0 :: rest →
  recreate_dashboard_sheet {| w_book := b; w_alerts := al |}
  = (Val dashboard_name,
     {| w_book :=
          {| bk_sheets := s0 :: fresh_sheet :: rest;
             bk_names := names_after_delete b;
             bk_active := Some dashboard_name |};
        w_alerts := al |}).
Proof.
  intros Hone Hoth.
  pose proof (others_head _ _ _ Hoth) as Hs0.
  pose proof (others_tail _ _ _ Hoth) as Hrest.
  assert (∀ nm act al',
    (first ← xw.sheets_index 0;
     sheet ← xw.sheets_add dashboard_name first;
     xw.sheet_activate sheet;; mret sheet)
      {| w_book := {| bk_sheets := s0 :: rest; bk_names := nm; bk_active := act |};
         w_alerts := al' |}
    = (Val dashboard_name,
       {| w_book := {| bk_sheets := s0 :: fresh_sheet :: rest; bk_names := nm;
                       bk_active := Some dashboard_name |};
          w_alerts := al' |})) as Hadd.
  { intros nm act al'.
    erewrite bind_val; [|by eapply sheets_index_0].
    erewrite bind_val; cycle 1.
    { eapply sheets_add_ok with (s := s0); cbn.
      - fold (is_dashboard s0). rewrite Hs0. exact Hrest.
      - by rewrite same_name_refl. }
    cbn. rewrite same_name_refl.
    erewrite bind_val; cycle 1.
    { eapply sheet_activate_ok with (s := fresh_sheet). cbn.
      fold (is_dashboard s0). rewrite Hs0. by rewrite same_name_refl. }
    reflexivity. }
  unfold recreate_dashboard_sheet, names_after_delete.
  destruct b as [l nm act]. cbn in Hone, Hoth |- *.
  destruct (xw.find_sheet dashboard_name l) as [s|] eqn:Hf.
  - destruct (find_dashboard_some _ _ Hf Hone) as [Hrm Hlen].
    rewrite Hoth in Hrm, Hlen. cbn in Hlen.
    pose proof (find_sheet_name _ _ _ Hf) as Hn.
    erewrite bind_val; cycle 1.
    { eapply try_except_val. erewrite bind_val; [|by eapply sheets_get_some].
      eapply sheet_delete_ok with (s := s); [|cbn; lia].
      cbn. by rewrite (find_sheet_same _ _ _ Hn). }
    cbn. rewrite (remove_sheet_same _ _ _ Hn), Hrm. apply Hadd.
  - destruct (find_dashboard_none _ Hf) as [Hid _].
    rewrite Hoth in Hid. subst l.
    erewrite bind_val; cycle 1.
    { erewrite try_except_raised; [reflexivity|].
      eapply bind_raised. by eapply sheets_get_none. }
    apply Hadd.
Qed.

Lemma get_ticker_ok b al v :
  ticker_input b = Some v → truthy v = true →
  get_ticker {| w_book := b; w_alerts := al |}
  = (Val v, {| w_book := b; w_alerts := al |}).
Proof.
  unfold ticker_input, get_ticker, try_except, xw.names_get,
    xw.refers_to_range, xw.range_value.
  run_op. intros H Ht.
  destruct (bk_names b !! "TICKER") as [[sn a|]|]; [|done..]. cbn.
  destruct (xw.find_sheet sn (bk_sheets b)); [|done]. cbn.
  injection H as ->. by rewrite Ht.
Qed.

Lemma get_ticker_falsy b al v :
  ticker_input b = Some v → truthy v = false →
  get_ticker {| w_book := b; w_alerts := al |}
  = (Returned, {| w_book := b; w_alerts := al ++ [missing_alert] |}).
Proof.
  unfold ticker_input, get_ticker, try_except, xw.names_get,
    xw.refers_to_range, xw.range_value.
  run_op. intros H Ht.
  destruct (bk_names b !! "TICKER") as [[sn a|]|]; [|done..]. cbn.
  destruct (xw.find_sheet sn (bk_sheets b)); [|done]. cbn.
  injection H as ->. by rewrite Ht.
Qed.

Lemma get_ticker_unresolved b al :
  ticker_input b = None →
  get_ticker {| w_book := b; w_alerts := al |}
  = (Returned, {| w_book := b; w_alerts := al ++ [setup_alert] |}).
Proof.
  unfold ticker_input, get_ticker, try_except, xw.names_get,
    xw.refers_to_range, xw.range_value.
  run_op. intros H.
  destruct (bk_names b !! "TICKER") as [[sn a|]|]; [|done..]. cbn.
  by destruct (xw.find_sheet sn (bk_sheets b)).
Qed.

Lemma main_validated_with p b v :
  ticker_input b = Some v → truthy v = true →
  run_with p b
  = call (sheet ← recreate_dashboard_sheet; fetch_and_report p v sheet)
      {| w_book := b; w_alerts := [] |}.
Proof.
  intros H Ht. unfold run_with, main, call.
  by erewrite bind_val; [|by eapply get_ticker_ok].
Qed.

Lemma main_validated e b v :
  ticker_input b = Some v → truthy v = true →
  run e b
  = call (sheet ← recreate_dashboard_sheet;
          fetch_and_report (answers e) v sheet)
      {| w_book := b; w_alerts := [] |}.
Proof. apply main_validated_with. Qed.

(** ** Stepping through [fetch_and_report] *)

Section Steps.
Context {B : Type}.
Variables (s0 : sheet) (rest : list sheet) (nm : gmap string nref).
Hypothesis Hs0 : is_dashboard s0 = false.

Lemma step_sheet_op f (k : () → M B) g al :
  (xw.sheet_op dashboard_name f ≫= k) (dash_world s0 g rest nm al)
  = k () (dash_world s0 (f g) rest nm al).
Proof.
  erewrite bind_val; [reflexivity|].
  erewrite sheet_op_ok; cycle 1.
  { cbn. fold (is_dashboard s0). rewrite Hs0. by rewrite same_name_refl. }
  cbn. fold (is_dashboard s0). by rewrite Hs0, same_name_refl.
Qed.

Lemma step_alert body title (k : () → M B) g al :
  (xw.alert body title ≫= k) (dash_world s0 g rest nm al)
  = k () (dash_world s0 g rest nm
            (al ++ [{| a_title := title; a_body := body |}])).
Proof. reflexivity. Qed.

Lemma step_upper t (k : string → M B) w :
  (str_upper (VStr t) ≫= k) w = k (Text.upper t) w.
Proof. reflexivity. Qed.

Lemma step_Ticker e t (k : () → M B) w :
  (yf.Ticker (answers e) (VStr t) ≫= k) w = k () w.
Proof. reflexivity. Qed.

Lemma step_history e (k : list row → M B) w :
  (yf.history (answers e) ≫= k) w = k (env_hist e) w.
Proof. reflexivity. Qed.

Lemma step_info e t (k : gmap string value → M B) w :
  (try_except (yf.info (answers e))
     (u ← str_upper (VStr t);
      mret ({[ "longName" := VStr u; "sector" := VStr "N/A" ]}
              : gmap string value)) ≫= k) w
  = k (info_or_placeholder e t) w.
Proof.
  unfold info_or_placeholder, yf.info, try_except, mbind, M_bind, unwrap.
  cbn [answers pv_env]. by destruct (env_info e).
Qed.

Lemma step_unwrap {A} (o : option A) d x (k : A → M B) w :
  is_Some o → (unwrap o x ≫= k) w = k (default d o) w.
Proof. by intros [a ->]. Qed.

Lemma step_iloc_first {A} (l : list A) d (k : A → M B) w :
  l ≠ [] → (iloc l 0 ≫= k) w = k (hd d l) w.
Proof. by destruct l. Qed.

Lemma step_iloc_last {A} (l : list A) d (k : A → M B) w :
  l ≠ [] → (iloc l (-1) ≫= k) w = k (List.last l d) w.
Proof.
  intros Hl. unfold iloc.
  assert (l !! Z.to_nat (Z.of_nat (length l) + -1) = Some (List.last l d)) as H.
  { replace (Z.to_nat (Z.of_nat (length l) + -1)) with (pred (length l)) by lia.
    clear k. induction l as [|a [|b r] IH]; [done|done|].
    change (List.last (a :: b :: r) d) with (List.last (b :: r) d).
    rewrite <- IH by done. reflexivity. }
  change (-1 <? 0)%Z with true. cbv iota.
  destruct (Z.of_nat (length l) + -1 <? 0)%Z eqn:E.
  { apply Z.ltb_lt in E. destruct l; [done|]. cbn [length] in E. lia. }
  by rewrite H.
Qed.
End Steps.

Lemma fmap_not_nil {A B} (f : A → B) (l : list A) : l ≠ [] → f <$> l ≠ [].
Proof. by destruct l. Qed.

Lemma series_max_some l : l ≠ [] → is_Some (Num.series_max l).
Proof. destruct l; [done|]. by eexists. Qed.

Lemma series_min_some l : l ≠ [] → is_Some (Num.series_min l).
Proof. destruct l; [done|]. by eexists. Qed.

Lemma series_mean_some l : l ≠ [] → is_Some (Num.series_mean l).
Proof. destruct l; [done|]. by eexists. Qed.

Lemma idxmax_some hist : hist ≠ [] → is_Some (idxmax (index hist) (Close hist)).
Proof. destruct hist; [done|]. by eexists. Qed.

Lemma idxmin_some hist : hist ≠ [] → is_Some (idxmin (index hist) (Close hist)).
Proof. destruct hist; [done|]. by eexists. Qed.

Ltac step Hs0 Hh :=
  first
    [ rewrite (step_sheet_op _ _ _ Hs0)
    | rewrite step_alert
    | rewrite step_upper
    | rewrite step_Ticker
    | rewrite step_history
    | rewrite step_info
    | rewrite (step_iloc_first _ 0%Q) by (by apply fmap_not_nil)
    | rewrite (step_iloc_last _ 0%Q) by (by apply fmap_not_nil)
    | rewrite (step_unwrap _ 0%Q)
        by first [ apply series_max_some; by apply fmap_not_nil
                 | apply series_min_some; by apply fmap_not_nil
                 | apply series_mean_some; by apply fmap_not_nil ]
    | rewrite (step_unwrap _ date0)
        by first [ by apply idxmax_some | by apply idxmin_some ] ];
  cbn beta zeta.

Lemma fetch_and_report_ok e t s0 rest nm al :
  is_dashboard s0 = false →
  env_hist e ≠ [] →
  fetch_and_report (answers e) (VStr t) dashboard_name
    (dash_world s0 empty_grid rest nm al)
  = (Val (),
     dash_world s0 (report_grid e t) rest nm
       (al ++ [success_alert t (env_hist e)])).
Proof.
  intros Hs0 Hh. unfold fetch_and_report.
  unfold xw.set_value, xw.set_font_size, xw.set_font_bold, xw.set_font_color,
    xw.set_number_format, xw.set_array, xw.set_borders_weight,
    xw.set_block_color, xw.set_block_font_color, xw.set_block_font_bold,
    xw.autofit, xw.pictures_add.
  step Hs0 Hh. step Hs0 Hh.
  rewrite bool_decide_eq_false_2 by done.
  repeat step Hs0 Hh.
  reflexivity.
Qed.

Lemma truthy_text t : t ≠ "" → truthy (VStr t) = true.
Proof.
  intros H. cbn. destruct (String.eqb t "") eqn:E; [|done].
  by apply String.eqb_eq in E.
Qed.

Lemma call_val (m : M ()) w w' : m w = (Val (), w') → call m w = (Val (), w').
Proof. intros H. unfold call. by rewrite H. Qed.

Lemma call_returned (m : M ()) w w' :
  m w = (Returned, w') → call m w = (Val (), w').
Proof. intros H. unfold call. by rewrite H. Qed.

Section Runs.
Variables (e : env) (b : book) (t : string) (s0 : sheet) (rest : list sheet).
Hypothesis Hin : ticker_input b = Some (VStr t).
Hypothesis Ht : t ≠ "".
Hypothesis Hone : (length (dashboards (bk_sheets b)) ≤ 1)%nat.
Hypothesis Hoth : others (bk_sheets b) = s0 :: rest.

Lemma run_success :
  env_hist e ≠ [] →
  run e b
  = (Val (),
     dash_world s0 (report_grid e t) rest (names_after_delete b)
       [success_alert t (env_hist e)]).
Proof.
  intros Hh. rewrite (main_validated e b (VStr t)) by auto using truthy_text.
  apply call_val.
  erewrite bind_val; [|by apply (recreate_ok b [] s0 rest)].
  apply (fetch_and_report_ok e t s0 rest (names_after_delete b) []);
    [by eapply others_head|done].
Qed.

Lemma run_zero_rows :
  env_hist e = [] →
  run e b
  = (Val (),
     {| w_book :=
          {| bk_sheets := s0 :: rest;
             bk_names := xw.invalidate dashboard_name <$> names_after_delete b;
             bk_active := None |};
        w_alerts := [invalid_alert t] |}).
Proof.
  intros Hh. rewrite (main_validated e b (VStr t)) by auto using truthy_text.
  apply call_returned.
  erewrite bind_val; [|by apply (recreate_ok b [] s0 rest)].
  pose proof (others_head _ _ _ Hoth) as Hs0.
  unfold fetch_and_report.
  rewrite step_Ticker, step_history. cbn beta. rewrite Hh.
  rewrite bool_decide_eq_true_2 by done.
  rewrite step_upper.
  erewrite bind_val; [|reflexivity].
  erewrite bind_val; cycle 1.
  { eapply sheet_delete_ok with (s := fresh_sheet); cbn; [|lia].
    fold (is_dashboard s0). by rewrite Hs0, same_name_refl. }
  cbn. fold (is_dashboard s0). by rewrite Hs0, !same_name_refl.
Qed.
End Runs.

(** ** Reading the result of a run *)

Lemma report_sheet_dash_world s0 g rest nm al :
  is_dashboard s0 = false →
  report_sheet (dash_world s0 g rest nm al) = Some g.
Proof.
  intros H. unfold report_sheet, dash_world. cbn.
  fold (is_dashboard s0). by rewrite H, same_name_refl.
Qed.

Section Cells.
Implicit Types (g : grid) (a : addr) (f : cell → cell).

Lemma cells_edit_cell_eq a f g :
  g_cells (xw.edit_cell a f g) !! a = Some (f (cell_at g a)).
Proof. unfold xw.edit_cell, cell_at. cbn. by rewrite lookup_insert_eq. Qed.

Lemma cells_edit_cell_ne a a' f g :
  a ≠ a' → g_cells (xw.edit_cell a f g) !! a' = g_cells g !! a'.
Proof. intros H. unfold xw.edit_cell. cbn. by rewrite lookup_insert_ne. Qed.

Lemma cells_edit_list_out (l : list addr) f g a' :
  a' ∉ l →
  g_cells (fold_left (λ g a, xw.edit_cell a f g) l g) !! a' = g_cells g !! a'.
Proof.
  revert g. induction l as [|a l IH]; intros g H; [done|]. cbn.
  apply not_elem_of_cons in H as [Hne Hl].
  rewrite IH by done. by apply cells_edit_cell_ne.
Qed.

Lemma elem_of_block a1 a2 a :
  a ∈ xw.block a1 a2 →
  (a1.1 ≤ a.1 ≤ a2.1 ∧ a1.2 ≤ a.2 ≤ a2.2)%nat.
Proof.
  rewrite list_elem_of_In. unfold xw.block. rewrite in_flat_map.
  intros (r & Hr & Hc). apply in_map_iff in Hc as (c & <- & Hc).
  apply in_seq in Hr. apply in_seq in Hc. cbn. lia.
Qed.

Lemma cells_edit_block_out a1 a2 f g a' :
  (a'.1 < a1.1 ∨ a2.1 < a'.1 ∨ a'.2 < a1.2 ∨ a2.2 < a'.2)%nat →
  g_cells (xw.edit_block a1 a2 f g) !! a' = g_cells g !! a'.
Proof.
  intros H. apply cells_edit_list_out. intros Hin.
  apply elem_of_block in Hin. lia.
Qed.

Lemma cells_write_row_out c r vs g a' :
  (a'.1 < c ∨ a'.2 ≠ r)%nat →
  g_cells (xw.write_row c r vs g) !! a' = g_cells g !! a'.
Proof.
  revert c g. induction vs as [|v vs IH]; intros c g H; [done|]. cbn.
  rewrite IH by lia. apply cells_edit_cell_ne.
  destruct a' as [c' r']. cbn in H. intros [= -> ->]. lia.
Qed.

Lemma cells_write_array_out c r rows g a' :
  (a'.1 < c ∨ a'.2 < r)%nat →
  g_cells (xw.write_array c r rows g) !! a' = g_cells g !! a'.
Proof.
  revert r g. induction rows as [|vs rows IH]; intros r g H; [done|]. cbn.
  rewrite IH by lia. apply cells_write_row_out. lia.
Qed.

Lemma decor_edit_cell a f g : decor (xw.edit_cell a f g) = decor g.
Proof. reflexivity. Qed.

Lemma decor_edit_block a1 a2 f g : decor (xw.edit_block a1 a2 f g) = decor g.
Proof.
  unfold xw.edit_block. generalize (xw.block a1 a2). intros l. revert g.
  induction l as [|a l IH]; intros g; [done|]. cbn. by rewrite IH.
Qed.

Lemma decor_write_row c r vs g : decor (xw.write_row c r vs g) = decor g.
Proof.
  revert c g. induction vs as [|v vs IH]; intros c g; [done|]. cbn.
  by rewrite IH.
Qed.

Lemma decor_write_array c r rows g :
  decor (xw.write_array c r rows g) = decor g.
Proof.
  revert r g. induction rows as [|vs rows IH]; intros r g; [done|]. cbn.
  by rewrite IH, decor_write_row.
Qed.
End Cells.

(** ** Edits act cell by cell *)

Section Local.
Variable a : addr.

Lemma local_edit_cell a' f : local_at a (xw.edit_cell a' f) (xw.edit_cell a' f).
Proof.
  intros g1 g2 H. destruct (decide (a' = a)) as [->|Hne].
  - rewrite !cells_edit_cell_eq. unfold cell_at. by rewrite H.
  - by rewrite !cells_edit_cell_ne.
Qed.

Lemma local_edit_cell_ne a' f1 f2 :
  a' ≠ a → local_at a (xw.edit_cell a' f1) (xw.edit_cell a' f2).
Proof. intros Hne g1 g2 H. by rewrite !cells_edit_cell_ne. Qed.

Lemma local_edit_block a1 a2 f :
  local_at a (xw.edit_block a1 a2 f) (xw.edit_block a1 a2 f).
Proof.
  unfold xw.edit_block. generalize (xw.block a1 a2). intros l.
  induction l as [|x l IH]; intros g1 g2 H; [done|]. cbn.
  apply IH. by apply local_edit_cell.
Qed.

Lemma local_write_row c r vs :
  local_at a (xw.write_row c r vs) (xw.write_row c r vs).
Proof.
  revert c. induction vs as [|v vs IH]; intros c g1 g2 H; [done|]. cbn.
  apply IH. by apply local_edit_cell.
Qed.

Lemma local_write_array c r rows :
  local_at a (xw.write_array c r rows) (xw.write_array c r rows).
Proof.
  revert r. induction rows as [|vs rows IH]; intros r g1 g2 H; [done|]. cbn.
  apply IH. by apply local_write_row.
Qed.

Lemma local_add_border a1 a2 z :
  local_at a (xw.add_border a1 a2 z) (xw.add_border a1 a2 z).
Proof. by intros g1 g2 H. Qed.

Lemma local_add_autofit c1 c2 :
  local_at a (xw.add_autofit c1 c2) (xw.add_autofit c1 c2).
Proof. by intros g1 g2 H. Qed.

Lemma local_add_picture p :
  local_at a (xw.add_picture p) (xw.add_picture p).
Proof. by intros g1 g2 H. Qed.

Lemma apply_edits_local l1 l2 g1 g2 :
  Forall2 (local_at a) l1 l2 →
  g_cells g1 !! a = g_cells g2 !! a →
  g_cells (apply_edits l1 g1) !! a = g_cells (apply_edits l2 g2) !! a.
Proof.
  intros HF. revert g1 g2.
  induction HF as [|f1 f2 l1 l2 Hf _ IH]; intros g1 g2 H; [done|].
  cbn. apply IH. by apply Hf.
Qed.
End Local.

Lemma same_decor_edit_cell a f1 f2 :
  same_decor (xw.edit_cell a f1) (xw.edit_cell a f2).
Proof. by intros g1 g2 H. Qed.

Lemma same_decor_edit_block a1 a2 f :
  same_decor (xw.edit_block a1 a2 f) (xw.edit_block a1 a2 f).
Proof. intros g1 g2 H. by rewrite !decor_edit_block. Qed.

Lemma same_decor_write_array c r rows :
  same_decor (xw.write_array c r rows) (xw.write_array c r rows).
Proof. intros g1 g2 H. by rewrite !decor_write_array. Qed.

Lemma same_decor_add_border a1 a2 z :
  same_decor (xw.add_border a1 a2 z) (xw.add_border a1 a2 z).
Proof. intros g1 g2 [= H1 H2 H3]. unfold decor. cbn. by rewrite H1, H2, H3. Qed.

Lemma same_decor_add_autofit c1 c2 :
  same_decor (xw.add_autofit c1 c2) (xw.add_autofit c1 c2).
Proof. intros g1 g2 [= H1 H2 H3]. unfold decor. cbn. by rewrite H1, H2, H3. Qed.

Lemma same_decor_add_picture p :
  same_decor (xw.add_picture p) (xw.add_picture p).
Proof. intros g1 g2 [= H1 H2 H3]. unfold decor. cbn. by rewrite H1, H2, H3. Qed.

Lemma apply_edits_decor l1 l2 g1 g2 :
  Forall2 same_decor l1 l2 →
  decor g1 = decor g2 →
  decor (apply_edits l1 g1) = decor (apply_edits l2 g2).
Proof.
  intros HF. revert g1 g2.
  induction HF as [|f1 f2 l1 l2 Hf _ IH]; intros g1 g2 H; [done|].
  cbn. apply IH. by apply Hf.
Qed.

Section CellAt.
Implicit Types (g : grid) (a : addr) (f : cell → cell).

Lemma cell_at_empty a : cell_at empty_grid a = blank.
Proof. unfold cell_at. cbn. by rewrite lookup_empty. Qed.

Lemma cell_at_edit_cell_eq a f g :
  cell_at (xw.edit_cell a f g) a = f (cell_at g a).
Proof. unfold cell_at at 1. by rewrite cells_edit_cell_eq. Qed.

Lemma cell_at_edit_cell_ne a a' f g :
  a ≠ a' → cell_at (xw.edit_cell a f g) a' = cell_at g a'.
Proof. intros H. unfold cell_at. by rewrite cells_edit_cell_ne. Qed.

Lemma cell_at_edit_block_out a1 a2 f g a' :
  (a'.1 < a1.1 ∨ a2.1 < a'.1 ∨ a'.2 < a1.2 ∨ a2.2 < a'.2)%nat →
  cell_at (xw.edit_block a1 a2 f g) a' = cell_at g a'.
Proof. intros H. unfold cell_at. by rewrite cells_edit_block_out. Qed.

Lemma cell_at_write_array_out c r rows g a' :
  (a'.1 < c ∨ a'.2 < r)%nat →
  cell_at (xw.write_array c r rows g) a' = cell_at g a'.
Proof. intros H. unfold cell_at. by rewrite cells_write_array_out. Qed.

Lemma cell_at_add_border a1 a2 z g a :
  cell_at (xw.add_border a1 a2 z g) a = cell_at g a.
Proof. reflexivity. Qed.

Lemma cell_at_add_autofit c1 c2 g a :
  cell_at (xw.add_autofit c1 c2 g) a = cell_at g a.
Proof. reflexivity. Qed.

Lemma cell_at_add_picture p g a :
  cell_at (xw.add_picture p g) a = cell_at g a.
Proof. reflexivity. Qed.

Lemma decor_add_border a1 a2 z g :
  decor (xw.add_border a1 a2 z g)
  = (((decor g).1.1 ++ [(a1, a2, z)])%list, (decor g).1.2, (decor g).2).
Proof. reflexivity. Qed.

Lemma decor_add_autofit c1 c2 g :
  decor (xw.add_autofit c1 c2 g)
  = ((decor g).1.1, ((decor g).1.2 ++ [(c1, c2)])%list, (decor g).2).
Proof. reflexivity. Qed.

Lemma decor_add_picture p g :
  decor (xw.add_picture p g)
  = ((decor g).1.1, (decor g).1.2,
     if existsb (λ q, String.eqb (p_name q) (p_name p)) (decor g).2
     then map (λ q, if String.eqb (p_name q) (p_name p) then p else q)
            (decor g).2
     else ((decor g).2 ++ [p])%list).
Proof. reflexivity. Qed.

Lemma decor_empty : decor empty_grid = ([], [], []).
Proof. reflexivity. Qed.
End CellAt.

Ltac addr_ne :=
  let H := fresh in intros H; vm_compute in H; discriminate H.

Ltac addr_out :=
  unfold col_A, col_B, col_D, col_I, col_K; cbn; lia.

Ltac read_step :=
  lazymatch goal with
  | |- context [cell_at empty_grid ?a] => rewrite (cell_at_empty a)
  | |- context [cell_at (xw.edit_cell ?a ?f ?g) ?a'] =>
      first [ rewrite (cell_at_edit_cell_ne a a' f g) by addr_ne
            | rewrite (cell_at_edit_cell_eq a f g) ]
  | |- context [cell_at (xw.edit_block ?a1 ?a2 ?f ?g) ?a'] =>
      rewrite (cell_at_edit_block_out a1 a2 f g a') by addr_out
  | |- context [cell_at (xw.write_array ?c ?r ?rows ?g) ?a'] =>
      rewrite (cell_at_write_array_out c r rows g a') by addr_out
  | |- context [cell_at (xw.add_border ?a1 ?a2 ?z ?g) ?a] =>
      rewrite (cell_at_add_border a1 a2 z g a)
  | |- context [cell_at (xw.add_autofit ?c1 ?c2 ?g) ?a] =>
      rewrite (cell_at_add_autofit c1 c2 g a)
  | |- context [cell_at (xw.add_picture ?p ?g) ?a] =>
      rewrite (cell_at_add_picture p g a)
  end.

Ltac read_cell :=
  unfold report_grid, apply_edits, report_edits; cbn [fold_left];
  repeat read_step.

Ltac decor_step :=
  lazymatch goal with
  | |- context [decor empty_grid] => rewrite decor_empty
  | |- context [decor (xw.edit_cell ?a ?f ?g)] =>
      rewrite (decor_edit_cell a f g)
  | |- context [decor (xw.edit_block ?a1 ?a2 ?f ?g)] =>
      rewrite (decor_edit_block a1 a2 f g)
  | |- context [decor (xw.write_array ?c ?r ?rows ?g)] =>
      rewrite (decor_write_array c r rows g)
  | |- context [decor (xw.add_border ?a1 ?a2 ?z ?g)] =>
      rewrite (decor_add_border a1 a2 z g)
  | |- context [decor (xw.add_autofit ?c1 ?c2 ?g)] =>
      rewrite (decor_add_autofit c1 c2 g)
  | |- context [decor (xw.add_picture ?p ?g)] =>
      rewrite (decor_add_picture p g)
  end.

Section Report.
Variables (e : env) (t : string).

Lemma report_B4 :
  c_value (cell_at (report_grid e t) (col_B, 4))
  = dict_get (info_or_placeholder e t) "longName" (VStr "N/A").
Proof. read_cell. reflexivity. Qed.

Lemma report_B5 :
  c_value (cell_at (report_grid e t) (col_B, 5))
  = dict_get (info_or_placeholder e t) "sector" (VStr "N/A").
Proof. read_cell. reflexivity. Qed.

Lemma report_B7 :
  cell_at (report_grid e t) (col_B, 7)
  = xw.with_font_bold true
      (xw.with_font_color
         (if Qle_bool 0 (price_change (env_hist e))
          then (0, 128, 0)%Z else (255, 0, 0)%Z)
         (xw.with_value (VStr (change_text (env_hist e))) blank)).
Proof. read_cell. reflexivity. Qed.

Lemma report_B8 :
  c_value (cell_at (report_grid e t) (col_B, 8))
  = VNum (default 0%Q (Num.series_max (High (env_hist e)))).
Proof. read_cell. reflexivity. Qed.

Lemma report_B9 :
  c_value (cell_at (report_grid e t) (col_B, 9))
  = VNum (default 0%Q (Num.series_min (Low (env_hist e)))).
Proof. read_cell. reflexivity. Qed.

Lemma report_A12 :
  c_value (cell_at (report_grid e t) (col_A, 12))
  = VStr ("Last updated: " ++ strftime_ymd_hms (env_now e)).
Proof. read_cell. reflexivity. Qed.

Lemma report_decor :
  decor (report_grid e t)
  = ([((col_D, 4), (col_I, 4 + length (env_hist e)), 2%Z)],
     [(col_A, col_I)],
     [stock_chart t (env_hist e)]).
Proof.
  unfold report_grid, apply_edits, report_edits; cbn [fold_left].
  repeat decor_step. cbn.
  unfold df_display. by rewrite length_fmap.
Qed.
End Report.

(** ** Properties of the macro *)

(** C4. If the name TICKER does not resolve to a cell (it is undefined, or
    refers to nothing), or the cell it resolves to holds no truthy value (it
    is empty), the run ends normally after exactly one dialog and the
    workbook is the one the run started from: no sheet was deleted, created
    or written. *)
Theorem abort_without_ticker (e : env) (b : book) :
  (ticker_input b = None
   ∨ ∃ v, ticker_input b = Some v ∧ truthy v = false) →
  run e b
  = (Val (),
     {| w_book := b;
        w_alerts :=
          [ match ticker_input b with
            | None => setup_alert
            | Some _ => missing_alert
            end ] |}).
Proof.
  intros [H | (v & H & Hv)]; unfold run, run_with, main; rewrite H; apply call_returned.
  - eapply bind_returned. by apply get_ticker_unresolved.
  - eapply bind_returned. by eapply get_ticker_falsy.
Qed.

Lemma abort_without_ticker_witness :
  run (Sample.market Sample.hist None 0) (Sample.wb VNone)
  = (Val (),
     {| w_book := Sample.wb VNone; w_alerts := [missing_alert] |}).
Proof.
  apply (abort_without_ticker (Sample.market Sample.hist None 0)
           (Sample.wb VNone)).
  right. exists VNone. split; reflexivity.
Defined.

Lemma abort_undefined_name :
  run (Sample.market Sample.hist None 0) Sample.wb_no_name
  = (Val (), {| w_book := Sample.wb_no_name; w_alerts := [setup_alert] |}).
Proof. vm_compute. reflexivity. Qed.

(** C9 as stated fails on a workbook whose only sheet is the report sheet:
    the run passes input validation, the host refuses to delete the last
    sheet, the refusal is swallowed like a missing sheet, and adding a sheet
    under the name that is still taken raises. The old report sheet, with
    its contents, is still there; no fresh sheet was created after it. *)
Lemma lone_dashboard_not_recreated :
  let b := Edge.wb_only_dashboard in
  let w := {| w_book := b; w_alerts := [] |} in
  ticker_input b = Some (VStr "ibm")
  ∧ truthy (VStr "ibm") = true
  ∧ get_ticker w = (Val (VStr "ibm"), w)
  ∧ recreate_dashboard_sheet w = (Raised ValueError, w)
  ∧ run (Sample.market Sample.hist None 0) b = (Raised ValueError, w)
  ∧ bk_sheets b = [Edge.dashboard_with_ticker]
  ∧ c_value (cell_at (sh_grid Edge.dashboard_with_ticker) (col_K, 1))
    = VStr "ibm"
  ∧ Edge.dashboard_with_ticker ≠ fresh_sheet.
Proof.
  cbv zeta. do 7 (split; [vm_compute; reflexivity|]).
  intros H. apply (f_equal (λ s, c_value (cell_at (sh_grid s) (col_K, 1)))) in H.
  vm_compute in H. discriminate H.
Qed.

(** C9, amended. On a workbook with at least one sheet other than the
    report sheet (and at most one report sheet, as the host keeps sheet
    names unique), every run that passes input validation first deletes the
    report sheet if there is one (its absence is not an error: no dialog, no
    abort), then adds an empty sheet named "Stock Dashboard" right after the
    first of the remaining sheets and makes it the active sheet; the rest of
    the run starts from that workbook. *)
Theorem recreate_after_validation (p : provider) (b : book) (v : value)
    (s0 : sheet) (rest : list sheet) :
  ticker_input b = Some v →
  truthy v = true →
  (length (dashboards (bk_sheets b)) ≤ 1)%nat →
  others (bk_sheets b) = s0 :: rest →
  let w :=
    {| w_book :=
         {| bk_sheets := s0 :: fresh_sheet :: rest;
            bk_names := names_after_delete b;
            bk_active := Some dashboard_name |};
       w_alerts := [] |} in
  recreate_dashboard_sheet {| w_book := b; w_alerts := [] |}
  = (Val dashboard_name, w)
  ∧ run_with p b = call (fetch_and_report p v dashboard_name) w.
Proof.
  intros Hin Hv Hone Hoth w. split.
  - by apply recreate_ok.
  - rewrite (main_validated_with p b v) by done. unfold call.
    by erewrite bind_val; [|by apply (recreate_ok b [] s0 rest)].
Qed.

Lemma recreate_after_validation_witness :
  let w :=
    {| w_book :=
         {| bk_sheets :=
              [Sample.input_sheet (VStr "msft"); fresh_sheet];
            bk_names := names_after_delete Sample.wb_with_dashboard;
            bk_active := Some dashboard_name |};
       w_alerts := [] |} in
  recreate_dashboard_sheet
    {| w_book := Sample.wb_with_dashboard; w_alerts := [] |}
  = (Val dashboard_name, w)
  ∧ run (Sample.market Sample.hist None 0) Sample.wb_with_dashboard
    = call (fetch_and_report (answers (Sample.market Sample.hist None 0))
              (VStr "msft") dashboard_name) w.
Proof.
  apply (recreate_after_validation
           (answers (Sample.market Sample.hist None 0))
           Sample.wb_with_dashboard (VStr "msft")
           (Sample.input_sheet (VStr "msft")) []).
  - reflexivity.
  - reflexivity.
  - vm_compute. lia.
  - reflexivity.
Defined.

(** C1 as stated fails on a workbook that already has a report sheet: the
    zero-row run deletes it and does not bring it back. *)
Lemma zero_rows_loses_old_dashboard :
  let e := Sample.market [] None 0 in
  let r := run e Sample.wb_with_dashboard in
  env_hist e = []
  ∧ ticker_input Sample.wb_with_dashboard = Some (VStr "msft")
  ∧ r.1 = Val ()
  ∧ w_alerts r.2 = [invalid_alert "msft"]
  ∧ sh_name <$> bk_sheets Sample.wb_with_dashboard
    = ["Sheet1"; "Stock Dashboard"]
  ∧ sh_name <$> bk_sheets (w_book r.2) = ["Sheet1"]
  ∧ bk_sheets (w_book r.2) ≠ bk_sheets Sample.wb_with_dashboard.
Proof.
  cbv zeta. do 6 (split; [vm_compute; reflexivity|]).
  intros H. apply (f_equal length) in H. vm_compute in H. discriminate H.
Qed.

(** C1, amended. When the fetch returns zero rows, the run shows the
    "Invalid Ticker" dialog and deletes the sheet it just created; the
    sheets it leaves are the sheets of the starting workbook other than a
    report sheet, so a workbook that had no report sheet has exactly its
    sheets back. *)
Theorem zero_rows_restores_sheets (e : env) (b : book) (t : string)
    (s0 : sheet) (rest : list sheet) :
  ticker_input b = Some (VStr t) →
  t ≠ "" →
  (length (dashboards (bk_sheets b)) ≤ 1)%nat →
  others (bk_sheets b) = s0 :: rest →
  env_hist e = [] →
  let r := run e b in
  r.1 = Val ()
  ∧ w_alerts r.2 = [invalid_alert t]
  ∧ bk_sheets (w_book r.2) = others (bk_sheets b)
  ∧ (dashboards (bk_sheets b) = [] →
     bk_sheets (w_book r.2) = bk_sheets b).
Proof.
  intros Hin Ht Hone Hoth Hh r. subst r.
  rewrite (run_zero_rows e b t s0 rest) by done. cbn.
  repeat split; [done|]. intros Hd.
  by rewrite <- Hoth, dashboards_nil_others.
Qed.

Lemma zero_rows_restores_sheets_witness :
  let r := run (Sample.market [] None 0) (Sample.wb (VStr "msft")) in
  r.1 = Val ()
  ∧ w_alerts r.2 = [invalid_alert "msft"]
  ∧ bk_sheets (w_book r.2) = others (bk_sheets (Sample.wb (VStr "msft")))
  ∧ (dashboards (bk_sheets (Sample.wb (VStr "msft"))) = [] →
     bk_sheets (w_book r.2) = bk_sheets (Sample.wb (VStr "msft"))).
Proof.
  apply (zero_rows_restores_sheets (Sample.market [] None 0)
           (Sample.wb (VStr "msft")) "msft"
           (Sample.input_sheet (VStr "msft")) []).
  - reflexivity.
  - discriminate.
  - vm_compute. lia.
  - reflexivity.
  - reflexivity.
Defined.

(** ** Extremes of a series *)

Lemma Qmax_cases (x y : Q) :
  (Qmax x y = x ∧ (y <= x)%Q) ∨ (Qmax x y = y ∧ (x <= y)%Q).
Proof.
  unfold Qmax, GenericMinMax.gmax. destruct (x ?= y)%Q eqn:E.
  - left. split; [done|]. apply Qeq_alt in E. rewrite E. apply Qle_refl.
  - right. split; [done|]. apply Qlt_alt in E. by apply Qlt_le_weak.
  - left. split; [done|]. apply Qgt_alt in E. by apply Qlt_le_weak.
Qed.

Lemma Qmin_cases (x y : Q) :
  (Qmin x y = x ∧ (x <= y)%Q) ∨ (Qmin x y = y ∧ (y <= x)%Q).
Proof.
  unfold Qmin, GenericMinMax.gmin. destruct (x ?= y)%Q eqn:E.
  - left. split; [done|]. apply Qeq_alt in E. rewrite E. apply Qle_refl.
  - left. split; [done|]. apply Qlt_alt in E. by apply Qlt_le_weak.
  - right. split; [done|]. apply Qgt_alt in E. by apply Qlt_le_weak.
Qed.

Lemma fold_max_spec (r : list Q) (x : Q) :
  In (fold_left Qmax r x) (x :: r)
  ∧ ∀ y, In y (x :: r) → (y <= fold_left Qmax r x)%Q.
Proof.
  revert x. induction r as [|z r IH]; intros x; cbn [fold_left].
  - split; [by left|]. intros y [<-|[]]. apply Qle_refl.
  - destruct (IH (Qmax x z)) as [Hin Hub]. split.
    + destruct Hin as [Hin|Hin]; [|by right; right].
      rewrite <- Hin.
      destruct (Qmax_cases x z) as [[-> _]|[-> _]]; [by left|by right; left].
    + intros y Hy.
      assert (y <= Qmax x z ∨ In y r)%Q as [Hle|Hr].
      { destruct Hy as [<-|[<-|Hy]]; [| |by right]; left;
          destruct (Qmax_cases x z) as [[-> H]|[-> H]];
          first [apply Qle_refl | done]. }
      * eapply Qle_trans; [exact Hle|]. apply Hub. by left.
      * apply Hub. by right.
Qed.

Lemma fold_min_spec (r : list Q) (x : Q) :
  In (fold_left Qmin r x) (x :: r)
  ∧ ∀ y, In y (x :: r) → (fold_left Qmin r x <= y)%Q.
Proof.
  revert x. induction r as [|z r IH]; intros x; cbn [fold_left].
  - split; [by left|]. intros y [<-|[]]. apply Qle_refl.
  - destruct (IH (Qmin x z)) as [Hin Hlb]. split.
    + destruct Hin as [Hin|Hin]; [|by right; right].
      rewrite <- Hin.
      destruct (Qmin_cases x z) as [[-> _]|[-> _]]; [by left|by right; left].
    + intros y Hy.
      assert (Qmin x z <= y ∨ In y r)%Q as [Hle|Hr].
      { destruct Hy as [<-|[<-|Hy]]; [| |by right]; left;
          destruct (Qmin_cases x z) as [[-> H]|[-> H]];
          first [apply Qle_refl | done]. }
      * eapply Qle_trans; [|exact Hle]. apply Hlb. by left.
      * apply Hlb. by right.
Qed.

Lemma series_max_spec (l : list Q) :
  l ≠ [] →
  In (default 0%Q (Num.series_max l)) l
  ∧ ∀ y, In y l → (y <= default 0%Q (Num.series_max l))%Q.
Proof. destruct l as [|x r]; [done|]. intros _. apply fold_max_spec. Qed.

Lemma series_min_spec (l : list Q) :
  l ≠ [] →
  In (default 0%Q (Num.series_min l)) l
  ∧ ∀ y, In y l → (default 0%Q (Num.series_min l) <= y)%Q.
Proof. destruct l as [|x r]; [done|]. intros _. apply fold_min_spec. Qed.

Lemma colors_lookup (hist : list row) (i : nat) (r : row) :
  hist !! i = Some r →
  colors hist !! i
  = Some (if Qle_bool (r_open r) (r_close r) then "green" else "red").
Proof.
  intros H. unfold colors, Close, Open.
  rewrite list_lookup_fmap, lookup_zip_with, !list_lookup_fmap, H.
  reflexivity.
Qed.

Section Success.
Variables (e : env) (b : book) (t : string) (s0 : sheet) (rest : list sheet).
Hypothesis Hin : ticker_input b = Some (VStr t).
Hypothesis Ht : t ≠ "".
Hypothesis Hone : (length (dashboards (bk_sheets b)) ≤ 1)%nat.
Hypothesis Hoth : others (bk_sheets b) = s0 :: rest.
Hypothesis Hh : env_hist e ≠ [].

Lemma run_report_sheet :
  (run e b).1 = Val ()
  ∧ w_alerts (run e b).2 = [success_alert t (env_hist e)]
  ∧ report_sheet (run e b).2 = Some (report_grid e t).
Proof.
  rewrite (run_success e b t s0 rest) by done. cbn [fst snd].
  split; [done|]. split; [done|].
  apply report_sheet_dash_world. by eapply others_head.
Qed.
End Success.

Lemma ready_run (e : env) (b : book) (t : string) :
  ready b t → env_hist e ≠ [] →
  (run e b).1 = Val ()
  ∧ w_alerts (run e b).2 = [success_alert t (env_hist e)]
  ∧ report_sheet (run e b).2 = Some (report_grid e t).
Proof.
  intros (Hin & Ht & Hone & Hoth) Hh.
  destruct (others (bk_sheets b)) as [|s0 rest] eqn:E; [done|].
  by apply (run_report_sheet e b t s0 rest).
Qed.


Lemma fdiv_zero (a d : Q) :
  (d == 0)%Q → Num.is_finite (Num.fmul (Num.fdiv a d) 100) = false.
Proof.
  intros H. unfold Num.fdiv. rewrite (Qeq_eq_bool _ _ H).
  by destruct (a ?= 0)%Q.
Qed.



Lemma pictures_decor (g : grid) : g_pictures g = (decor g).2.
Proof. reflexivity. Qed.

(** C5. For a non-empty fetched series, the number written to the window
    high cell B8 is an entry of the High column of the fetched rows and no
    fetched row has a larger High; the number written to the window low
    cell B9 is an entry of the Low column of the fetched rows and no fetched
    row has a smaller Low. *)
Theorem window_high_low (e : env) (b : book) (t : string) :
  ready b t →
  env_hist e ≠ [] →
  ∃ g hi lo,
    report_sheet (run e b).2 = Some g
    ∧ c_value (cell_at g (col_B, 8)) = VNum hi
    ∧ c_value (cell_at g (col_B, 9)) = VNum lo
    ∧ In hi (High (env_hist e))
    ∧ (∀ r, In r (env_hist e) → (r_high r <= hi)%Q)
    ∧ In lo (Low (env_hist e))
    ∧ (∀ r, In r (env_hist e) → (lo <= r_low r)%Q).
Proof.
  intros Hr Hh. destruct (ready_run e b t Hr Hh) as (_ & _ & Hg).
  destruct (series_max_spec (High (env_hist e))) as [Hmi Hmu];
    [by apply fmap_not_nil|].
  destruct (series_min_spec (Low (env_hist e))) as [Hli Hlu];
    [by apply fmap_not_nil|].
  exists (report_grid e t), (default 0%Q (Num.series_max (High (env_hist e)))),
    (default 0%Q (Num.series_min (Low (env_hist e)))).
  split; [done|]. split; [apply report_B8|]. split; [apply report_B9|].
  split; [done|]. split; [|split; [done|]].
  - intros r Hin. apply Hmu. unfold High. by apply in_map.
  - intros r Hin. apply Hlu. unfold Low. by apply in_map.
Qed.

Lemma window_high_low_witness :
  ∃ g hi lo,
    report_sheet
      (run (Sample.market Sample.hist None 0) (Sample.wb (VStr "aapl"))).2
    = Some g
    ∧ c_value (cell_at g (col_B, 8)) = VNum hi
    ∧ c_value (cell_at g (col_B, 9)) = VNum lo
    ∧ In hi (High Sample.hist)
    ∧ (∀ r, In r Sample.hist → (r_high r <= hi)%Q)
    ∧ In lo (Low Sample.hist)
    ∧ (∀ r, In r Sample.hist → (lo <= r_low r)%Q).
Proof.
  apply (window_high_low (Sample.market Sample.hist None 0)
           (Sample.wb (VStr "aapl")) "aapl").
  - split; [reflexivity|split; [discriminate|split; [vm_compute; lia|discriminate]]].
  - discriminate.
Defined.

(** C6. The font colour of the 30-day-change cell B7 is the positive colour
    (0, 128, 0) when last close - first close is at least 0, and the
    negative colour (255, 0, 0) when it is below 0; a change of exactly 0
    gets the positive colour. *)
Theorem change_color (e : env) (b : book) (t : string) :
  ready b t →
  env_hist e ≠ [] →
  let change :=
    (List.last (Close (env_hist e)) 0 - hd 0 (Close (env_hist e)))%Q in
  ∃ g, report_sheet (run e b).2 = Some g
       ∧ ((0 <= change)%Q →
          c_font_color (cell_at g (col_B, 7)) = Some (0, 128, 0)%Z)
       ∧ ((change < 0)%Q →
          c_font_color (cell_at g (col_B, 7)) = Some (255, 0, 0)%Z)
       ∧ ((change == 0)%Q →
          c_font_color (cell_at g (col_B, 7)) = Some (0, 128, 0)%Z).
Proof.
  intros Hr Hh change. destruct (ready_run e b t Hr Hh) as (_ & _ & Hg).
  exists (report_grid e t). split; [done|].
  rewrite report_B7.
  cbn [c_font_color xw.with_font_bold xw.with_font_color xw.with_value].
  fold (price_change (env_hist e)) in change. fold change.
  assert ((0 <= change)%Q →
          Some (if Qle_bool 0 change then (0, 128, 0)%Z else (255, 0, 0)%Z)
          = Some (0, 128, 0)%Z) as Hpos.
  { intros H. apply Qle_bool_iff in H. by rewrite H. }
  split; [done|]. split.
  - intros H. destruct (Qle_bool 0 change) eqn:E; [|done].
    apply Qle_bool_iff in E. by apply Qle_not_lt in E.
  - intros H. apply Hpos. rewrite H. apply Qle_refl.
Qed.

Lemma change_color_witness :
  let change :=
    (List.last (Close Sample.hist) 0 - hd 0 (Close Sample.hist))%Q in
  ∃ g, report_sheet
         (run (Sample.market Sample.hist None 0) (Sample.wb (VStr "aapl"))).2
       = Some g
       ∧ ((0 <= change)%Q →
          c_font_color (cell_at g (col_B, 7)) = Some (0, 128, 0)%Z)
       ∧ ((change < 0)%Q →
          c_font_color (cell_at g (col_B, 7)) = Some (255, 0, 0)%Z)
       ∧ ((change == 0)%Q →
          c_font_color (cell_at g (col_B, 7)) = Some (0, 128, 0)%Z).
Proof.
  apply (change_color (Sample.market Sample.hist None 0)
           (Sample.wb (VStr "aapl")) "aapl").
  - split; [reflexivity|split; [discriminate|split; [vm_compute; lia|discriminate]]].
  - discriminate.
Defined.

(** C7. Nothing checks the first close before the division: for every
    non-empty series whose first close is zero the run still reaches the
    division, which takes its zero-divisor branch (the percent change is not
    a finite number), and the run goes on to write the change text and to
    end with the success dialog. *)
Theorem unguarded_division (e : env) (b : book) (t : string) :
  ready b t →
  env_hist e ≠ [] →
  (hd 0 (Close (env_hist e)) == 0)%Q →
  Num.is_finite (price_change_pct (env_hist e)) = false
  ∧ (run e b).1 = Val ()
  ∧ w_alerts (run e b).2 = [success_alert t (env_hist e)]
  ∧ ∃ g, report_sheet (run e b).2 = Some g
         ∧ c_value (cell_at g (col_B, 7)) = VStr (change_text (env_hist e)).
Proof.
  intros Hr Hh Hz. destruct (ready_run e b t Hr Hh) as (Hv & Ha & Hg).
  split; [by apply fdiv_zero|]. split; [done|]. split; [done|].
  exists (report_grid e t). split; [done|]. by rewrite report_B7.
Qed.

Lemma unguarded_division_witness :
  let e := Sample.market Sample.hist_zero None 0 in
  Num.is_finite (price_change_pct Sample.hist_zero) = false
  ∧ (run e (Sample.wb (VStr "aapl"))).1 = Val ()
  ∧ w_alerts (run e (Sample.wb (VStr "aapl"))).2
    = [success_alert "aapl" Sample.hist_zero]
  ∧ ∃ g, report_sheet (run e (Sample.wb (VStr "aapl"))).2 = Some g
         ∧ c_value (cell_at g (col_B, 7)) = VStr "$2.00 (+inf%)".
Proof.
  apply (unguarded_division (Sample.market Sample.hist_zero None 0)
           (Sample.wb (VStr "aapl")) "aapl").
  - split; [reflexivity|split; [discriminate|split; [vm_compute; lia|discriminate]]].
  - discriminate.
  - reflexivity.
Defined.

(** C10. The chart embedded by a successful run has one volume bar per
    fetched row, in order; the bar of a row is green when its Close is
    greater than or equal to its Open and red otherwise, so a row with
    Close = Open gets a green bar. *)
Theorem volume_bar_colors (e : env) (b : book) (t : string) :
  ready b t →
  env_hist e ≠ [] →
  ∃ g p,
    report_sheet (run e b).2 = Some g
    ∧ g_pictures g = [p]
    ∧ p_name p = "stock_chart"
    ∧ length (fig_bars (p_image p)) = length (env_hist e)
    ∧ ∀ i r, env_hist e !! i = Some r →
        ∃ c, fig_bars (p_image p) !! i = Some (r_date r, r_volume r, c)
             ∧ ((r_open r <= r_close r)%Q → c = "green")
             ∧ ((r_close r < r_open r)%Q → c = "red")
             ∧ ((r_close r == r_open r)%Q → c = "green").
Proof.
  intros Hr Hh. destruct (ready_run e b t Hr Hh) as (_ & _ & Hg).
  exists (report_grid e t), (stock_chart t (env_hist e)).
  split; [done|]. split.
  { rewrite (pictures_decor (report_grid e t)). by rewrite report_decor. }
  split; [done|]. cbn [p_image stock_chart chart fig_bars]. split.
  { rewrite !length_zip_with. unfold colors, index, Volume, Close, Open.
    rewrite !length_fmap, length_zip_with, !length_fmap. lia. }
  intros i r Hi.
  exists (if Qle_bool (r_open r) (r_close r) then "green" else "red").
  assert ((r_open r <= r_close r)%Q →
          (if Qle_bool (r_open r) (r_close r) then "green" else "red")
          = "green") as Hge.
  { intros H. apply Qle_bool_iff in H. by rewrite H. }
  split; [|split; [done|split]].
  - rewrite !lookup_zip_with. unfold index, Volume.
    rewrite !list_lookup_fmap, Hi. cbn.
    by rewrite (colors_lookup _ _ _ Hi).
  - intros H. destruct (Qle_bool (r_open r) (r_close r)) eqn:E; [|done].
    apply Qle_bool_iff in E. by apply Qle_not_lt in E.
  - intros H. apply Hge. rewrite H. apply Qle_refl.
Qed.

Lemma volume_bar_colors_witness :
  ∃ g p,
    report_sheet
      (run (Sample.market Sample.hist None 0) (Sample.wb (VStr "aapl"))).2
    = Some g
    ∧ g_pictures g = [p]
    ∧ p_name p = "stock_chart"
    ∧ length (fig_bars (p_image p)) = length Sample.hist
    ∧ ∀ i r, Sample.hist !! i = Some r →
        ∃ c, fig_bars (p_image p) !! i = Some (r_date r, r_volume r, c)
             ∧ ((r_open r <= r_close r)%Q → c = "green")
             ∧ ((r_close r < r_open r)%Q → c = "red")
             ∧ ((r_close r == r_open r)%Q → c = "green").
Proof.
  apply (volume_bar_colors (Sample.market Sample.hist None 0)
           (Sample.wb (VStr "aapl")) "aapl").
  - split; [reflexivity|split; [discriminate|split; [vm_compute; lia|discriminate]]].
  - discriminate.
Defined.

Ltac solve_local :=
  first
    [ apply local_edit_cell_ne; congruence
    | apply local_edit_cell
    | apply local_edit_block
    | apply local_write_array
    | apply local_add_border
    | apply local_add_autofit
    | apply local_add_picture ].

Ltac solve_same_decor :=
  first
    [ apply same_decor_edit_cell
    | apply same_decor_edit_block
    | apply same_decor_write_array
    | apply same_decor_add_border
    | apply same_decor_add_autofit
    | apply same_decor_add_picture ].

(** Two reports for the same ticker and rows agree outside the cells
    that show the metadata and the clock. *)
Lemma report_edits_cells t hist info1 info2 now1 now2 a :
  (info1 = info2 ∨ (a ≠ (col_B, 4) ∧ a ≠ (col_B, 5))) →
  (now1 = now2 ∨ a ≠ (col_A, 12)) →
  g_cells (apply_edits (report_edits t hist info1 now1) empty_grid) !! a
  = g_cells (apply_edits (report_edits t hist info2 now2) empty_grid) !! a.
Proof.
  intros Hi Hn. apply apply_edits_local; [|done].
  unfold report_edits.
  destruct Hi as [->|[H4 H5]]; destruct Hn as [->|H12];
    repeat (constructor; [solve_local|]); constructor.
Qed.

Lemma report_edits_decor t hist info1 info2 now1 now2 :
  decor (apply_edits (report_edits t hist info1 now1) empty_grid)
  = decor (apply_edits (report_edits t hist info2 now2) empty_grid).
Proof.
  apply apply_edits_decor; [|done]. unfold report_edits.
  repeat (constructor; [solve_same_decor|]); constructor.
Qed.

Lemma placeholder_longName u :
  dict_get {[ "longName" := VStr u; "sector" := VStr "N/A" ]} "longName"
    (VStr "N/A")
  = VStr u.
Proof. unfold dict_get. by rewrite lookup_insert_eq. Qed.

Lemma placeholder_sector u :
  dict_get {[ "longName" := VStr u; "sector" := VStr "N/A" ]} "sector"
    (VStr "N/A")
  = VStr "N/A".
Proof.
  unfold dict_get. rewrite lookup_insert_ne by done.
  by rewrite lookup_singleton_eq.
Qed.

Lemma upper_cons_ascii (a : ascii) (r : string) :
  (Ascii.N_of_ascii a < 128)%N →
  Text.upper (String a r)
  = String
      (if ((97 <=? Ascii.N_of_ascii a) && (Ascii.N_of_ascii a <=? 122))%N
       then Ascii.ascii_of_N (Ascii.N_of_ascii a - 32) else a)
      (Text.upper r).
Proof.
  intros H. unfold Text.upper. cbn [Text.decode].
  apply N.ltb_lt in H as Hb. rewrite Hb. cbn [flat_map].
  unfold Text.upper_point at 1. rewrite Hb. cbn [app Text.encode].
  assert (∀ x, (x < 128)%N →
               (Text.encode1 x ++ Text.encode
                  (flat_map Text.upper_point (Text.decode r)))%string
               = String (Ascii.ascii_of_N x)
                   (Text.encode (flat_map Text.upper_point (Text.decode r))))
    as Henc.
  { intros x Hx. unfold Text.encode1. apply N.ltb_lt in Hx. by rewrite Hx. }
  destruct ((97 <=? Ascii.N_of_ascii a) && (Ascii.N_of_ascii a <=? 122))%N
    eqn:E.
  - rewrite Henc by lia. reflexivity.
  - rewrite Henc by done. by rewrite Ascii.ascii_N_embedding.
Qed.

Lemma upper_ascii_text (t : string) :
  (∀ i c, String.get i t = Some c → (Ascii.N_of_ascii c < 128)%N) →
  String.length (Text.upper t) = String.length t
  ∧ ∀ i c, String.get i t = Some c →
      String.get i (Text.upper t)
      = Some (if ((97 <=? Ascii.N_of_ascii c)
                  && (Ascii.N_of_ascii c <=? 122))%N
              then Ascii.ascii_of_N (Ascii.N_of_ascii c - 32) else c).
Proof.
  induction t as [|a r IH]; intros H.
  - split; [reflexivity|]. intros i c Hi. by destruct i.
  - assert (Ascii.N_of_ascii a < 128)%N as Ha by (apply (H 0%nat); reflexivity).
    destruct IH as [IHl IHg].
    { intros i c Hi. apply (H (S i)). exact Hi. }
    rewrite upper_cons_ascii by exact Ha. split.
    + cbn [String.length]. by rewrite IHl.
    + intros [|i] c Hi; cbn [String.get] in *.
      * by injection Hi as <-.
      * by apply IHg.
Qed.

(** C8. When fetching the issuer metadata fails, the run neither aborts nor
    shows a dialog for it: it ends with the success dialog alone, the
    company cell B4 holds the upper-cased ticker and the sector cell B5
    holds "N/A". For a ticker of ASCII characters the upper-cased ticker is
    the ticker with each of the letters a to z replaced by the corresponding
    letter of A to Z and every other character kept. Compared with a run in
    which the fetch succeeds, whatever the metadata, the dialogs are the
    same and the report sheet is the same in every cell other than B4 and
    B5, in its borders, its column fitting and its picture. *)
Theorem metadata_failure_placeholders (e : env) (b : book) (t : string) :
  ready b t →
  env_hist e ≠ [] →
  env_info e = None →
  (run e b).1 = Val ()
  ∧ w_alerts (run e b).2 = [success_alert t (env_hist e)]
  ∧ ∃ g company,
      report_sheet (run e b).2 = Some g
      ∧ c_value (cell_at g (col_B, 4)) = VStr company
      ∧ company = Text.upper t
      ∧ ((∀ i c, String.get i t = Some c → (Ascii.N_of_ascii c < 128)%N) →
         String.length company = String.length t
         ∧ ∀ i c, String.get i t = Some c →
             String.get i company
             = Some (if ((97 <=? Ascii.N_of_ascii c)
                         && (Ascii.N_of_ascii c <=? 122))%N
                     then Ascii.ascii_of_N (Ascii.N_of_ascii c - 32)
                     else c))
      ∧ c_value (cell_at g (col_B, 5)) = VStr "N/A"
      ∧ ∀ d : gmap string value,
          let e' :=
            {| env_hist := env_hist e; env_info := Some d;
               env_now := env_now e |} in
          (run e' b).1 = Val ()
          ∧ w_alerts (run e' b).2 = w_alerts (run e b).2
          ∧ ∃ g',
              report_sheet (run e' b).2 = Some g'
              ∧ decor g' = decor g
              ∧ ∀ a, a ≠ (col_B, 4) → a ≠ (col_B, 5) →
                     g_cells g' !! a = g_cells g !! a.
Proof.
  intros Hr Hh Hi. destruct (ready_run e b t Hr Hh) as (Hv & Ha & Hg).
  split; [done|]. split; [done|].
  exists (report_grid e t), (Text.upper t). split; [done|].
  split; [|split; [reflexivity|split; [apply upper_ascii_text|split]]].
  - rewrite report_B4. unfold info_or_placeholder. rewrite Hi.
    apply placeholder_longName.
  - rewrite report_B5. unfold info_or_placeholder. rewrite Hi.
    apply placeholder_sector.
  - intros d e'.
    destruct (ready_run e' b t Hr Hh) as (Hv' & Ha' & Hg').
    split; [done|]. split; [by rewrite Ha, Ha'|].
    exists (report_grid e' t). split; [done|]. unfold report_grid. split.
    + apply report_edits_decor.
    + intros a H4 H5. apply report_edits_cells; [by right|by left].
Qed.

Lemma metadata_failure_placeholders_witness :
  let e := Sample.market Sample.hist None 0 in
  let b := Sample.wb (VStr "brk-b") in
  (run e b).1 = Val ()
  ∧ w_alerts (run e b).2 = [success_alert "brk-b" Sample.hist]
  ∧ ∃ g company,
      report_sheet (run e b).2 = Some g
      ∧ c_value (cell_at g (col_B, 4)) = VStr company
      ∧ company = "BRK-B"
      ∧ ((∀ i c, String.get i "brk-b" = Some c →
                 (Ascii.N_of_ascii c < 128)%N) →
         String.length company = String.length "brk-b"
         ∧ ∀ i c, String.get i "brk-b" = Some c →
             String.get i company
             = Some (if ((97 <=? Ascii.N_of_ascii c)
                         && (Ascii.N_of_ascii c <=? 122))%N
                     then Ascii.ascii_of_N (Ascii.N_of_ascii c - 32)
                     else c))
      ∧ c_value (cell_at g (col_B, 5)) = VStr "N/A"
      ∧ ∀ d : gmap string value,
          let e' :=
            {| env_hist := env_hist e; env_info := Some d;
               env_now := env_now e |} in
          (run e' b).1 = Val ()
          ∧ w_alerts (run e' b).2 = w_alerts (run e b).2
          ∧ ∃ g',
              report_sheet (run e' b).2 = Some g'
              ∧ decor g' = decor g
              ∧ ∀ a, a ≠ (col_B, 4) → a ≠ (col_B, 5) →
                     g_cells g' !! a = g_cells g !! a.
Proof.
  apply (metadata_failure_placeholders (Sample.market Sample.hist None 0)
           (Sample.wb (VStr "brk-b")) "brk-b").
  - split; [reflexivity|split; [discriminate|split; [vm_compute; lia|discriminate]]].
  - discriminate.
  - reflexivity.
Defined.

Lemma is_dashboard_named g :
  is_dashboard {| sh_name := dashboard_name; sh_grid := g |} = true.
Proof. apply same_name_refl. Qed.

Lemma no_dashboard_split l :
  existsb is_dashboard l = false → dashboards l = [] ∧ others l = l.
Proof.
  induction l as [|s r IH]; [done|]. cbn [existsb].
  rewrite dashboards_cons, others_cons. intros H.
  apply orb_false_iff in H as [Hs Hr]. rewrite Hs.
  destruct (IH Hr) as [H1 H2]. by rewrite H2.
Qed.

(** C2 as stated fails: the report carries the time of the run, so two
    runs on the same ticker and the same rows leave different text in
    cell A12 as soon as the clock has moved on. *)
Lemma rerun_changes_timestamp :
  let b := Sample.wb (VStr "aapl") in
  let e1 := Sample.market Sample.hist None 7 in
  let e2 := Sample.market Sample.hist None 8 in
  let w1 := (run e1 b).2 in
  let w2 := (run e2 (w_book w1)).2 in
  env_hist e2 = env_hist e1
  ∧ ticker_input b = Some (VStr "aapl")
  ∧ ticker_input (w_book w1) = Some (VStr "aapl")
  ∧ (λ g, c_value (cell_at g (col_A, 12))) <$> report_sheet w1
    = Some (VStr "Last updated: 2024-01-05 09:05:07")
  ∧ (λ g, c_value (cell_at g (col_A, 12))) <$> report_sheet w2
    = Some (VStr "Last updated: 2024-01-05 09:05:08")
  ∧ (λ g, c_value (cell_at g (col_A, 12))) <$> report_sheet w2
    ≠ (λ g, c_value (cell_at g (col_A, 12))) <$> report_sheet w1.
Proof.
  cbv zeta. do 5 (split; [vm_compute; reflexivity|]).
  intros H. vm_compute in H. discriminate H.
Qed.

(** C2, amended. Run the macro twice in succession with the TICKER range
    delivering the same text and the provider returning the same rows and
    the same issuer metadata. Both runs succeed; the report sheet after the
    second run agrees with the one after the first in every cell other than
    the timestamp cell A12, whose text follows the clock, and in borders,
    column fitting and picture; when the clock text is the same the two
    report sheets are equal. The workbook has the same sheets in the same
    order after both runs, one of them the report sheet, and the report
    sheet holds one picture. *)
Theorem rerun_same_report (e1 e2 : env) (b : book) (t : string) :
  ready b t →
  env_hist e1 ≠ [] →
  env_hist e2 = env_hist e1 →
  env_info e2 = env_info e1 →
  ticker_input (w_book (run e1 b).2) = Some (VStr t) →
  let w1 := (run e1 b).2 in
  let r2 := run e2 (w_book w1) in
  r2.1 = Val ()
  ∧ sh_name <$> bk_sheets (w_book r2.2) = sh_name <$> bk_sheets (w_book w1)
  ∧ length (dashboards (bk_sheets (w_book r2.2))) = 1%nat
  ∧ ∃ g1 g2,
      report_sheet w1 = Some g1
      ∧ report_sheet r2.2 = Some g2
      ∧ (∀ a, a ≠ (col_A, 12) → g_cells g2 !! a = g_cells g1 !! a)
      ∧ c_value (cell_at g2 (col_A, 12))
        = VStr ("Last updated: " ++ strftime_ymd_hms (env_now e2))
      ∧ decor g2 = decor g1
      ∧ length (g_pictures g2) = 1%nat
      ∧ (strftime_ymd_hms (env_now e2) = strftime_ymd_hms (env_now e1) →
         g2 = g1).
Proof.
  intros (Hin & Ht & Hone & Hoth) Hh Hh2 Hi2 Hin2 w1 r2. subst w1 r2.
  destruct (others (bk_sheets b)) as [|s0 rest] eqn:E; [done|]. clear Hoth.
  pose proof (others_head _ _ _ E) as Hs0.
  pose proof (others_tail _ _ _ E) as Hrest.
  destruct (no_dashboard_split _ Hrest) as [Hd Ho].
  rewrite (run_success e1 b t s0 rest) in Hin2 |- * by assumption.
  cbn [snd] in Hin2 |- *.
  assert (env_hist e2 ≠ []) as Hh' by (rewrite Hh2; assumption).
  rewrite (run_success e2 _ t s0 rest);
    [|exact Hin2|exact Ht|..|exact Hh']; cycle 1.
  { unfold dash_world; cbn [w_book bk_sheets].
    rewrite !dashboards_cons, Hs0, is_dashboard_named, Hd. cbn. lia. }
  { unfold dash_world; cbn [w_book bk_sheets].
    rewrite !others_cons, Hs0, is_dashboard_named, Ho. reflexivity. }
  cbn [fst snd]. split; [reflexivity|].
  split.
  { unfold dash_world; cbn [w_book bk_sheets].
    rewrite !fmap_cons. cbn [sh_name]. reflexivity. }
  split.
  { unfold dash_world; cbn [w_book bk_sheets].
    rewrite !dashboards_cons, Hs0, is_dashboard_named, Hd. reflexivity. }
  exists (report_grid e1 t), (report_grid e2 t).
  split; [apply report_sheet_dash_world; exact Hs0|].
  split; [apply report_sheet_dash_world; exact Hs0|].
  assert (info_or_placeholder e2 t = info_or_placeholder e1 t) as Hinfo.
  { unfold info_or_placeholder. rewrite Hi2. reflexivity. }
  split; [|split; [|split; [|split]]].
  - intros a Ha. unfold report_grid. rewrite Hh2, Hinfo.
    apply report_edits_cells; [by left|by right].
  - apply report_A12.
  - unfold report_grid. rewrite Hh2. apply report_edits_decor.
  - rewrite (pictures_decor (report_grid e2 t)), report_decor. reflexivity.
  - intros Hclock. unfold report_grid, report_edits.
    rewrite Hh2, Hinfo, Hclock. reflexivity.
Qed.

Lemma rerun_same_report_witness :
  let b := Sample.wb (VStr "aapl") in
  let e1 := Sample.market Sample.hist None 7 in
  let e2 := Sample.market Sample.hist None 8 in
  let w1 := (run e1 b).2 in
  let r2 := run e2 (w_book w1) in
  r2.1 = Val ()
  ∧ sh_name <$> bk_sheets (w_book r2.2) = sh_name <$> bk_sheets (w_book w1)
  ∧ length (dashboards (bk_sheets (w_book r2.2))) = 1%nat
  ∧ ∃ g1 g2,
      report_sheet w1 = Some g1
      ∧ report_sheet r2.2 = Some g2
      ∧ (∀ a, a ≠ (col_A, 12) → g_cells g2 !! a = g_cells g1 !! a)
      ∧ c_value (cell_at g2 (col_A, 12))
        = VStr ("Last updated: " ++ strftime_ymd_hms (env_now e2))
      ∧ decor g2 = decor g1
      ∧ length (g_pictures g2) = 1%nat
      ∧ (strftime_ymd_hms (env_now e2) = strftime_ymd_hms (env_now e1) →
         g2 = g1).
Proof.
  apply (rerun_same_report (Sample.market Sample.hist None 7)
           (Sample.market Sample.hist None 8) (Sample.wb (VStr "aapl"))
           "aapl").
  - split; [reflexivity|split; [discriminate|split; [vm_compute; lia|discriminate]]].
  - discriminate.
  - reflexivity.
  - reflexivity.
  - vm_compute. reflexivity.
Defined.

Lemma find_sheet_others sn l :
  xw.same_name sn dashboard_name = false →
  xw.find_sheet sn (others l) = xw.find_sheet sn l.
Proof.
  intros Hsn. induction l as [|x r IH]; [done|].
  rewrite others_cons. destruct (is_dashboard x) eqn:E; cbn.
  - unfold is_dashboard in E.
    rewrite <- (same_name_trans _ _ sn E), (same_name_sym dashboard_name sn), Hsn.
    exact IH.
  - by rewrite IH.
Qed.

(** A TICKER range on a sheet other than the report sheet reads the same
    after a successful run as before it. *)
Lemma ticker_survives_run (e : env) (b : book) (t sn : string) (a : addr) :
  bk_names b !! "TICKER" = Some (RefTo sn a) →
  xw.same_name sn dashboard_name = false →
  ready b t →
  env_hist e ≠ [] →
  ticker_input (w_book (run e b).2) = Some (VStr t).
Proof.
  intros Hnm Hsn (Hin & Ht & Hone & Hoth) Hh.
  destruct (others (bk_sheets b)) as [|s0 rest] eqn:E; [done|]. clear Hoth.
  rewrite (run_success e b t s0 rest) by done.
  unfold ticker_input in Hin |- *. rewrite Hnm in Hin.
  unfold dash_world; cbn [snd w_book bk_names bk_sheets].
  assert (names_after_delete b !! "TICKER" = Some (RefTo sn a)) as ->.
  { unfold names_after_delete.
    destruct (xw.find_sheet dashboard_name (bk_sheets b)) as [s|] eqn:Hf;
      [|done].
    rewrite lookup_fmap, Hnm. cbn [fmap option_fmap option_map xw.invalidate].
    apply find_sheet_name in Hf.
    by rewrite (same_name_right _ _ sn Hf), Hsn. }
  assert (xw.find_sheet sn
            (s0 :: {| sh_name := dashboard_name;
                      sh_grid := report_grid e t |} :: rest)
          = xw.find_sheet sn (bk_sheets b)) as ->; [|done].
  rewrite <- (find_sheet_others sn (bk_sheets b)) by done. rewrite E.
  cbn [xw.find_sheet sh_name].
  by rewrite (same_name_sym dashboard_name sn), Hsn.
Qed.

(** ** What every run preserves, and more of the report *)

Section Hoare.
Context {A B : Type}.
Implicit Types (P : world → Prop) (R X : world → Prop).

Lemma hoare_weaken P P' (m : M A) (Q Q' : A → world → Prop) R R' X X' :
  hoare P m Q R X →
  (∀ w, P' w → P w) →
  (∀ a w, Q a w → Q' a w) →
  (∀ w, R w → R' w) →
  (∀ w, X w → X' w) →
  hoare P' m Q' R' X'.
Proof.
  intros H HP HQ HR HX w Hw. specialize (H w (HP w Hw)).
  destruct (m w) as [[a| |x] w']; auto.
Qed.

Lemma hoare_bind P (m : M A) (k : A → M B) (Q' : A → world → Prop)
    (Q : B → world → Prop) R X :
  hoare P m Q' R X →
  (∀ a, hoare (Q' a) (k a) Q R X) →
  hoare P (m ≫= k) Q R X.
Proof.
  intros Hm Hk w Hw. specialize (Hm w Hw). unfold mbind, M_bind.
  destruct (m w) as [[a| |x] w']; [|done..]. by apply Hk.
Qed.

Lemma hoare_ret P (a : A) (Q : A → world → Prop) R X :
  (∀ w, P w → Q a w) → hoare P (mret a) Q R X.
Proof. intros H w Hw. by apply H. Qed.

Lemma hoare_return P (Q : A → world → Prop) R X :
  (∀ w, P w → R w) → hoare P return_ Q R X.
Proof. intros H w Hw. by apply H. Qed.

Lemma hoare_raise P (x : exn) (Q : A → world → Prop) R X :
  (∀ w, P w → X w) → hoare P (raise x) Q R X.
Proof. intros H w Hw. by apply H. Qed.

Lemma hoare_try P (m h : M A) (Q : A → world → Prop) R X X' :
  hoare P m Q R X' →
  hoare X' h Q R X →
  hoare P (try_except m h) Q R X.
Proof.
  intros Hm Hh w Hw. specialize (Hm w Hw). unfold try_except.
  destruct (m w) as [[a| |x] w']; [done|done|]. by apply Hh.
Qed.

Lemma hoare_reads P (m : M A) (Q : A → world → Prop) R X :
  reads m →
  (∀ a w, P w → Q a w) →
  (∀ w, P w → X w) →
  hoare P m Q R X.
Proof.
  intros Hr HQ HX w Hw. destruct (Hr w) as [H2 H1].
  destruct (m w) as [[a| |x] w']; cbn in *; subst; auto. done.
Qed.

Lemma hoare_quiet (S : list alert → Prop) (m : M A)
    (Q : A → world → Prop) R X :
  quiet m →
  (∀ a w, shown S w → Q a w) →
  (∀ w, shown S w → X w) →
  hoare (shown S) m Q R X.
Proof.
  intros Hq HQ HX w Hw. destruct (Hq w) as [H2 H1]. unfold shown in *.
  destruct (m w) as [[a| |x] w']; cbn in *; [| done |].
  - apply HQ. by rewrite H2.
  - apply HX. by rewrite H2.
Qed.

Lemma reads_quiet (m : M A) : reads m → quiet m.
Proof. intros H w. destruct (H w) as [H2 H1]. by rewrite H2. Qed.

Lemma reads_bind (m : M A) (k : A → M B) :
  reads m → (∀ a, reads (k a)) → reads (m ≫= k).
Proof.
  intros Hm Hk w. destruct (Hm w) as [H2 H1]. unfold mbind, M_bind.
  destruct (m w) as [[a| |x] w']; cbn in *; subst; [apply Hk|done..].
Qed.

Lemma quiet_bind (m : M A) (k : A → M B) :
  quiet m → (∀ a, quiet (k a)) → quiet (m ≫= k).
Proof.
  intros Hm Hk w. destruct (Hm w) as [H2 H1]. unfold mbind, M_bind.
  destruct (m w) as [[a| |x] w']; cbn in *; [|done..].
  destruct (Hk a w') as [H3 H4]. by rewrite H3.
Qed.

Lemma quiet_try (m h : M A) : quiet m → quiet h → quiet (try_except m h).
Proof.
  intros Hm Hh w. destruct (Hm w) as [H2 H1]. unfold try_except.
  destruct (m w) as [[a| |x] w']; cbn in *; [done|done|].
  destruct (Hh w') as [H3 H4]. by rewrite H3.
Qed.

Lemma reads_ret (a : A) : reads (mret a : M A).
Proof. by intros w. Qed.

Lemma reads_raise (x : exn) : reads (raise x : M A).
Proof. by intros w. Qed.

Lemma reads_unwrap (o : option A) (x : exn) : reads (unwrap o x).
Proof. intros w. by destruct o. Qed.

Lemma reads_iloc (l : list A) (i : Z) : reads (iloc l i).
Proof.
  intros w. unfold iloc.
  destruct (_ <? 0)%Z; [done|]. by destruct (l !! _).
Qed.
End Hoare.

Lemma hoare_call (P : world → Prop) (m : M ())
    (Q : () → world → Prop) (R X : world → Prop) :
  hoare P m Q (Q ()) X → hoare P (call m) Q R X.
Proof.
  intros H w Hw. specialize (H w Hw). unfold call.
  by destruct (m w) as [[[]| |x] w'].
Qed.

Lemma reads_get_book : reads get_book.
Proof. by intros w. Qed.

Lemma reads_str_upper v : reads (str_upper v).
Proof. intros w. by destruct v. Qed.

Ltac solve_reads :=
  repeat first
    [ apply reads_ret | apply reads_raise | apply reads_unwrap
    | apply reads_iloc | apply reads_get_book | apply reads_str_upper
    | apply reads_bind; [|intros ?] ].

Lemma reads_names_get n : reads (xw.names_get n).
Proof. unfold xw.names_get. solve_reads. Qed.

Lemma reads_refers_to_range r : reads (xw.refers_to_range r).
Proof. unfold xw.refers_to_range. destruct r; solve_reads. Qed.

Lemma reads_range_value rg : reads (xw.range_value rg).
Proof. unfold xw.range_value. solve_reads. Qed.

Lemma reads_sheets_get n : reads (xw.sheets_get n).
Proof. unfold xw.sheets_get. solve_reads. Qed.

Lemma reads_sheets_index i : reads (xw.sheets_index i).
Proof. unfold xw.sheets_index. solve_reads. Qed.

Lemma reads_Ticker p v : reads (yf.Ticker p v).
Proof. unfold yf.Ticker. destruct (pv_ticker p); solve_reads. Qed.

Lemma reads_history p : reads (yf.history p).
Proof. unfold yf.history. destruct (pv_history p); solve_reads. Qed.

Lemma reads_info p : reads (yf.info p).
Proof. unfold yf.info. solve_reads. Qed.

Lemma reads_try {A} (m h : M A) : reads m → reads h → reads (try_except m h).
Proof.
  intros Hm Hh w. destruct (Hm w) as [H2 H1]. unfold try_except.
  destruct (m w) as [[a| |x] w']; cbn in *; subst; [done|done|apply Hh].
Qed.

Ltac solve_reads_op :=
  repeat first
    [ apply reads_ret | apply reads_raise | apply reads_unwrap
    | apply reads_iloc | apply reads_get_book | apply reads_str_upper
    | apply reads_names_get | apply reads_refers_to_range
    | apply reads_range_value | apply reads_sheets_get
    | apply reads_sheets_index | apply reads_Ticker | apply reads_history
    | apply reads_info
    | apply reads_try
    | apply reads_bind; [|intros ?] ].

(** *** The operations that change the workbook *)

Section Reached.
Variable b0 : book.
Implicit Types (R : world → Prop).

Lemma reached_step w b' :
  reached b0 w → step (w_book w) b' →
  reached b0 {| w_book := b'; w_alerts := w_alerts w |}.
Proof. intros H Hs. unfold reached in *. cbn. by eapply rtc_r. Qed.

Lemma hoare_sheets_get_reached n R :
  hoare (reached b0) (xw.sheets_get n)
    (λ h w, reached b0 w ∧ xw.same_name h n = true) R (reached b0).
Proof.
  intros w Hw. unfold xw.sheets_get, mbind, M_bind, get_book, unwrap. cbn.
  destruct (xw.find_sheet n (bk_sheets (w_book w))) as [s|] eqn:E; cbn;
    [|done].
  split; [done|]. by eapply find_sheet_name.
Qed.

Lemma hoare_sheet_delete_reached h R :
  xw.same_name h dashboard_name = true →
  hoare (reached b0) (xw.sheet_delete h) (λ _, reached b0) R (reached b0).
Proof.
  intros Hh w Hw. unfold xw.sheet_delete, mbind, M_bind, get_book, unwrap.
  cbn. destruct (xw.find_sheet h (bk_sheets (w_book w))) as [s|] eqn:E; cbn;
    [|done].
  destruct (length (bk_sheets (w_book w)) <=? 1)%nat; cbn; [done|].
  apply reached_step; [done|]. by apply step_delete.
Qed.

Lemma hoare_sheets_add_reached after R :
  hoare (reached b0) (xw.sheets_add dashboard_name after)
    (λ h w, reached b0 w ∧ h = dashboard_name) R (reached b0).
Proof.
  intros w Hw. unfold xw.sheets_add, mbind, M_bind, get_book, unwrap. cbn.
  destruct (existsb _ (bk_sheets (w_book w))) eqn:E; cbn; [done|].
  destruct (xw.find_sheet after (bk_sheets (w_book w))); cbn; [|done].
  split; [|done]. apply reached_step; [done|]. by apply step_add.
Qed.

Lemma hoare_sheet_activate_reached h R :
  hoare (reached b0) (xw.sheet_activate h) (λ _, reached b0) R (reached b0).
Proof.
  intros w Hw. unfold xw.sheet_activate, mbind, M_bind, get_book, unwrap.
  cbn. destruct (xw.find_sheet h (bk_sheets (w_book w))); cbn; [|done].
  apply reached_step; [done|]. apply step_activate.
Qed.

Lemma hoare_sheet_op_reached h f R :
  xw.same_name h dashboard_name = true →
  hoare (reached b0) (xw.sheet_op h f) (λ _, reached b0) R (reached b0).
Proof.
  intros Hh w Hw. unfold xw.sheet_op, mbind, M_bind, get_book, unwrap. cbn.
  destruct (xw.find_sheet h (bk_sheets (w_book w))); cbn; [|done].
  apply reached_step; [done|]. by apply step_edit.
Qed.

Lemma hoare_alert_reached body title R :
  hoare (reached b0) (xw.alert body title) (λ _, reached b0) R (reached b0).
Proof. by intros w Hw. Qed.

Lemma hoare_reads_reached {A} (m : M A) R :
  reads m → hoare (reached b0) m (λ _, reached b0) R (reached b0).
Proof. intros H. by apply hoare_reads. Qed.
End Reached.

Ltac unfold_calls :=
  unfold xw.set_value, xw.set_font_size, xw.set_font_bold, xw.set_font_color,
    xw.set_number_format, xw.set_array, xw.set_borders_weight,
    xw.set_block_color, xw.set_block_font_color, xw.set_block_font_bold,
    xw.autofit, xw.pictures_add.

Ltac op_reached :=
  first
    [ apply hoare_sheet_op_reached; apply same_name_refl
    | apply hoare_sheet_delete_reached; apply same_name_refl
    | apply hoare_alert_reached
    | apply hoare_sheet_activate_reached
    | apply hoare_reads_reached; solve [solve_reads_op]
    | apply hoare_return; intros ? ?; assumption ].

Ltac hoare_walk op :=
  repeat lazymatch goal with
    | |- hoare _ (mbind _ _) _ _ _ =>
        eapply hoare_bind; [ op | intros ?; cbv beta ]
    | |- hoare _ (if bool_decide _ then _ else _) _ _ _ => case_bool_decide
    | |- hoare _ (let x := _ in _) _ _ _ => cbv zeta
    end.

Lemma fetch_and_report_reached b0 p v :
  hoare (reached b0) (fetch_and_report p v dashboard_name)
    (λ _, reached b0) (reached b0) (reached b0).
Proof.
  unfold fetch_and_report. unfold_calls.
  hoare_walk op_reached. all: op_reached.
Qed.

Lemma hoare_fact {A} (P : world → Prop) (φ : Prop) (m : M A)
    (Q : A → world → Prop) (R X : world → Prop) :
  (φ → hoare P m Q R X) → hoare (λ w, P w ∧ φ) m Q R X.
Proof. intros H w [Hw Hφ]. by apply H. Qed.

Lemma get_ticker_reached b0 :
  hoare (reached b0) get_ticker (λ _, reached b0) (reached b0) (reached b0).
Proof.
  unfold get_ticker. eapply hoare_try with (X' := reached b0).
  - hoare_walk op_reached.
    destruct (negb _); hoare_walk op_reached; op_reached.
  - hoare_walk op_reached. op_reached.
Qed.

Lemma recreate_reached b0 :
  hoare (reached b0) recreate_dashboard_sheet
    (λ h w, reached b0 w ∧ h = dashboard_name) (reached b0) (reached b0).
Proof.
  unfold recreate_dashboard_sheet.
  eapply hoare_bind with (Q' := λ _, reached b0).
  { eapply hoare_try with (X' := reached b0).
    - eapply hoare_bind; [apply hoare_sheets_get_reached|].
      intros old. apply hoare_fact. intros Hold.
      by apply hoare_sheet_delete_reached.
    - by apply hoare_ret. }
  intros _. eapply hoare_bind; [op_reached|]. intros first.
  eapply hoare_bind; [apply hoare_sheets_add_reached|]. intros sheet.
  apply hoare_fact. intros Hsheet. rewrite Hsheet.
  eapply hoare_bind; [op_reached|]. intros ?. by apply hoare_ret.
Qed.

Lemma main_reached b0 p :
  hoare (reached b0) (main p) (λ _, reached b0) (reached b0) (reached b0).
Proof.
  unfold main. apply hoare_call.
  eapply hoare_bind; [apply get_ticker_reached|]. intros ticker.
  eapply hoare_bind; [apply recreate_reached|]. intros sheet.
  apply hoare_fact. intros Hsheet. rewrite Hsheet.
  apply fetch_and_report_reached.
Qed.

(** Whatever the inputs and the outcome, a run changes the workbook only
    by the four kinds of steps. *)
Lemma run_steps (p : provider) (b : book) :
  rtc step b (w_book (run_with p b).2).
Proof.
  pose proof (main_reached b p {| w_book := b; w_alerts := [] |}) as H.
  unfold run_with. unfold reached in H.
  destruct (main p _) as [[[]| |x] w']; by apply H.
Qed.

(** *** What the steps keep *)

Lemma update_sheet_names h f l :
  sh_name <$> xw.update_sheet h f l = sh_name <$> l.
Proof.
  induction l as [|x r IH]; [done|]. cbn.
  destruct (xw.same_name (sh_name x) h); cbn; [done|]. by rewrite IH.
Qed.

Lemma others_update_sheet h f l :
  xw.same_name h dashboard_name = true →
  others (xw.update_sheet h f l) = others l.
Proof.
  intros Hh. induction l as [|x r IH]; [done|]. cbn.
  destruct (xw.same_name (sh_name x) h) eqn:E.
  - rewrite !others_cons. unfold is_dashboard. cbn [sh_name].
    by rewrite <- (same_name_right _ _ (sh_name x) Hh), E.
  - rewrite !others_cons. by rewrite IH.
Qed.

Lemma dashboards_update_sheet h f l :
  length (dashboards (xw.update_sheet h f l)) = length (dashboards l).
Proof.
  induction l as [|x r IH]; [done|]. cbn.
  destruct (xw.same_name (sh_name x) h) eqn:E.
  - rewrite !dashboards_cons. unfold is_dashboard. cbn [sh_name].
    by destruct (xw.same_name (sh_name x) dashboard_name).
  - rewrite !dashboards_cons. destruct (is_dashboard x); cbn; by rewrite IH.
Qed.

Lemma others_remove_sheet h l :
  xw.same_name h dashboard_name = true →
  others (xw.remove_sheet h l) = others l.
Proof.
  intros Hh. induction l as [|x r IH]; [done|]. cbn.
  destruct (xw.same_name (sh_name x) h) eqn:E.
  - rewrite others_cons. unfold is_dashboard.
    by rewrite <- (same_name_right _ _ (sh_name x) Hh), E.
  - rewrite !others_cons. by rewrite IH.
Qed.

Lemma dashboards_remove_sheet h l :
  (length (dashboards (xw.remove_sheet h l)) ≤ length (dashboards l))%nat.
Proof.
  induction l as [|x r IH]; [done|]. cbn.
  destruct (xw.same_name (sh_name x) h) eqn:E.
  - rewrite dashboards_cons. destruct (is_dashboard x); cbn; lia.
  - rewrite !dashboards_cons. destruct (is_dashboard x); cbn; lia.
Qed.

Lemma others_insert_after h l :
  others (xw.insert_after h fresh_sheet l) = others l.
Proof.
  induction l as [|x r IH]; [done|]. cbn.
  destruct (xw.same_name (sh_name x) h) eqn:E.
  - rewrite !others_cons.
    assert (is_dashboard fresh_sheet = true) as -> by apply same_name_refl.
    done.
  - rewrite !others_cons. by rewrite IH.
Qed.

Lemma dashboards_insert_after h l :
  (length (dashboards (xw.insert_after h fresh_sheet l))
   ≤ S (length (dashboards l)))%nat.
Proof.
  induction l as [|x r IH]; [cbn; lia|]. cbn.
  destruct (xw.same_name (sh_name x) h) eqn:E.
  - rewrite !dashboards_cons.
    assert (is_dashboard fresh_sheet = true) as -> by apply same_name_refl.
    destruct (is_dashboard x); cbn; lia.
  - rewrite !dashboards_cons. destruct (is_dashboard x); cbn; lia.
Qed.

Lemma step_others b b' : step b b' → others (bk_sheets b') = others (bk_sheets b).
Proof.
  intros [b1 h f Hh|b1 h s act Hh Hf|b1 after He|b1 act]; cbn.
  - by apply others_update_sheet.
  - by apply others_remove_sheet.
  - apply others_insert_after.
  - done.
Qed.

Lemma step_one_dashboard b b' :
  step b b' →
  (length (dashboards (bk_sheets b)) ≤ 1)%nat →
  (length (dashboards (bk_sheets b')) ≤ 1)%nat.
Proof.
  intros [b1 h f Hh|b1 h s act Hh Hf|b1 after He|b1 act] H; cbn.
  - by rewrite dashboards_update_sheet.
  - pose proof (dashboards_remove_sheet h (bk_sheets b1)). lia.
  - destruct (no_dashboard_split _ He) as [Hd _].
    pose proof (dashboards_insert_after after (bk_sheets b1)) as Hi.
    rewrite Hd in Hi. cbn in Hi. lia.
  - done.
Qed.

Lemma step_name b b' n sn a :
  step b b' →
  xw.same_name sn dashboard_name = false →
  bk_names b !! n = Some (RefTo sn a) →
  bk_names b' !! n = Some (RefTo sn a).
Proof.
  intros [b1 h f Hh|b1 h s act Hh Hf|b1 after He|b1 act] Hsn Hn; cbn;
    [done| |done|done].
  rewrite lookup_fmap, Hn. cbn.
  apply find_sheet_name in Hf.
  assert (xw.same_name (sh_name s) dashboard_name = true) as Hs.
  { by rewrite <- (same_name_trans _ _ dashboard_name Hf). }
  by rewrite (same_name_right _ _ sn Hs), Hsn.
Qed.

Lemma steps_keep (I : book → Prop) :
  (∀ b b', step b b' → I b → I b') →
  ∀ b b', rtc step b b' → I b → I b'.
Proof. intros HI b b' H. induction H; eauto. Qed.

Lemma run_keeps_others (p : provider) (b : book) :
  others (bk_sheets (w_book (run_with p b).2)) = others (bk_sheets b).
Proof.
  apply (steps_keep (λ b', others (bk_sheets b') = others (bk_sheets b)))
    with (b := b); [|apply run_steps|done].
  intros b1 b2 Hstep H. by rewrite (step_others _ _ Hstep).
Qed.

(** X1. Whatever the ticker cell holds, whatever the provider does (it
    answers, or one of its calls raises) and however the run ends (normally,
    by an early return or by an exception),
    the sheets of the workbook other than the report sheet are after the run
    what they were before it: none is added, removed, reordered or written
    to. *)
Theorem other_sheets_untouched (p : provider) (b : book) :
  others (bk_sheets (w_book (run_with p b).2)) = others (bk_sheets b).
Proof.
  pose proof (run_steps p b) as Hrun.
  induction Hrun as [|b1 b2 b3 Hstep _ IH]; [reflexivity|].
  rewrite IH. apply (step_others _ _ Hstep).
Qed.

(** X2. A workbook with at most one report sheet has at most one report
    sheet after a run, however the run ends: the macro never leaves two
    sheets named "Stock Dashboard". *)
Theorem one_dashboard_kept (p : provider) (b : book) :
  (length (dashboards (bk_sheets b)) ≤ 1)%nat →
  (length (dashboards (bk_sheets (w_book (run_with p b).2))) ≤ 1)%nat.
Proof.
  apply (steps_keep (λ b', (length (dashboards (bk_sheets b')) ≤ 1)%nat));
    [|apply run_steps].
  intros b1 b2 Hstep H. by apply (step_one_dashboard _ _ Hstep).
Qed.

Lemma one_dashboard_kept_witness :
  (length
     (dashboards
        (bk_sheets
           (w_book
              (run (Sample.market Sample.hist None 0)
                 Sample.wb_with_dashboard).2))) ≤ 1)%nat.
Proof.
  apply (one_dashboard_kept (answers (Sample.market Sample.hist None 0))
           Sample.wb_with_dashboard).
  vm_compute. lia.
Defined.

(** X3. A defined name that refers to a cell of a sheet other than the
    report sheet refers to the same cell of the same sheet after a run,
    however the run ends; in particular a TICKER range kept on another sheet
    delivers the same value to the next run. *)
Theorem names_elsewhere_kept (p : provider) (b : book) (n sn : string) (a : addr) :
  bk_names b !! n = Some (RefTo sn a) →
  xw.same_name sn dashboard_name = false →
  bk_names (w_book (run_with p b).2) !! n = Some (RefTo sn a)
  ∧ xw.find_sheet sn (bk_sheets (w_book (run_with p b).2))
    = xw.find_sheet sn (bk_sheets b)
  ∧ (n = "TICKER" → ticker_input (w_book (run_with p b).2) = ticker_input b).
Proof.
  intros Hn Hsn.
  assert (bk_names (w_book (run_with p b).2) !! n = Some (RefTo sn a)) as Hn'.
  { apply (steps_keep (λ b', bk_names b' !! n = Some (RefTo sn a)))
      with (b := b); [|apply run_steps|done].
    intros b1 b2 Hstep H. by apply (step_name _ _ _ _ _ Hstep). }
  assert (xw.find_sheet sn (bk_sheets (w_book (run_with p b).2))
          = xw.find_sheet sn (bk_sheets b)) as Hf.
  { rewrite <- (find_sheet_others sn (bk_sheets (w_book (run_with p b).2))),
      <- (find_sheet_others sn (bk_sheets b)) by done.
    by rewrite run_keeps_others. }
  split; [done|]. split; [done|].
  intros ->. unfold ticker_input. by rewrite Hn', Hn, Hf.
Qed.

Lemma names_elsewhere_kept_witness :
  let e := Sample.market Sample.hist None 0 in
  let b := Sample.wb_with_dashboard in
  bk_names (w_book (run e b).2) !! "TICKER" = Some (RefTo "Sheet1" (col_A, 1))
  ∧ xw.find_sheet "Sheet1" (bk_sheets (w_book (run e b).2))
    = xw.find_sheet "Sheet1" (bk_sheets b)
  ∧ ("TICKER" = "TICKER" →
     ticker_input (w_book (run e b).2) = ticker_input b).
Proof.
  apply (names_elsewhere_kept (answers (Sample.market Sample.hist None 0))
           Sample.wb_with_dashboard "TICKER" "Sheet1" (col_A, 1)).
  - reflexivity.
  - reflexivity.
Defined.

(** *** Dialogs *)

Lemma quiet_sheet_op h f : quiet (xw.sheet_op h f).
Proof.
  intros w. unfold xw.sheet_op, mbind, M_bind, get_book, unwrap. cbn.
  by destruct (xw.find_sheet h _).
Qed.

Lemma quiet_sheet_delete h : quiet (xw.sheet_delete h).
Proof.
  intros w. unfold xw.sheet_delete, mbind, M_bind, get_book, unwrap. cbn.
  destruct (xw.find_sheet h _); cbn; [|done].
  by destruct (_ <=? 1)%nat.
Qed.

Lemma quiet_sheets_add name after : quiet (xw.sheets_add name after).
Proof.
  intros w. unfold xw.sheets_add, mbind, M_bind, get_book, unwrap. cbn.
  destruct (existsb _ _); cbn; [done|].
  by destruct (xw.find_sheet after _).
Qed.

Lemma quiet_sheet_activate h : quiet (xw.sheet_activate h).
Proof.
  intros w. unfold xw.sheet_activate, mbind, M_bind, get_book, unwrap. cbn.
  by destruct (xw.find_sheet h _).
Qed.

Ltac solve_quiet :=
  repeat first
    [ apply quiet_sheet_op | apply quiet_sheet_delete
    | apply quiet_sheets_add | apply quiet_sheet_activate
    | apply reads_quiet; solve [solve_reads_op]
    | apply quiet_try
    | apply quiet_bind; [|intros ?] ].

Lemma quiet_recreate : quiet recreate_dashboard_sheet.
Proof. unfold recreate_dashboard_sheet. solve_quiet. Qed.

Section Shown.
Context {A : Type}.
Implicit Types (m : M A) (R : world → Prop).

Lemma hoare_quiet_none m R :
  quiet m →
  hoare (shown (λ l, l = [])) m (λ _, shown (λ l, l = [])) R
    (shown (λ l, (length l ≤ 1)%nat)).
Proof.
  intros H. apply hoare_quiet; [done|done|].
  unfold shown. intros w ->. cbn. lia.
Qed.

Lemma hoare_quiet_one m R :
  quiet m →
  hoare (shown (λ l, length l = 1%nat)) m
    (λ _, shown (λ l, length l = 1%nat)) R
    (shown (λ l, (length l ≤ 1)%nat)).
Proof.
  intros H. apply hoare_quiet; [done|done|].
  unfold shown. intros w ->. lia.
Qed.
End Shown.

Lemma hoare_alert_first body title (R X : world → Prop) :
  hoare (shown (λ l, l = [])) (xw.alert body title)
    (λ _, shown (λ l, length l = 1%nat)) R X.
Proof. intros w Hw. unfold shown in *. cbn. by rewrite Hw. Qed.

Ltac op_shown :=
  first
    [ apply hoare_alert_first
    | apply hoare_quiet_none; solve [solve_quiet]
    | apply hoare_quiet_one; solve [solve_quiet]
    | apply hoare_return; intros ? ?; assumption
    | apply hoare_ret; intros ? ?; assumption ].

Lemma get_ticker_shown :
  hoare (shown (λ l, l = [])) get_ticker (λ _, shown (λ l, l = []))
    (shown (λ l, length l = 1%nat)) (shown (λ l, (length l ≤ 1)%nat)).
Proof.
  unfold get_ticker.
  eapply hoare_try with (X' := shown (λ l, l = [])).
  - eapply hoare_bind.
    { apply hoare_quiet with (S := λ l, l = []);
        [solve [solve_quiet]|intros ? ? H; exact H|intros ? H; exact H]. }
    intros nm. cbv beta. eapply hoare_bind.
    { apply hoare_quiet with (S := λ l, l = []);
        [solve [solve_quiet]|intros ? ? H; exact H|intros ? H; exact H]. }
    intros rg. cbv beta. eapply hoare_bind.
    { apply hoare_quiet with (S := λ l, l = []);
        [solve [solve_quiet]|intros ? ? H; exact H|intros ? H; exact H]. }
    intros ticker. cbv beta. destruct (negb _).
    + eapply hoare_bind; [apply hoare_alert_first|]. intros ?.
      apply hoare_return. intros ? H; exact H.
    + apply hoare_ret. intros ? H; exact H.
  - eapply hoare_bind; [apply hoare_alert_first|]. intros ?.
    apply hoare_return. intros ? H; exact H.
Qed.

Lemma fetch_and_report_shown p v h :
  hoare (shown (λ l, l = [])) (fetch_and_report p v h)
    (λ _, shown (λ l, length l = 1%nat))
    (shown (λ l, length l = 1%nat)) (shown (λ l, (length l ≤ 1)%nat)).
Proof.
  unfold fetch_and_report. unfold_calls.
  hoare_walk op_shown. all: op_shown.
Qed.

Lemma main_shown p :
  hoare (shown (λ l, l = [])) (main p)
    (λ _, shown (λ l, length l = 1%nat))
    (λ _, False) (shown (λ l, (length l ≤ 1)%nat)).
Proof.
  unfold main. apply hoare_call.
  eapply hoare_bind; [apply get_ticker_shown|]. intros ticker. cbv beta.
  eapply hoare_bind; [apply hoare_quiet_none, quiet_recreate|].
  intros sheet. cbv beta. apply fetch_and_report_shown.
Qed.

(** X4. Whatever the provider does, a run shows at most one dialog; a run
    that ends normally shows exactly one, and a run never ends by a pending
    early return. *)
Theorem one_dialog_per_run (p : provider) (b : book) :
  (length (w_alerts (run_with p b).2) ≤ 1)%nat
  ∧ ((run_with p b).1 = Val () → length (w_alerts (run_with p b).2) = 1%nat)
  ∧ (run_with p b).1 ≠ Returned.
Proof.
  pose proof (main_shown p {| w_book := b; w_alerts := [] |} eq_refl) as H.
  unfold run_with. unfold shown in H.
  destruct (main p _) as [[[]| |x] w']; cbn in *.
  - split; [lia|]. done.
  - done.
  - split; [done|]. done.
Qed.

Lemma run_unresolved (e : env) (b : book) :
  ticker_input b = None →
  run e b = (Val (), {| w_book := b; w_alerts := [setup_alert] |}).
Proof.
  intros H. unfold run, run_with, main. apply call_returned.
  eapply bind_returned. by apply get_ticker_unresolved.
Qed.

(** X5. If the TICKER cell holds a truthy value that is not text (a
    non-zero number, TRUE), the run passes validation, recreates the report
    sheet and then raises AttributeError when the ticker is upper-cased: no
    dialog is shown and the new, empty report sheet stays in the
    workbook. *)
Theorem non_text_ticker_raises (e : env) (b : book) (v : value)
    (s0 : sheet) (rest : list sheet) :
  ticker_input b = Some v →
  truthy v = true →
  (∀ t, v ≠ VStr t) →
  (length (dashboards (bk_sheets b)) ≤ 1)%nat →
  others (bk_sheets b) = s0 :: rest →
  run e b
  = (Raised AttributeError,
     {| w_book :=
          {| bk_sheets := s0 :: fresh_sheet :: rest;
             bk_names := names_after_delete b;
             bk_active := Some dashboard_name |};
        w_alerts := [] |}).
Proof.
  intros Hin Hv Hnt Hone Hoth.
  rewrite (main_validated e b v) by done. unfold call.
  erewrite bind_val; [|by apply (recreate_ok b [] s0 rest)].
  unfold fetch_and_report.
  destruct v as [|t|q|c]; [done|by destruct (Hnt t)|done|done].
Qed.

Lemma non_text_ticker_raises_witness :
  run (Sample.market Sample.hist None 0) (Sample.wb (VNum 5))
  = (Raised AttributeError,
     {| w_book :=
          {| bk_sheets := [Sample.input_sheet (VNum 5); fresh_sheet];
             bk_names := names_after_delete (Sample.wb (VNum 5));
             bk_active := Some dashboard_name |};
        w_alerts := [] |}).
Proof.
  apply (non_text_ticker_raises (Sample.market Sample.hist None 0)
           (Sample.wb (VNum 5)) (VNum 5) (Sample.input_sheet (VNum 5)) []).
  - reflexivity.
  - reflexivity.
  - discriminate.
  - vm_compute. lia.
  - reflexivity.
Defined.

(** X6. The ticker is read before the old report sheet is deleted: a TICKER
    range that lives on the report sheet itself still feeds the run, which
    succeeds; but the deletion leaves the name referring to nothing, so the
    next run, whatever the provider answers, stops at the "Setup Required"
    dialog and changes nothing. *)
Theorem ticker_on_dashboard_lost (e e' : env) (b : book) (t sn : string)
    (a : addr) :
  bk_names b !! "TICKER" = Some (RefTo sn a) →
  xw.same_name sn dashboard_name = true →
  ready b t →
  env_hist e ≠ [] →
  (run e b).1 = Val ()
  ∧ w_alerts (run e b).2 = [success_alert t (env_hist e)]
  ∧ ticker_input (w_book (run e b).2) = None
  ∧ run e' (w_book (run e b).2)
    = (Val (),
       {| w_book := w_book (run e b).2; w_alerts := [setup_alert] |}).
Proof.
  intros Hn Hsn Hr Hh.
  destruct (ready_run e b t Hr Hh) as (Hv & Ha & _).
  split; [done|]. split; [done|].
  assert (ticker_input (w_book (run e b).2) = None) as Hlost.
  { destruct Hr as (Hin & Ht & Hone & Hoth).
    destruct (others (bk_sheets b)) as [|s0 rest] eqn:E; [done|].
    rewrite (run_success e b t s0 rest) by done.
    unfold dash_world, ticker_input; cbn [snd w_book bk_names].
    unfold ticker_input in Hin. rewrite Hn in Hin.
    destruct (xw.find_sheet sn (bk_sheets b)) as [s|] eqn:Hf; [|done].
    unfold names_after_delete.
    rewrite <- (find_sheet_same _ _ (bk_sheets b) Hsn), Hf.
    rewrite lookup_fmap, Hn. cbn [fmap option_fmap option_map xw.invalidate].
    apply find_sheet_name in Hf.
    by rewrite (same_name_sym sn (sh_name s)), Hf. }
  split; [done|].
  by apply run_unresolved.
Qed.

Lemma ticker_on_dashboard_lost_witness :
  let e := Sample.market Sample.hist None 0 in
  let e' := Sample.market Sample.hist None 9 in
  let b := Edge.wb_ticker_on_dashboard in
  (run e b).1 = Val ()
  ∧ w_alerts (run e b).2 = [success_alert "ibm" Sample.hist]
  ∧ ticker_input (w_book (run e b).2) = None
  ∧ run e' (w_book (run e b).2)
    = (Val (),
       {| w_book := w_book (run e b).2; w_alerts := [setup_alert] |}).
Proof.
  apply (ticker_on_dashboard_lost (Sample.market Sample.hist None 0)
           (Sample.market Sample.hist None 9) Edge.wb_ticker_on_dashboard
           "ibm" "Stock Dashboard" (col_K, 1)).
  - reflexivity.
  - reflexivity.
  - split; [reflexivity|split; [discriminate|split; [vm_compute; lia|discriminate]]].
  - discriminate.
Defined.

(** X7. In a workbook whose only sheet is the report sheet the host refuses
    the deletion, the refusal is swallowed like a missing sheet, and adding
    a sheet under the name that is still taken raises ValueError: a
    validated run ends with that exception, shows no dialog and leaves the
    workbook as it was. *)
Theorem lone_dashboard_blocks (e : env) (b : book) (v : value) (s : sheet) :
  ticker_input b = Some v →
  truthy v = true →
  bk_sheets b = [s] →
  is_dashboard s = true →
  run e b = (Raised ValueError, {| w_book := b; w_alerts := [] |}).
Proof.
  intros Hin Hv Hs Hd.
  rewrite (main_validated e b v) by done. unfold call.
  assert (recreate_dashboard_sheet {| w_book := b; w_alerts := [] |}
          = (Raised ValueError, {| w_book := b; w_alerts := [] |})) as H.
  { unfold recreate_dashboard_sheet.
    assert (xw.find_sheet dashboard_name (bk_sheets b) = Some s) as Hf.
    { rewrite Hs. cbn. fold (is_dashboard s). by rewrite Hd. }
    erewrite bind_val; cycle 1.
    { erewrite try_except_raised; [reflexivity|].
      erewrite bind_val; [|by eapply sheets_get_some].
      unfold xw.sheet_delete. run_op.
      rewrite (find_sheet_same (sh_name s) dashboard_name) by exact Hd.
      rewrite Hf. cbn. rewrite Hs. reflexivity. }
    erewrite bind_val; [|by eapply sheets_index_0].
    eapply bind_raised. unfold xw.sheets_add. run_op. rewrite Hs. cbn.
    fold (is_dashboard s). by rewrite Hd. }
  by rewrite (bind_raised _ _ _ _ _ H).
Qed.

Lemma lone_dashboard_blocks_witness :
  run (Sample.market Sample.hist None 0) Edge.wb_only_dashboard
  = (Raised ValueError,
     {| w_book := Edge.wb_only_dashboard; w_alerts := [] |}).
Proof.
  apply (lone_dashboard_blocks (Sample.market Sample.hist None 0)
           Edge.wb_only_dashboard (VStr "ibm") Edge.dashboard_with_ticker).
  - reflexivity.
  - reflexivity.
  - reflexivity.
  - reflexivity.
Defined.

Lemma run_provider_raises (p : provider) (b : book) (t : string) (x : exn)
    (s0 : sheet) (rest : list sheet) :
  ticker_input b = Some (VStr t) →
  t ≠ "" →
  (length (dashboards (bk_sheets b)) ≤ 1)%nat →
  others (bk_sheets b) = s0 :: rest →
  pv_ticker p = Some x ∨ (pv_ticker p = None ∧ pv_history p = Some x) →
  run_with p b
  = (Raised x, dash_world s0 empty_grid rest (names_after_delete b) []).
Proof.
  intros Hin Ht Hone Hoth Hx.
  rewrite (main_validated_with p b (VStr t)) by auto using truthy_text.
  unfold call.
  erewrite bind_val; [|by apply (recreate_ok b [] s0 rest)].
  unfold fetch_and_report, yf.Ticker, yf.history.
  destruct Hx as [->|[-> ->]]; reflexivity.
Qed.

(** X8. On a workbook that is ready for a run, the provider decides how
    the run ends. If creating the client or fetching the history raises,
    the exception leaves the macro: no dialog is shown and the report sheet
    that was just recreated stays in the workbook, empty and active (the
    rollback of line 47 covers only the empty answer). If the provider
    answers, the run ends normally with exactly one dialog: "Invalid
    Ticker" for an empty answer (and then no report sheet is left),
    "Success" otherwise (and then the report sheet is the active sheet). *)
Theorem ready_run_outcomes (p : provider) (b : book) (t : string) :
  ready b t →
  (∀ x, pv_ticker p = Some x ∨ (pv_ticker p = None ∧ pv_history p = Some x) →
        (run_with p b).1 = Raised x
        ∧ w_alerts (run_with p b).2 = []
        ∧ report_sheet (run_with p b).2 = Some empty_grid
        ∧ bk_active (w_book (run_with p b).2) = Some dashboard_name)
  ∧ (pv_ticker p = None → pv_history p = None →
     (run_with p b).1 = Val ()
     ∧ (env_hist (pv_env p) = [] →
        w_alerts (run_with p b).2 = [invalid_alert t]
        ∧ report_sheet (run_with p b).2 = None)
     ∧ (env_hist (pv_env p) ≠ [] →
        w_alerts (run_with p b).2 = [success_alert t (env_hist (pv_env p))]
        ∧ is_Some (report_sheet (run_with p b).2)
        ∧ bk_active (w_book (run_with p b).2) = Some dashboard_name)).
Proof.
  intros (Hin & Ht & Hone & Hoth).
  destruct (others (bk_sheets b)) as [|s0 rest] eqn:E; [done|]. clear Hoth.
  pose proof (others_head _ _ _ E) as Hs0.
  pose proof (others_tail _ _ _ E) as Hrest.
  split.
  { intros x Hx.
    rewrite (run_provider_raises p b t x s0 rest) by done. cbn [fst snd].
    split; [done|]. split; [done|]. split; [|done].
    by apply report_sheet_dash_world. }
  intros Hpt Hph. destruct p as [pt ph e]. cbn in Hpt, Hph. subst pt ph.
  change (run_with {| pv_ticker := None; pv_history := None; pv_env := e |} b)
    with (run e b).
  cbn [pv_env].
  destruct (env_hist e) as [|r0 rs] eqn:Hh.
  - rewrite (run_zero_rows e b t s0 rest) by done. cbn [fst snd].
    split; [done|]. split; [|done]. intros _. split; [done|].
    unfold report_sheet. cbn [w_book bk_sheets xw.find_sheet].
    fold (is_dashboard s0). rewrite Hs0.
    assert (xw.find_sheet dashboard_name rest = None) as ->; [|done].
    clear -Hrest. induction rest as [|x r IH]; [done|]. cbn in *.
    apply orb_false_iff in Hrest as [Hx Hr]. fold (is_dashboard x).
    rewrite Hx. by apply IH.
  - assert (env_hist e ≠ []) as Hne by by rewrite Hh.
    rewrite (run_success e b t s0 rest) by done. cbn [fst snd].
    split; [done|]. split; [done|]. intros _. rewrite Hh.
    split; [done|]. split; [|done].
    rewrite report_sheet_dash_world by done. by eexists.
Qed.

Lemma ready_run_outcomes_witness :
  let p :=
    {| pv_ticker := None; pv_history := Some ProviderError;
       pv_env := Sample.market Sample.hist None 0 |} in
  let b := Sample.wb (VStr "aapl") in
  (∀ x, pv_ticker p = Some x ∨ (pv_ticker p = None ∧ pv_history p = Some x) →
        (run_with p b).1 = Raised x
        ∧ w_alerts (run_with p b).2 = []
        ∧ report_sheet (run_with p b).2 = Some empty_grid
        ∧ bk_active (w_book (run_with p b).2) = Some dashboard_name)
  ∧ (pv_ticker p = None → pv_history p = None →
     (run_with p b).1 = Val ()
     ∧ (env_hist (pv_env p) = [] →
        w_alerts (run_with p b).2 = [invalid_alert "aapl"]
        ∧ report_sheet (run_with p b).2 = None)
     ∧ (env_hist (pv_env p) ≠ [] →
        w_alerts (run_with p b).2
        = [success_alert "aapl" (env_hist (pv_env p))]
        ∧ is_Some (report_sheet (run_with p b).2)
        ∧ bk_active (w_book (run_with p b).2) = Some dashboard_name)).
Proof.
  intros p b. apply (ready_run_outcomes p b "aapl").
  split; [reflexivity|split; [discriminate|split; [vm_compute; lia|discriminate]]].
Defined.

Lemma report_grid_upper (e : env) (t1 t2 : string) :
  Text.upper t1 = Text.upper t2 → report_grid e t1 = report_grid e t2.
Proof.
  intros H.
  unfold report_grid, report_edits, info_or_placeholder, stock_chart, chart.
  by rewrite H.
Qed.

(** X9. The ticker enters the report only in upper case: two runs on
    workbooks whose ticker texts differ only in the case of their letters,
    fed the same provider data and clock, leave equal report sheets and
    show equal dialogs. *)
Theorem ticker_case_ignored (e : env) (b1 b2 : book) (t1 t2 : string) :
  ready b1 t1 →
  ready b2 t2 →
  Text.upper t1 = Text.upper t2 →
  env_hist e ≠ [] →
  report_sheet (run e b1).2 = report_sheet (run e b2).2
  ∧ w_alerts (run e b1).2 = w_alerts (run e b2).2.
Proof.
  intros H1 H2 Hup Hh.
  destruct (ready_run e b1 t1 H1 Hh) as (_ & Ha1 & Hg1).
  destruct (ready_run e b2 t2 H2 Hh) as (_ & Ha2 & Hg2).
  rewrite Hg1, Hg2, Ha1, Ha2. split.
  - f_equal. by apply report_grid_upper.
  - unfold success_alert. by rewrite Hup.
Qed.

Lemma ticker_case_ignored_witness :
  let e := Sample.market Sample.hist None 0 in
  report_sheet (run e (Sample.wb (VStr "aapl"))).2
  = report_sheet (run e (Sample.wb (VStr "AaPl"))).2
  ∧ w_alerts (run e (Sample.wb (VStr "aapl"))).2
    = w_alerts (run e (Sample.wb (VStr "AaPl"))).2.
Proof.
  apply (ticker_case_ignored (Sample.market Sample.hist None 0)
           (Sample.wb (VStr "aapl")) (Sample.wb (VStr "AaPl"))
           "aapl" "AaPl").
  - split; [reflexivity|split; [discriminate|split; [vm_compute; lia|discriminate]]].
  - split; [reflexivity|split; [discriminate|split; [vm_compute; lia|discriminate]]].
  - reflexivity.
  - discriminate.
Defined.

Lemma report_B6 (e : env) (t : string) :
  cell_at (report_grid e t) (col_B, 6)
  = xw.with_font_bold true
      (xw.with_font_size 12
         (xw.with_number_format "$#,##0.00"
            (xw.with_value (VNum (current_price (env_hist e))) blank))).
Proof. read_cell. reflexivity. Qed.


(** X10. The success dialog and the sheet agree: the price the dialog
    quotes is the number in the current-price cell B6, which is the last
    close of the fetched series shown in the currency format, and the change
    it quotes is the text of the 30-day-change cell B7. *)
Theorem success_dialog_matches_sheet (e : env) (b : book) (t : string) :
  ready b t →
  env_hist e ≠ [] →
  ∃ g price change,
    report_sheet (run e b).2 = Some g
    ∧ c_value (cell_at g (col_B, 6)) = VNum price
    ∧ c_number_format (cell_at g (col_B, 6)) = Some "$#,##0.00"
    ∧ last (Close (env_hist e)) = Some price
    ∧ c_value (cell_at g (col_B, 7)) = VStr change
    ∧ w_alerts (run e b).2
      = [ {| a_title := "Success";
             a_body :=
               "✅ Dashboard created successfully for " ++ Text.upper t
                 ++ "!" ++ Text.nl ++ Text.nl
                 ++ "Current Price: $" ++ Num.fmt_fixed 2 false false price
                 ++ Text.nl ++ "30-Day Change: " ++ change |} ].
Proof.
  intros Hr Hh. destruct (ready_run e b t Hr Hh) as (_ & Ha & Hg).
  exists (report_grid e t), (current_price (env_hist e)),
    (change_text (env_hist e)).
  split; [done|]. rewrite report_B6, report_B7.
  split; [done|]. split; [done|]. split; [|by split].
  unfold current_price, Close.
  destruct (env_hist e) as [|r0 rs]; [done|]. clear.
  generalize r0. induction rs as [|r1 rs IH]; intros r; [done|].
  cbn [fmap list_fmap]. rewrite last_cons_cons.
  change (List.last (r_close r :: r_close r1 :: list_fmap _ _ r_close rs) 0%Q)
    with (List.last (r_close r1 :: list_fmap _ _ r_close rs) 0%Q).
  apply (IH r1).
Qed.

Lemma success_dialog_matches_sheet_witness :
  ∃ g price change,
    report_sheet
      (run (Sample.market Sample.hist None 0) (Sample.wb (VStr "aapl"))).2
    = Some g
    ∧ c_value (cell_at g (col_B, 6)) = VNum price
    ∧ c_number_format (cell_at g (col_B, 6)) = Some "$#,##0.00"
    ∧ last (Close Sample.hist) = Some price
    ∧ c_value (cell_at g (col_B, 7)) = VStr change
    ∧ w_alerts
        (run (Sample.market Sample.hist None 0) (Sample.wb (VStr "aapl"))).2
      = [ {| a_title := "Success";
             a_body :=
               "✅ Dashboard created successfully for " ++ Text.upper "aapl"
                 ++ "!" ++ Text.nl ++ Text.nl
                 ++ "Current Price: $" ++ Num.fmt_fixed 2 false false price
                 ++ Text.nl ++ "30-Day Change: " ++ change |} ].
Proof.
  apply (success_dialog_matches_sheet (Sample.market Sample.hist None 0)
           (Sample.wb (VStr "aapl")) "aapl").
  - split; [reflexivity|split; [discriminate|split; [vm_compute; lia|discriminate]]].
  - discriminate.
Defined.



(** ** The data table *)

Lemma cell_at_write_row_out c r vs g a' :
  (a'.1 < c ∨ a'.2 ≠ r)%nat →
  cell_at (xw.write_row c r vs g) a' = cell_at g a'.
Proof. intros H. unfold cell_at. by rewrite cells_write_row_out. Qed.

Lemma cell_at_write_row_in c r vs g j v :
  vs !! j = Some v →
  cell_at (xw.write_row c r vs g) (c + j, r)%nat
  = xw.with_value v (cell_at g (c + j, r)%nat).
Proof.
  revert c g j. induction vs as [|x vs IH]; intros c g j Hj; [done|].
  destruct j as [|j]; cbn [xw.write_row].
  - injection Hj as ->. rewrite Nat.add_0_r.
    rewrite cell_at_write_row_out by (cbn; lia).
    apply cell_at_edit_cell_eq.
  - replace (c + S j)%nat with (S c + j)%nat by lia.
    rewrite (IH (S c) _ j Hj).
    rewrite cell_at_edit_cell_ne; [done|]. intros [= H]. lia.
Qed.

Lemma cell_at_write_array_in c r rows g i vs j v :
  rows !! i = Some vs →
  vs !! j = Some v →
  cell_at (xw.write_array c r rows g) (c + j, r + i)%nat
  = xw.with_value v (cell_at g (c + j, r + i)%nat).
Proof.
  revert r g i. induction rows as [|x rows IH]; intros r g i Hi Hj; [done|].
  destruct i as [|i]; cbn [xw.write_array].
  - injection Hi as ->. rewrite Nat.add_0_r.
    rewrite cell_at_write_array_out by (cbn; lia).
    by apply cell_at_write_row_in.
  - replace (r + S i)%nat with (S r + i)%nat by lia.
    rewrite (IH (S r) _ i Hi Hj).
    rewrite cell_at_write_row_out; [done|]. cbn. lia.
Qed.

Lemma cells_write_array_below c r rows g a' :
  (r + length rows ≤ a'.2)%nat →
  g_cells (xw.write_array c r rows g) !! a' = g_cells g !! a'.
Proof.
  revert r g. induction rows as [|x rows IH]; intros r g H; [done|].
  cbn [xw.write_array]. cbn [length] in H. rewrite IH by lia.
  apply cells_write_row_out. lia.
Qed.

Lemma cell_at_write_array_below c r rows g a' :
  (r + length rows ≤ a'.2)%nat →
  cell_at (xw.write_array c r rows g) a' = cell_at g a'.
Proof. intros H. unfold cell_at. by rewrite cells_write_array_below. Qed.

(** The header range, cell by cell. *)
Lemma edit_header_cells f g :
  xw.edit_block (col_D, 4%nat) (col_I, 4%nat) f g
  = xw.edit_cell (9, 4)%nat f
      (xw.edit_cell (8, 4)%nat f
         (xw.edit_cell (7, 4)%nat f
            (xw.edit_cell (6, 4)%nat f
               (xw.edit_cell (5, 4)%nat f
                  (xw.edit_cell (4, 4)%nat f g))))).
Proof. reflexivity. Qed.

Ltac addr_ne_lia :=
  let H := fresh in
  intros H; injection H; unfold col_A, col_B, col_D, col_I, col_K in *;
  intros; lia.

Ltac addr_out_lia :=
  unfold col_A, col_B, col_D, col_I, col_K in *; cbn [fst snd]; lia.

(** Reading a cell whose address is known up to arithmetic. *)
Ltac read_step_sym :=
  lazymatch goal with
  | |- context [cell_at empty_grid ?a] => rewrite (cell_at_empty a)
  | |- context [cell_at (xw.edit_cell ?a ?f ?g) ?a'] =>
      first [ rewrite (cell_at_edit_cell_ne a a' f g) by addr_ne_lia
            | rewrite (cell_at_edit_cell_eq a f g) ]
  | |- context [cell_at (xw.edit_block ?a1 ?a2 ?f ?g) ?a'] =>
      first [ rewrite (cell_at_edit_block_out a1 a2 f g a') by addr_out_lia
            | rewrite (edit_header_cells f g) ]
  | |- context [cell_at (xw.add_border ?a1 ?a2 ?z ?g) ?a] =>
      rewrite (cell_at_add_border a1 a2 z g a)
  | |- context [cell_at (xw.add_autofit ?c1 ?c2 ?g) ?a] =>
      rewrite (cell_at_add_autofit c1 c2 g a)
  | |- context [cell_at (xw.add_picture ?p ?g) ?a] =>
      rewrite (cell_at_add_picture p g a)
  end.



(** ** Rounding *)



(** ** The table on the sheet *)

Lemma table_header_values (hist : list row) :
  frame_array "Date" ["Open"; "High"; "Low"; "Close"; "Volume"]
    (df_display hist) !! 0%nat
  = Some (VStr <$> table_labels).
Proof. reflexivity. Qed.

Lemma report_header_cell (e : env) (t : string) (j : nat) (l : string) :
  table_labels !! j = Some l →
  cell_at (report_grid e t) (col_D + j, 4)%nat
  = xw.with_font_bold true
      (xw.with_font_color (255, 255, 255)%Z
         (xw.with_color (0, 102, 204)%Z (xw.with_value (VStr l) blank))).
Proof.
  intros Hj.
  assert ((VStr <$> table_labels) !! j = Some (VStr l)) as Hv.
  { by rewrite list_lookup_fmap, Hj. }
  pose proof (cell_at_write_array_in col_D 4 _ 
                (apply_edits
                   (take 32 (report_edits t (env_hist e)
                               (info_or_placeholder e t) (env_now e)))
                   empty_grid)
                0 _ j _ (table_header_values (env_hist e)) Hv) as Hw.
  unfold report_grid, apply_edits, report_edits in *;
    cbn [fold_left take] in Hw |- *.
  destruct j as [|[|[|[|[|[|j]]]]]]; [..|done]; injection Hj as <-.
  all: match goal with
       | |- context [(col_D + ?k)%nat] =>
           let v := eval vm_compute in (col_D + k)%nat in
           change (col_D + k)%nat with v in Hw |- *
       end; change (4 + 0)%nat with 4%nat in Hw.
  all: repeat read_step_sym.
  all: rewrite Hw; repeat read_step_sym; reflexivity.
Qed.



(** X13. The header row of the table: the six cells D4 to I4 hold the labels
    Date, Open, High, Low, Close and Volume, in this order, in bold white on
    the fill colour (0, 102, 204). *)
Theorem table_header_formatted (e : env) (b : book) (t : string) :
  ready b t →
  env_hist e ≠ [] →
  ∃ g,
    report_sheet (run e b).2 = Some g
    ∧ ∀ j l,
        table_labels !! j = Some l →
        cell_at g (col_D + j, 4)%nat
        = {| c_value := VStr l; c_font_size := None; c_font_bold := true;
             c_font_color := Some (255, 255, 255)%Z;
             c_number_format := None;
             c_color := Some (0, 102, 204)%Z |}.
Proof.
  intros Hr Hh. destruct (ready_run e b t Hr Hh) as (_ & _ & Hg).
  exists (report_grid e t). split; [exact Hg|].
  intros j l Hj. by rewrite (report_header_cell e t j l Hj).
Qed.

Lemma table_header_formatted_witness :
  ∃ g,
    report_sheet
      (run (Sample.market Sample.hist None 0) (Sample.wb (VStr "aapl"))).2
    = Some g
    ∧ ∀ j l,
        table_labels !! j = Some l →
        cell_at g (col_D + j, 4)%nat
        = {| c_value := VStr l; c_font_size := None; c_font_bold := true;
             c_font_color := Some (255, 255, 255)%Z;
             c_number_format := None;
             c_color := Some (0, 102, 204)%Z |}.
Proof.
  apply (table_header_formatted (Sample.market Sample.hist None 0)
           (Sample.wb (VStr "aapl")) "aapl").
  - split; [reflexivity|split; [discriminate|split; [vm_compute; lia|discriminate]]].
  - discriminate.
Defined.

(** ** The extent of the report *)

Lemma in_block_false (a1 a2 a : addr) :
  in_block a1 a2 a = false →
  (a.1 < a1.1 ∨ a2.1 < a.1 ∨ a.2 < a1.2 ∨ a2.2 < a.2)%nat.
Proof.
  unfold in_block. rewrite !andb_false_iff, !Nat.leb_gt. tauto.
Qed.

Lemma cells_write_row_right c r vs g a' :
  (c + length vs ≤ a'.1)%nat →
  g_cells (xw.write_row c r vs g) !! a' = g_cells g !! a'.
Proof.
  revert c g. induction vs as [|v vs IH]; intros c g H; [done|].
  cbn [xw.write_row]. cbn [length] in H. rewrite IH by lia.
  apply cells_edit_cell_ne. destruct a' as [c' r']. cbn in H.
  intros [= -> ->]. lia.
Qed.

Lemma cells_write_array_right c r rows w g a' :
  Forall (λ vs, length vs ≤ w)%nat rows →
  (c + w ≤ a'.1)%nat →
  g_cells (xw.write_array c r rows g) !! a' = g_cells g !! a'.
Proof.
  intros Hw H. revert r g.
  induction Hw as [|vs rows Hvs _ IH]; intros r g; [done|].
  cbn [xw.write_array]. rewrite IH. apply cells_write_row_right. lia.
Qed.

Lemma frame_rows_width (hist : list row) :
  Forall (λ vs, length vs ≤ 6)%nat
    (frame_array "Date" ["Open"; "High"; "Low"; "Close"; "Volume"]
       (df_display hist)).
Proof.
  unfold frame_array, df_display. constructor; [cbn; lia|].
  rewrite <- list_fmap_compose. apply Forall_fmap, Forall_true.
  intros x. cbn. lia.
Qed.

Lemma frame_rows_length (hist : list row) :
  length (frame_array "Date" ["Open"; "High"; "Low"; "Close"; "Volume"]
            (df_display hist)) = S (length hist).
Proof.
  unfold frame_array, df_display. cbn [length]. by rewrite !length_fmap.
Qed.

Lemma cell_at_table_out (hist : list row) g a' :
  (a'.1 < 4 ∨ 9 < a'.1 ∨ a'.2 < 4 ∨ 4 + length hist < a'.2)%nat →
  cell_at
    (xw.write_array col_D 4
       (frame_array "Date" ["Open"; "High"; "Low"; "Close"; "Volume"]
          (df_display hist)) g) a'
  = cell_at g a'.
Proof.
  intros [H|[H|[H|H]]].
  - apply cell_at_write_array_out. unfold col_D. lia.
  - unfold cell_at.
    rewrite (cells_write_array_right _ _ _ 6); [done|apply frame_rows_width|].
    unfold col_D. lia.
  - apply cell_at_write_array_out. lia.
  - apply cell_at_write_array_below. rewrite frame_rows_length. lia.
Qed.

Ltac out_step :=
  lazymatch goal with
  | |- context [cell_at empty_grid ?a] => rewrite (cell_at_empty a)
  | |- context [cell_at (xw.edit_cell ?a ?f ?g) ?a'] =>
      rewrite (cell_at_edit_cell_ne a a' f g) by addr_ne_lia
  | |- context [cell_at (xw.edit_block ?a1 ?a2 ?f ?g) ?a'] =>
      rewrite (cell_at_edit_block_out a1 a2 f g a') by addr_out_lia
  | |- context [cell_at (xw.write_array col_D 4 (frame_array _ _ (df_display ?h)) ?g) ?a'] =>
      rewrite (cell_at_table_out h g a') by addr_out_lia
  | |- context [cell_at (xw.add_border ?a1 ?a2 ?z ?g) ?a] =>
      rewrite (cell_at_add_border a1 a2 z g a)
  | |- context [cell_at (xw.add_autofit ?c1 ?c2 ?g) ?a] =>
      rewrite (cell_at_add_autofit c1 c2 g a)
  | |- context [cell_at (xw.add_picture ?p ?g) ?a] =>
      rewrite (cell_at_add_picture p g a)
  end.

Lemma report_blank_outside (e : env) (t : string) (a : addr) :
  report_area (length (env_hist e)) a = false →
  cell_at (report_grid e t) a = blank.
Proof.
  unfold report_area. intros H.
  repeat (apply orb_false_elim in H as [H ?]).
  repeat match goal with
         | H : in_block _ _ _ = false |- _ => apply in_block_false in H
         end.
  destruct a as [c r]. cbn [fst snd] in *.
  unfold report_grid, apply_edits, report_edits; cbn [fold_left].
  repeat out_step. reflexivity.
Qed.

Lemma borders_decor (g : grid) : g_borders g = (decor g).1.1.
Proof. reflexivity. Qed.

Lemma autofit_decor (g : grid) : g_autofit g = (decor g).1.2.
Proof. reflexivity. Qed.

(** X14. The report keeps to its ranges: with [n] fetched rows, every cell
    of the report sheet outside A1, A3:B10, D3, the table D4:I(4+n) and A12
    is blank; the only border drawn is the one around the table D4:I(4+n),
    header row and one row per record, of weight 2, and the columns
    autofitted are A to I. *)
Theorem report_keeps_to_ranges (e : env) (b : book) (t : string) :
  ready b t →
  env_hist e ≠ [] →
  ∃ g,
    report_sheet (run e b).2 = Some g
    ∧ (∀ a, report_area (length (env_hist e)) a = false →
            cell_at g a = blank)
    ∧ g_borders g = [((col_D, 4%nat), (col_I, (4 + length (env_hist e))%nat), 2%Z)]
    ∧ g_autofit g = [(col_A, col_I)].
Proof.
  intros Hr Hh. destruct (ready_run e b t Hr Hh) as (_ & _ & Hg).
  exists (report_grid e t). split; [exact Hg|].
  split; [intros a; apply report_blank_outside|]. split.
  - rewrite (borders_decor (report_grid e t)), report_decor. reflexivity.
  - rewrite (autofit_decor (report_grid e t)), report_decor. reflexivity.
Qed.

Lemma report_keeps_to_ranges_witness :
  ∃ g,
    report_sheet
      (run (Sample.market Sample.hist None 0) (Sample.wb (VStr "aapl"))).2
    = Some g
    ∧ (∀ a, report_area (length Sample.hist) a = false →
            cell_at g a = blank)
    ∧ g_borders g = [((col_D, 4%nat), (col_I, (4 + length Sample.hist)%nat), 2%Z)]
    ∧ g_autofit g = [(col_A, col_I)].
Proof.
  apply (report_keeps_to_ranges (Sample.market Sample.hist None 0)
           (Sample.wb (VStr "aapl")) "aapl").
  - split; [reflexivity|split; [discriminate|split; [vm_compute; lia|discriminate]]].
  - discriminate.
Defined.

(** ** The markers of the chart *)

Section ArgBest.
Variable le : Q → Q → Prop.
Variable better : Q → Q → bool.
Hypothesis le_refl : ∀ x, le x x.
Hypothesis le_trans : ∀ x y z, le x y → le y z → le x z.
Hypothesis le_total : ∀ x y, le x y ∨ le y x.
Hypothesis better_true : ∀ v best, better v best = true → ¬ le v best.
Hypothesis better_false : ∀ v best, better v best = false → le v best.

Lemma arg_best_first (pre l : list (date * Q)) (best : date * Q) (k : nat) :
  pre !! k = Some best →
  (∀ j y, pre !! j = Some y → le y.2 best.2) →
  (∀ j y, (j < k)%nat → pre !! j = Some y → ¬ le best.2 y.2) →
  ∃ i,
    (pre ++ l)%list !! i = Some (arg_best better best l)
    ∧ (∀ j y, (pre ++ l)%list !! j = Some y →
              le y.2 (arg_best better best l).2)
    ∧ (∀ j y, (j < i)%nat → (pre ++ l)%list !! j = Some y →
              ¬ le (arg_best better best l).2 y.2).
Proof.
  revert pre best k. induction l as [|x l IH]; intros pre best k Hk Hall Hbefore.
  - exists k. rewrite app_nil_r. cbn [arg_best]. by split.
  - cbn [arg_best]. rewrite cons_middle, app_assoc.
    destruct (better x.2 best.2) eqn:E.
    + apply better_true in E.
      assert (le best.2 x.2) as Hbx by (destruct (le_total best.2 x.2); done).
      apply (IH (pre ++ [x])%list x (length pre)).
      * by rewrite lookup_app_r, Nat.sub_diag by lia.
      * intros j y Hj. apply lookup_app_Some in Hj as [Hj|[_ Hj]].
        -- eapply le_trans; [by eapply Hall|done].
        -- apply list_lookup_singleton_Some in Hj as [_ <-]. apply le_refl.
      * intros j y Hlt Hj. rewrite lookup_app_l in Hj by done.
        intros Hxy. apply E. eapply le_trans; [exact Hxy|by eapply Hall].
    + apply better_false in E.
      apply lookup_lt_Some in Hk as Hklt.
      apply (IH (pre ++ [x])%list best k).
      * by rewrite lookup_app_l.
      * intros j y Hj. apply lookup_app_Some in Hj as [Hj|[_ Hj]].
        -- by eapply Hall.
        -- by apply list_lookup_singleton_Some in Hj as [_ <-].
      * intros j y Hlt Hj. rewrite lookup_app_l in Hj by lia.
        by eapply Hbefore.
Qed.
End ArgBest.

Lemma zip_index_close (hist : list row) :
  zip (index hist) (Close hist) = (λ r, (r_date r, r_close r)) <$> hist.
Proof.
  unfold index, Close. induction hist as [|r rs IH]; [done|].
  cbn [fmap list_fmap zip zip_with]. f_equal. exact IH.
Qed.

Lemma idxmax_first (hist : list row) :
  hist ≠ [] →
  ∃ i r,
    hist !! i = Some r
    ∧ idxmax (index hist) (Close hist) = Some (r_date r)
    ∧ (∀ j r', hist !! j = Some r' → (r_close r' <= r_close r)%Q)
    ∧ (∀ j r', (j < i)%nat → hist !! j = Some r' →
               (r_close r' < r_close r)%Q).
Proof.
  intros Hh. unfold idxmax. rewrite zip_index_close.
  destruct hist as [|r0 rs]; [done|]. cbn [fmap list_fmap].
  set (pairs := fmap (M := list) (λ r, (r_date r, r_close r))).
  destruct (arg_best_first Qle (λ v best, negb (Qle_bool v best))
              Qle_refl Qle_trans) with
    (pre := [(r_date r0, r_close r0)]) (l := pairs rs)
    (best := (r_date r0, r_close r0)) (k := 0%nat)
    as (i & Hi & Hall & Hbefore).
  - intros x y. destruct (Qlt_le_dec y x) as [H|H]; [|by left].
    right. by apply Qlt_le_weak.
  - intros v best H Hle. apply Qle_bool_iff in Hle. by rewrite Hle in H.
  - intros v best H. apply Qle_bool_iff. by apply negb_false_iff in H.
  - done.
  - intros j y Hj. apply list_lookup_singleton_Some in Hj as [_ <-].
    apply Qle_refl.
  - intros j y Hj. lia.
  - change ([(r_date r0, r_close r0)] ++ pairs rs)%list
      with ((λ r, (r_date r, r_close r)) <$> r0 :: rs) in Hi, Hall, Hbefore.
    rewrite list_lookup_fmap in Hi.
    destruct ((r0 :: rs) !! i) as [r|] eqn:Er; [|done].
    injection Hi as Hi. rewrite <- Hi in Hall, Hbefore. rewrite <- Hi.
    exists i, r. split; [done|]. split; [done|]. split.
    + intros j r' Hj. apply (Hall j (r_date r', r_close r')).
      by rewrite list_lookup_fmap, Hj.
    + intros j r' Hlt Hj. apply Qnot_le_lt.
      apply (Hbefore j (r_date r', r_close r') Hlt).
      by rewrite list_lookup_fmap, Hj.
Qed.

Lemma idxmin_first (hist : list row) :
  hist ≠ [] →
  ∃ i r,
    hist !! i = Some r
    ∧ idxmin (index hist) (Close hist) = Some (r_date r)
    ∧ (∀ j r', hist !! j = Some r' → (r_close r <= r_close r')%Q)
    ∧ (∀ j r', (j < i)%nat → hist !! j = Some r' →
               (r_close r < r_close r')%Q).
Proof.
  intros Hh. unfold idxmin. rewrite zip_index_close.
  destruct hist as [|r0 rs]; [done|]. cbn [fmap list_fmap].
  set (pairs := fmap (M := list) (λ r, (r_date r, r_close r))).
  destruct (arg_best_first (λ x y, (y <= x)%Q)
              (λ v best, negb (Qle_bool best v))) with
    (pre := [(r_date r0, r_close r0)]) (l := pairs rs)
    (best := (r_date r0, r_close r0)) (k := 0%nat)
    as (i & Hi & Hall & Hbefore).
  - apply Qle_refl.
  - intros x y z Hxy Hyz. by apply (Qle_trans _ y).
  - intros x y. destruct (Qlt_le_dec y x) as [H|H]; [|by right].
    left. by apply Qlt_le_weak.
  - intros v best H Hle. apply Qle_bool_iff in Hle. by rewrite Hle in H.
  - intros v best H. apply Qle_bool_iff. by apply negb_false_iff in H.
  - done.
  - intros j y Hj. apply list_lookup_singleton_Some in Hj as [_ <-].
    apply Qle_refl.
  - intros j y Hj. lia.
  - change ([(r_date r0, r_close r0)] ++ pairs rs)%list
      with ((λ r, (r_date r, r_close r)) <$> r0 :: rs) in Hi, Hall, Hbefore.
    rewrite list_lookup_fmap in Hi.
    destruct ((r0 :: rs) !! i) as [r|] eqn:Er; [|done].
    injection Hi as Hi. rewrite <- Hi in Hall, Hbefore. rewrite <- Hi.
    exists i, r. split; [done|]. split; [done|]. split.
    + intros j r' Hj. apply (Hall j (r_date r', r_close r')).
      by rewrite list_lookup_fmap, Hj.
    + intros j r' Hlt Hj. apply Qnot_le_lt.
      apply (Hbefore j (r_date r', r_close r') Hlt).
      by rewrite list_lookup_fmap, Hj.
Qed.

Lemma in_close (hist : list row) (q : Q) :
  In q (Close hist) → ∃ j r, hist !! j = Some r ∧ r_close r = q.
Proof.
  intros H. apply list_elem_of_In in H. unfold Close in H.
  apply list_elem_of_fmap in H as (r & -> & Hr).
  apply list_elem_of_lookup in Hr as (j & Hj). by exists j, r.
Qed.

Lemma close_in (hist : list row) (j : nat) (r : row) :
  hist !! j = Some r → In (r_close r) (Close hist).
Proof.
  intros H. apply list_elem_of_In. unfold Close.
  apply list_elem_of_fmap. exists r. split; [done|].
  by apply list_elem_of_lookup_2 in H.
Qed.

(** X15. The markers of the price chart sit on the plotted line at the
    extreme closes: the picture's line has one point per fetched row (its
    date, its close); the first marker (green, "^") is at the date of a row
    whose close no row exceeds and which every earlier row stays strictly
    below, at a height equal to that close; the second (red, "v") is
    likewise at the first row of minimal close. *)
Theorem chart_markers_at_extremes (e : env) (b : book) (t : string) :
  ready b t →
  env_hist e ≠ [] →
  ∃ g p hi lo ihi ilo rhi rlo,
    report_sheet (run e b).2 = Some g
    ∧ g_pictures g = [p]
    ∧ fig_line (p_image p) = (λ r, (r_date r, r_close r)) <$> env_hist e
    ∧ fig_markers (p_image p) = [hi; lo]
    ∧ (mk_color hi, mk_shape hi, mk_color lo, mk_shape lo)
      = ("green", "^", "red", "v")
    ∧ env_hist e !! ihi = Some rhi
    ∧ env_hist e !! ilo = Some rlo
    ∧ mk_x hi = r_date rhi ∧ (mk_y hi == r_close rhi)%Q
    ∧ mk_x lo = r_date rlo ∧ (mk_y lo == r_close rlo)%Q
    ∧ (∀ j r, env_hist e !! j = Some r →
              (r_close rlo <= r_close r <= r_close rhi)%Q)
    ∧ (∀ j r, (j < ihi)%nat → env_hist e !! j = Some r →
              (r_close r < r_close rhi)%Q)
    ∧ (∀ j r, (j < ilo)%nat → env_hist e !! j = Some r →
              (r_close rlo < r_close r)%Q).
Proof.
  intros Hr Hh. destruct (ready_run e b t Hr Hh) as (_ & _ & Hg).
  destruct (idxmax_first _ Hh) as (ihi & rhi & Hihi & Hmax & Hhi & Hhi').
  destruct (idxmin_first _ Hh) as (ilo & rlo & Hilo & Hmin & Hlo & Hlo').
  assert (Close (env_hist e) ≠ []) as Hc.
  { unfold Close. by apply fmap_not_nil. }
  destruct (series_max_spec _ Hc) as (Hmi & Hmu).
  destruct (series_min_spec _ Hc) as (Hni & Hnu).
  exists (report_grid e t), (stock_chart t (env_hist e)).
  eexists _, _. exists ihi, ilo, rhi, rlo.
  split; [exact Hg|]. split.
  { rewrite (pictures_decor (report_grid e t)). by rewrite report_decor. }
  cbn [p_image stock_chart chart fig_line fig_markers].
  split; [apply zip_index_close|]. split; [reflexivity|].
  cbn [mk_x mk_y mk_color mk_shape]. rewrite Hmax, Hmin. cbn [default].
  split; [reflexivity|]. split; [exact Hihi|]. split; [exact Hilo|].
  split; [reflexivity|]. split.
  { apply Qle_antisym.
    - apply in_close in Hmi as (j & r & Hj & <-). by apply (Hhi j).
    - apply Hmu. by apply (close_in _ ihi). }
  split; [reflexivity|]. split.
  { apply Qle_antisym.
    - apply Hnu. by apply (close_in _ ilo).
    - apply in_close in Hni as (j & r & Hj & <-). by apply (Hlo j). }
  split; [|split; [exact Hhi'|exact Hlo']].
  intros j r Hj. split; [by apply (Hlo j)|by apply (Hhi j)].
Qed.

Lemma chart_markers_at_extremes_witness :
  let e := Sample.market Sample.hist None 0 in
  ∃ g p hi lo ihi ilo rhi rlo,
    report_sheet (run e (Sample.wb (VStr "aapl"))).2 = Some g
    ∧ g_pictures g = [p]
    ∧ fig_line (p_image p) = (λ r, (r_date r, r_close r)) <$> env_hist e
    ∧ fig_markers (p_image p) = [hi; lo]
    ∧ (mk_color hi, mk_shape hi, mk_color lo, mk_shape lo)
      = ("green", "^", "red", "v")
    ∧ env_hist e !! ihi = Some rhi
    ∧ env_hist e !! ilo = Some rlo
    ∧ mk_x hi = r_date rhi ∧ (mk_y hi == r_close rhi)%Q
    ∧ mk_x lo = r_date rlo ∧ (mk_y lo == r_close rlo)%Q
    ∧ (∀ j r, env_hist e !! j = Some r →
              (r_close rlo <= r_close r <= r_close rhi)%Q)
    ∧ (∀ j r, (j < ihi)%nat → env_hist e !! j = Some r →
              (r_close r < r_close rhi)%Q)
    ∧ (∀ j r, (j < ilo)%nat → env_hist e !! j = Some r →
              (r_close rlo < r_close r)%Q).
Proof.
  intros e.
  apply (chart_markers_at_extremes e (Sample.wb (VStr "aapl")) "aapl").
  - split; [reflexivity|split; [discriminate|split; [vm_compute; lia|discriminate]]].
  - discriminate.
Defined.
